(** * MedExplain-AI: the lab analysis core ([services/medical_analyzer.py])

    A shallow embedding of [MedicalAnalyzer]: the categorizer
    ([categorize_lab_results]), the health scorer ([calculate_health_score]),
    the risk detector ([detect_risk_factors]) and the trend analyzer
    ([generate_trend_analysis]), followed by the properties of the
    specification that concern them.

    Conventions of the embedding.
    - Python numbers ([int] and [float]) are exact rationals [Q]; a decimal
      literal such as [5.6] denotes the rational [56/10].  Binary rounding of
      floats, infinities and NaN are outside the model.  True division [/]
      raises [ZeroDivisionError] on a zero divisor, as it does in Python for
      both [int] and [float] operands.
    - A Python [dict] is an insertion-ordered association list with the
      update-in-place-or-append behaviour of [d[k] = v].
    - A value received from the caller is a number or a string (the request
      body is parsed JSON); booleans, null and nested values are outside the
      model.
    - Exceptions are an explicit error result; [datetime.now()] reads an
      explicit clock that advances with every reading.
    - Formatted numbers inside f-strings are kept structured (label, number,
      unit) rather than rendered. *)

From Stdlib Require Import QArith Qround Qabs ZArith Lia Lqa Sorted Permutation.
From stdpp Require Import base list strings.

Local Open Scope Q_scope.

(** ** Python runtime: exceptions, numbers, values, dicts, the clock *)

Inductive exn : Type :=
  | ZeroDivisionError
  | TypeError
  | IndexError
  | UnboundLocalError.

Inductive result (A : Type) : Type :=
  | Ok (a : A)
  | Raise (e : exn).
Arguments Ok {A} a.
Arguments Raise {A} e.

#[global] Instance result_ret : MRet result := fun A a => Ok a.
#[global] Instance result_bind : MBind result := fun A B f m =>
  match m with
  | Ok a => f a
  | Raise e => Raise e
  end.

Definition returns {A} (m : result A) : Prop := exists a, m = Ok a.

Definition Qlt_bool (x y : Q) : bool := negb (Qle_bool y x).

(** [a / b] *)
Definition py_div (a b : Q) : result Q :=
  if Qeq_bool b 0 then Raise ZeroDivisionError else Ok (a / b).

(** [round(x, ndigits)]: to the nearest multiple of [10^-ndigits], ties to
    the even one. *)
Definition round_half_even (x : Q) : Z :=
  let f := Qfloor x in
  let r := x - inject_Z f in
  if Qlt_bool r (1 # 2) then f
  else if Qlt_bool (1 # 2) r then (f + 1)%Z
  else if Z.even f then f else (f + 1)%Z.

Definition py_round (x : Q) (ndigits : nat) : Q :=
  let scale := Pos.pow 10 (Pos.of_nat ndigits) in
  match ndigits with
  | O => inject_Z (round_half_even x)
  | S _ => Qmake (round_half_even (x * inject_Z (Zpos scale))) scale
  end.

Inductive value : Type :=
  | VNum (q : Q)
  | VStr (s : string).

(** [v >= c], [v > c], [v < c], [v <= c] against a numeric literal; a string
    operand is a [TypeError]. *)
Definition py_ge_num (v : value) (c : Q) : result bool :=
  match v with VNum q => Ok (Qle_bool c q) | VStr _ => Raise TypeError end.
Definition py_gt_num (v : value) (c : Q) : result bool :=
  match v with VNum q => Ok (Qlt_bool c q) | VStr _ => Raise TypeError end.
Definition py_lt_num (v : value) (c : Q) : result bool :=
  match v with VNum q => Ok (Qlt_bool q c) | VStr _ => Raise TypeError end.
Definition py_le_num (v : value) (c : Q) : result bool :=
  match v with VNum q => Ok (Qle_bool q c) | VStr _ => Raise TypeError end.

(** [a < b] between two values, as [sorted] applies it to its keys. *)
Definition py_lt (a b : value) : result bool :=
  match a, b with
  | VNum x, VNum y => Ok (Qlt_bool x y)
  | VStr s, VStr t => Ok (String.ltb s t)
  | _, _ => Raise TypeError
  end.

Definition dict (V : Type) : Type := list (string * V).

Fixpoint dict_get {V} (d : dict V) (k : string) : option V :=
  match d with
  | [] => None
  | (k', v) :: d' => if String.eqb k' k then Some v else dict_get d' k
  end.

Definition dict_mem {V} (d : dict V) (k : string) : bool :=
  match dict_get d k with Some _ => true | None => false end.

(** [d[k] = v] *)
Fixpoint dict_set {V} (d : dict V) (k : string) (v : V) : dict V :=
  match d with
  | [] => [(k, v)]
  | (k', v') :: d' =>
      if String.eqb k' k then (k', v) :: d' else (k', v') :: dict_set d' k v
  end.

(** A Python dict holds each key once. *)
Definition dict_wf {V} (d : dict V) : Prop := NoDup (d.*1).

(** [x in l] for a list of strings *)
Definition str_in (x : string) (l : list string) : bool :=
  existsb (String.eqb x) l.

Record world : Type := {
  clock : nat -> string;
  ticks : nat
}.

(** [datetime.now().isoformat()] *)
Definition datetime_now_isoformat (w : world) : string * world :=
  (clock w (ticks w), {| clock := clock w; ticks := S (ticks w) |}).

(** ** [MedicalAnalyzer.__init__]: the static tables *)

Record reference_range : Type := {
  ref_min : Q;
  ref_max : Q;
  ref_unit : string;
  ref_category : string
}.

Definition reference_ranges : dict reference_range := [
  ("glucose", {| ref_min := 70; ref_max := 100; ref_unit := "mg/dL"; ref_category := "Metabolic" |});
  ("hba1c", {| ref_min := 4; ref_max := 56 # 10; ref_unit := "%"; ref_category := "Metabolic" |});
  ("cholesterol", {| ref_min := 125; ref_max := 200; ref_unit := "mg/dL"; ref_category := "Cardiovascular" |});
  ("ldl", {| ref_min := 0; ref_max := 100; ref_unit := "mg/dL"; ref_category := "Cardiovascular" |});
  ("hdl", {| ref_min := 40; ref_max := 60; ref_unit := "mg/dL"; ref_category := "Cardiovascular" |});
  ("triglycerides", {| ref_min := 0; ref_max := 150; ref_unit := "mg/dL"; ref_category := "Cardiovascular" |});
  ("creatinine", {| ref_min := 6 # 10; ref_max := 12 # 10; ref_unit := "mg/dL"; ref_category := "Renal" |});
  ("bun", {| ref_min := 7; ref_max := 20; ref_unit := "mg/dL"; ref_category := "Renal" |});
  ("sodium", {| ref_min := 135; ref_max := 145; ref_unit := "mmol/L"; ref_category := "Electrolytes" |});
  ("potassium", {| ref_min := 35 # 10; ref_max := 5; ref_unit := "mmol/L"; ref_category := "Electrolytes" |});
  ("wbc", {| ref_min := 45 # 10; ref_max := 11; ref_unit := "10^3/uL"; ref_category := "Hematology" |});
  ("hemoglobin", {| ref_min := 135 # 10; ref_max := 175 # 10; ref_unit := "g/dL"; ref_category := "Hematology" |});
  ("platelets", {| ref_min := 150; ref_max := 450; ref_unit := "10^3/uL"; ref_category := "Hematology" |})
].

Record status_style : Type := {
  style_color : string;
  style_text : string
}.

Definition status_colors : dict status_style := [
  ("normal", {| style_color := "#10B981"; style_text := "Normal" |});
  ("borderline", {| style_color := "#F59E0B"; style_text := "Borderline" |});
  ("critical", {| style_color := "#EF4444"; style_text := "Critical" |});
  ("warning", {| style_color := "#F97316"; style_text := "Warning" |});
  ("good", {| style_color := "#3B82F6"; style_text := "Good" |})
].

(** ** The categorizer *)

Definition _get_status_below (min_val actual : Q) : result string :=
  r ← py_div (min_val - actual) min_val;
  let deviation := r * 100 in
  if Qlt_bool 30 deviation then mret "critical"
  else if Qlt_bool 15 deviation then mret "warning"
  else mret "borderline".

Definition _get_status_above (max_val actual : Q) : result string :=
  r ← py_div (actual - max_val) max_val;
  let deviation := r * 100 in
  if Qlt_bool 30 deviation then mret "critical"
  else if Qlt_bool 15 deviation then mret "warning"
  else mret "borderline".

Definition interpretations : dict (dict string) := [
  ("glucose", [
     ("normal", "Normal fasting blood glucose level.");
     ("borderline", "Slightly elevated blood glucose. Monitor diet.");
     ("warning", "High blood glucose. May indicate prediabetes.");
     ("critical", "Very high blood glucose. Possible diabetes.")]);
  ("hba1c", [
     ("normal", "Good long-term blood sugar control.");
     ("borderline", "Moderate blood sugar control. Lifestyle changes recommended.");
     ("warning", "Poor blood sugar control. May indicate diabetes.");
     ("critical", "Very poor blood sugar control. Diabetes likely.")]);
  ("ldl", [
     ("normal", "Optimal LDL cholesterol level.");
     ("borderline", "Borderline high LDL cholesterol.");
     ("warning", "High LDL cholesterol. Increased heart disease risk.");
     ("critical", "Very high LDL cholesterol. High heart disease risk.")]);
  ("hdl", [
     ("normal", "Good HDL cholesterol level.");
     ("borderline", "Borderline low HDL cholesterol.");
     ("warning", "Low HDL cholesterol. Increased heart disease risk.");
     ("critical", "Very low HDL cholesterol. High heart disease risk.")]);
  ("creatinine", [
     ("normal", "Normal kidney function.");
     ("borderline", "Slightly elevated creatinine. Monitor kidney function.");
     ("warning", "High creatinine. Possible kidney impairment.");
     ("critical", "Very high creatinine. Kidney dysfunction likely.")])
].

Definition _get_interpretation (test_name : string) (value : Q) (status : string) : string :=
  match dict_get interpretations test_name with
  | Some table =>
      match dict_get table status with
      | Some text => text
      | None => "Value is " +:+ status +:+ " compared to reference range."
      end
  | None => "Value is " +:+ status +:+ " compared to reference range."
  end.

Record categorized_result : Type := {
  cr_value : Q;
  cr_unit : string;
  cr_category : string;
  cr_status : string;
  cr_color : string;
  cr_status_text : string;
  cr_min_reference : Q;
  cr_max_reference : Q;
  cr_deviation_percent : Q;
  cr_interpretation : string
}.

(** The body of the loop of [categorize_lab_results] for an item that passed
    the [isinstance] and [in self.reference_ranges] tests. *)
Definition categorize_value (test_name : string) (test_value : Q)
    (ref : reference_range) : result categorized_result :=
  let min_val := ref_min ref in
  let max_val := ref_max ref in
  '(deviation, status) ←
    (if Qlt_bool test_value min_val then
       r ← py_div (min_val - test_value) min_val;
       status ← _get_status_below min_val test_value;
       mret (r * 100, status)
     else if Qlt_bool max_val test_value then
       r ← py_div (test_value - max_val) max_val;
       status ← _get_status_above max_val test_value;
       mret (r * 100, status)
     else mret (0, "normal"));
  mret {|
    cr_value := test_value;
    cr_unit := ref_unit ref;
    cr_category := ref_category ref;
    cr_status := status;
    cr_color := match dict_get status_colors status with
                | Some st => style_color st
                | None => "#6B7280"
                end;
    cr_status_text := match dict_get status_colors status with
                      | Some st => style_text st
                      | None => "Unknown"
                      end;
    cr_min_reference := min_val;
    cr_max_reference := max_val;
    cr_deviation_percent := py_round deviation 2;
    cr_interpretation := _get_interpretation test_name test_value status
  |}.

Fixpoint categorize_loop (items : list (string * value))
    (categorized : dict categorized_result) : result (dict categorized_result) :=
  match items with
  | [] => mret categorized
  | (test_name, test_value) :: rest =>
      match test_value, dict_get reference_ranges test_name with
      | VNum v, Some ref =>
          entry ← categorize_value test_name v ref;
          categorize_loop rest (dict_set categorized test_name entry)
      | _, _ => categorize_loop rest categorized
      end
  end.

Definition categorize_lab_results (lab_data : dict value) : result (dict categorized_result) :=
  categorize_loop lab_data [].

(** ** The health scorer *)

Definition weights : dict Q := [
  ("Metabolic", 3 # 10);
  ("Cardiovascular", 3 # 10);
  ("Renal", 2 # 10);
  ("Hematology", 1 # 10);
  ("Electrolytes", 1 # 10)
].

Definition status_points : dict Q := [
  ("normal", 100);
  ("good", 90);
  ("borderline", 70);
  ("warning", 40);
  ("critical", 10)
].

(** The result dict of [calculate_health_score]; the sentinel carries the
    first two keys only. *)
Record health_score : Type := {
  hs_score : Q;
  hs_status : string;
  hs_status_color : option string;
  hs_category_breakdown : option (dict categorized_result);
  hs_calculated_at : option string
}.

(** The scoring loop: [scores] grows by [append], [total_weight] by [+=].
    Every entry built by the categorizer has the keys [category] and
    [status], so the test on them always passes. *)
Fixpoint score_loop (items : list (string * categorized_result))
    (scores : list Q) (total_weight : Q) : list Q * Q :=
  match items with
  | [] => (scores, total_weight)
  | (test, data) :: rest =>
      let category := cr_category data in
      let status := cr_status data in
      match dict_get status_points status with
      | Some points =>
          let weight := default (1 # 10) (dict_get weights category) in
          score_loop rest (scores ++ [points * weight]) (total_weight + weight)
      | None => score_loop rest scores total_weight
      end
  end.

(** [sum(scores)] *)
Definition py_sum (l : list Q) : Q := fold_left Qplus l 0.

Definition health_label (avg_score : Q) : string * string :=
  if Qle_bool 85 avg_score then ("Excellent", "#10B981")
  else if Qle_bool 70 avg_score then ("Good", "#3B82F6")
  else if Qle_bool 50 avg_score then ("Fair", "#F59E0B")
  else ("Needs Attention", "#EF4444").

Definition calculate_health_score (lab_data : dict value) (w : world)
    : result (health_score * world) :=
  match lab_data with
  | [] =>
      mret ({| hs_score := 0; hs_status := "Insufficient Data";
               hs_status_color := None; hs_category_breakdown := None;
               hs_calculated_at := None |}, w)
  | _ :: _ =>
      categorized ← categorize_lab_results lab_data;
      let '(scores, total_weight) := score_loop categorized [] 0 in
      avg_score ←
        (match scores with
         | _ :: _ =>
             if Qlt_bool 0 total_weight then py_div (py_sum scores) total_weight
             else mret 0
         | [] => mret 0
         end);
      let '(health_status, status_color) := health_label avg_score in
      let '(now, w') := datetime_now_isoformat w in
      mret ({| hs_score := py_round avg_score 1;
               hs_status := health_status;
               hs_status_color := Some status_color;
               hs_category_breakdown := Some categorized;
               hs_calculated_at := Some now |}, w')
  end.

(** ** The risk detector *)

(** An indicator [f"{label}: {value}{unit}"], kept structured. *)
Record indicator : Type := {
  ind_label : string;
  ind_value : value;
  ind_unit : string
}.

Record risk_finding : Type := {
  condition : string;
  risk_level : string;
  indicators : list indicator;
  recommendations : list string
}.

Record risk_report : Type := {
  detected_risks : list risk_finding;
  total_risks : nat;
  highest_risk : string;
  analyzed_at : string
}.

Definition diabetes_check (lab_data : dict value) : result (list risk_finding) :=
  match dict_get lab_data "hba1c" with
  | Some hba1c =>
      hit ← py_ge_num hba1c (57 # 10);
      if hit : bool then
        high ← py_ge_num hba1c (65 # 10);
        mret [{| condition := "Diabetes";
                 risk_level := if high : bool then "high" else "moderate";
                 indicators := [{| ind_label := "HbA1c"; ind_value := hba1c; ind_unit := "%" |}];
                 recommendations := [
                   "Consult endocrinologist";
                   "Monitor blood sugar regularly";
                   "Diet and exercise changes"] |}]
      else mret []
  | None => mret []
  end.

(** One of the three cardiovascular tests: when the key is present and the
    comparison holds, [cardiovascular_risk] becomes [True] and an indicator is
    appended to [cv_indicators]. *)
Definition cv_test (lab_data : dict value) (k : string)
    (test : value -> result bool) (label : string)
    (st : bool * list indicator) : result (bool * list indicator) :=
  match dict_get lab_data k with
  | Some v =>
      hit ← test v;
      if hit : bool
      then mret (true, st.2 ++ [{| ind_label := label; ind_value := v; ind_unit := " mg/dL" |}])
      else mret st
  | None => mret st
  end.

Definition cardiovascular_check (lab_data : dict value) : result (list risk_finding) :=
  st1 ← cv_test lab_data "ldl" (fun v => py_gt_num v 130) "LDL" (false, []);
  st2 ← cv_test lab_data "triglycerides" (fun v => py_gt_num v 150) "Triglycerides" st1;
  '(cardiovascular_risk, cv_indicators) ←
    cv_test lab_data "hdl" (fun v => py_lt_num v 40) "HDL" st2;
  if cardiovascular_risk : bool then
    mret [{| condition := "Cardiovascular Disease";
             risk_level := "moderate";
             indicators := cv_indicators;
             recommendations := [
               "Cardiology consultation";
               "Heart-healthy diet";
               "Regular exercise";
               "Cholesterol management"] |}]
  else mret [].

Definition kidney_check (lab_data : dict value) : result (list risk_finding) :=
  match dict_get lab_data "creatinine" with
  | Some creatinine =>
      hit ← py_gt_num creatinine (12 # 10);
      if hit : bool then
        mild ← py_le_num creatinine 2;
        mret [{| condition := "Kidney Disease";
                 risk_level := if mild : bool then "moderate" else "high";
                 indicators := [{| ind_label := "Creatinine"; ind_value := creatinine; ind_unit := " mg/dL" |}];
                 recommendations := [
                   "Nephrology consultation";
                   "Monitor kidney function";
                   "Stay hydrated";
                   "Avoid NSAIDs"] |}]
      else mret []
  | None => mret []
  end.

(** The three condition checks, in source order; each appends to [risks]. *)
Definition condition_checks (lab_data : dict value) : result (list risk_finding) :=
  r1 ← diabetes_check lab_data;
  r2 ← cardiovascular_check lab_data;
  r3 ← kidney_check lab_data;
  mret (r1 ++ r2 ++ r3).

Definition age_extra : string := "Age increases risk - more frequent monitoring needed".

(** The body of the age loop, applied to one finding. *)
Definition escalate (risk : risk_finding) : risk_finding :=
  if String.eqb (risk_level risk) "moderate" then
    {| condition := condition risk;
       risk_level := "high";
       indicators := indicators risk;
       recommendations := recommendations risk ++ [age_extra] |}
  else risk.

Definition age_adjust (patient_age : Z) (risks : list risk_finding) : list risk_finding :=
  if (60 <? patient_age)%Z then map escalate risks else risks.

(** [max(l, default=d)] on strings: the first greatest element under [<] on
    [str], which is the lexicographic order of the code points. *)
Definition py_max_str (l : list string) (d : string) : string :=
  match l with
  | [] => d
  | x :: rest => fold_left (fun m y => if String.ltb m y then y else m) rest x
  end.

Definition detect_risk_factors (lab_data : dict value) (patient_age : Z) (w : world)
    : result (risk_report * world) :=
  risks0 ← condition_checks lab_data;
  let risks := age_adjust patient_age risks0 in
  let '(now, w') := datetime_now_isoformat w in
  mret ({| detected_risks := risks;
           total_risks := length risks;
           highest_risk := py_max_str (map risk_level risks) "low";
           analyzed_at := now |}, w').

(** ** The trend analyzer *)

Record data_point : Type := {
  dp_date : value;
  dp_value : Q
}.

Record trend : Type := {
  tr_direction : string;
  tr_percent_change : Q;
  tr_first_value : Q;
  tr_last_value : Q;
  tr_first_date : value;
  tr_last_date : value;
  tr_data_points : nat;
  tr_trend_color : string;
  tr_recommendation : string
}.

(** The result dict: the message alone, or the report.  [analysis_period] is
    [f"{a} to {b}"], kept as the pair [(a, b)]. *)
Inductive trend_report : Type :=
  | InsufficientData (message : string)
  | TrendReport (trends : dict trend) (analyzed_tests : nat)
      (analysis_period : value * value) (generated_at : string).

Definition trend_recommendations : dict (dict string) := [
  ("glucose", [
     ("increasing", "Blood sugar increasing. Review diet and medication.");
     ("decreasing", "Blood sugar improving. Continue current management.");
     ("stable", "Blood sugar stable. Maintain current regimen.")]);
  ("ldl", [
     ("increasing", "LDL cholesterol rising. Consider diet changes or medication adjustment.");
     ("decreasing", "LDL cholesterol improving. Continue current treatment.");
     ("stable", "LDL cholesterol stable. Maintain current approach.")]);
  ("hba1c", [
     ("increasing", "Long-term blood sugar control worsening. Review diabetes management.");
     ("decreasing", "Blood sugar control improving. Good progress.");
     ("stable", "Blood sugar control stable. Continue monitoring.")])
].

Definition _get_trend_recommendation (test_name direction : string) (percent_change : Q) : string :=
  match dict_get trend_recommendations test_name with
  | Some table =>
      match dict_get table direction with
      | Some text => text
      | None => "Value is " +:+ direction +:+ ". Discuss with healthcare provider."
      end
  | None => "Value is " +:+ direction +:+ ". Discuss with healthcare provider."
  end.

(** The inner loop over [record.items()]: every numeric item is appended to
    the list of its test, created on first sight. *)
Fixpoint group_items (date : value) (items : list (string * value))
    (test_data : dict (list data_point)) : dict (list data_point) :=
  match items with
  | [] => test_data
  | (test, VNum v) :: rest =>
      let points := default [] (dict_get test_data test) in
      group_items date rest
        (dict_set test_data test (points ++ [{| dp_date := date; dp_value := v |}]))
  | (_, VStr _) :: rest => group_items date rest test_data
  end.

(** The outer loop over the records.  The default of [record.get] is an
    argument, so the clock is read for every record. *)
Fixpoint group_records (historical_data : list (dict value))
    (test_data : dict (list data_point)) (w : world) : dict (list data_point) * world :=
  match historical_data with
  | [] => (test_data, w)
  | record :: rest =>
      let '(now, w') := datetime_now_isoformat w in
      let date := default (VStr now) (dict_get record "date") in
      group_records rest (group_items date record test_data) w'
  end.

(** [sorted(data_points, key=lambda x: x["date"])]: a stable sort that
    compares keys with [<]; a later element goes before the first one it is
    smaller than. *)
Fixpoint sorted_insert (x : data_point) (l : list data_point) : result (list data_point) :=
  match l with
  | [] => mret [x]
  | y :: l' =>
      lt ← py_lt (dp_date x) (dp_date y);
      if lt : bool then mret (x :: y :: l')
      else (r ← sorted_insert x l'; mret (y :: r))
  end.

Fixpoint sorted_from (acc : list data_point) (l : list data_point) : result (list data_point) :=
  match l with
  | [] => mret acc
  | x :: l' => acc' ← sorted_insert x acc; sorted_from acc' l'
  end.

Definition sorted_by_date (data_points : list data_point) : result (list data_point) :=
  sorted_from [] data_points.

(** [l[0]] and [l[-1]] *)
Definition py_first {A} (l : list A) : result A :=
  match head l with Some x => mret x | None => Raise IndexError end.
Definition py_last {A} (l : list A) : result A :=
  match last l with Some x => mret x | None => Raise IndexError end.

Definition lower_is_better : list string := ["glucose"; "ldl"; "creatinine"].

Definition percent_change_of (first_val last_val : Q) : result Q :=
  if negb (Qeq_bool first_val 0)
  then (r ← py_div (last_val - first_val) first_val; mret (r * 100))
  else mret 0.

Definition direction_of (test : string) (percent_change : Q) : string * string :=
  if Qlt_bool (Qabs percent_change) 5 then ("stable", "#6B7280")
  else if Qlt_bool 0 percent_change then
    ("increasing", if str_in test lower_is_better then "#EF4444" else "#10B981")
  else
    ("decreasing", if str_in test lower_is_better then "#10B981" else "#EF4444").

(** The body of the analysis loop for a test with at least two points, given
    its sorted points. *)
Definition analyze_sorted (test : string) (sorted_data : list data_point) : result trend :=
  let values := map dp_value sorted_data in
  let dates := map dp_date sorted_data in
  first_val ← py_first values;
  last_val ← py_last values;
  percent_change ← percent_change_of first_val last_val;
  let '(direction, trend_color) := direction_of test percent_change in
  first_date ← py_first dates;
  last_date ← py_last dates;
  mret {|
    tr_direction := direction;
    tr_percent_change := py_round percent_change 1;
    tr_first_value := first_val;
    tr_last_value := last_val;
    tr_first_date := first_date;
    tr_last_date := last_date;
    tr_data_points := length values;
    tr_trend_color := trend_color;
    tr_recommendation := _get_trend_recommendation test direction percent_change
  |}.

(** The analysis loop.  [sorted_data] is a local of the enclosing function:
    unbound ([None]) until the first test with two points is met, and left at
    the value of the last such test. *)
Fixpoint analyze_loop (items : list (string * list data_point))
    (trends : dict trend) (sorted_data : option (list data_point))
    : result (dict trend * option (list data_point)) :=
  match items with
  | [] => mret (trends, sorted_data)
  | (test, data_points) :: rest =>
      if (2 <=? length data_points)%nat then
        sorted' ← sorted_by_date data_points;
        if (2 <=? length (map dp_value sorted'))%nat then
          t ← analyze_sorted test sorted';
          analyze_loop rest (dict_set trends test t) (Some sorted')
        else analyze_loop rest trends (Some sorted')
      else analyze_loop rest trends sorted_data
  end.

Definition insufficient_message : string :=
  "Insufficient historical data for trend analysis".

Definition generate_trend_analysis (historical_data : list (dict value)) (w : world)
    : result (trend_report * world) :=
  if (length historical_data <? 2)%nat then
    mret (InsufficientData insufficient_message, w)
  else
    let '(test_data, w1) := group_records historical_data [] w in
    '(trends, sorted_data) ← analyze_loop test_data [] None;
    match sorted_data with
    | None => Raise UnboundLocalError
    | Some sorted' =>
        first ← py_first sorted';
        last ← py_last sorted';
        let '(now, w2) := datetime_now_isoformat w1 in
        mret (TrendReport trends (length trends) (dp_date first, dp_date last) now, w2)
    end.

(** ** The health report *)

(** A recommendation of the report.  [FollowUp test value unit interpretation]
    is [f"Follow up on {test} ({value} {unit}) - {interpretation}"], kept
    structured; [Advice text] is a plain sentence. *)
Inductive recommendation : Type :=
  | FollowUp (test : string) (value : Q) (unit : string) (interpretation : string)
  | Advice (text : string).

Definition general_recommendations : list string := [
  "Schedule follow-up appointment with primary care physician";
  "Maintain healthy diet and regular exercise";
  "Monitor any symptoms and report changes to doctor"
].

(** The first loop of [_generate_recommendations]. *)
Fixpoint follow_ups (items : list (string * categorized_result)) : list recommendation :=
  match items with
  | [] => []
  | (test, data) :: rest =>
      if str_in (cr_status data) ["warning"; "critical"]
      then FollowUp test (cr_value data) (cr_unit data) (cr_interpretation data)
           :: follow_ups rest
      else follow_ups rest
  end.

(** [rec in recommendations] for a sentence [rec].  A follow-up starts with
    "Follow up on"; the test is decided on the sentences, which is exact as
    long as no risk recommendation starts that way (none of this analyzer
    does). *)
Definition advice_in (text : string) (recs : list recommendation) : bool :=
  existsb (fun r => match r with
                    | Advice t => String.eqb t text
                    | FollowUp _ _ _ _ => false
                    end) recs.

(** The body of the inner loop over [risk.get("recommendations", [])]. *)
Definition add_advice (recs : list recommendation) (text : string) : list recommendation :=
  if negb (advice_in text recs) then recs ++ [Advice text] else recs.

Definition _generate_recommendations (categorized : dict categorized_result)
    (risk_factors : risk_report) : list recommendation :=
  let recs := follow_ups categorized in
  let recs :=
    fold_left (fun recs risk => fold_left add_advice (recommendations risk) recs)
      (detected_risks risk_factors) recs in
  recs ++ map Advice general_recommendations.

(** The sentence of [_generate_overall_assessment], kept structured:
    - [ExcellentHealth score]: "Excellent overall health with score of {score}.
      Continue healthy lifestyle."
    - [GoodHealth score]: "Good health with score of {score}. Some areas need
      monitoring."
    - [FairHealth score n]: "Fair health with score of {score}. {n} risk
      factor(s) identified. Medical attention recommended."
    - [HealthNeedsAttention score n]: "Health needs attention with score of
      {score}. {n} risk factor(s) identified. Urgent medical review
      recommended." *)
Inductive assessment : Type :=
  | ExcellentHealth (score : Q)
  | GoodHealth (score : Q)
  | FairHealth (score : Q) (risk_count : nat)
  | HealthNeedsAttention (score : Q) (risk_count : nat).

Definition _generate_overall_assessment (score_result : health_score)
    (risk_factors : risk_report) : assessment :=
  let score := hs_score score_result in
  let risk_count := total_risks risk_factors in
  if Qle_bool 85 score then ExcellentHealth score
  else if Qle_bool 70 score then GoodHealth score
  else if Qle_bool 50 score then FairHealth score risk_count
  else HealthNeedsAttention score risk_count.

Record health_report : Type := {
  rp_patient_info : dict value;
  rp_lab_results : dict categorized_result;
  rp_health_score : health_score;
  rp_risk_factors : risk_report;
  rp_recommendations : list recommendation;
  rp_overall_assessment : assessment;
  rp_generated_at : string;
  rp_report_id : string
}.

(** [patient_info.get("age", 50) if patient_info else 50] *)
Definition patient_age_of (patient_info : option (dict value)) : value :=
  match patient_info with
  | Some info => default (VNum 50) (dict_get info "age")
  | None => VNum 50
  end.

(** [self.detect_risk_factors(lab_data, patient_age)] for an age as it comes
    out of [patient_info].  The age is used in [patient_age > 60] only, after
    the three checks: a number passes that comparison exactly when its ceiling
    does, and a string makes it a [TypeError]. *)
Definition detect_risk_factors_for (lab_data : dict value) (patient_age : value)
    (w : world) : result (risk_report * world) :=
  match patient_age with
  | VNum q => detect_risk_factors lab_data (Qceiling q) w
  | VStr _ => _ ← condition_checks lab_data; Raise TypeError
  end.

(** [report_id] is [f"MED_{datetime.now().strftime('%Y%m%d_%H%M%S')}"], kept
    as the clock reading that it formats. *)
Definition generate_health_report (lab_data : dict value)
    (patient_info : option (dict value)) (w : world) : result (health_report * world) :=
  categorized ← categorize_lab_results lab_data;
  '(score_result, w1) ← calculate_health_score lab_data w;
  let patient_age := patient_age_of patient_info in
  '(risk_factors, w2) ← detect_risk_factors_for lab_data patient_age w1;
  let recs := _generate_recommendations categorized risk_factors in
  let overall_assessment := _generate_overall_assessment score_result risk_factors in
  let '(generated_at, w3) := datetime_now_isoformat w2 in
  let '(report_id, w4) := datetime_now_isoformat w3 in
  mret ({| rp_patient_info := default [] patient_info;
           rp_lab_results := categorized;
           rp_health_score := score_result;
           rp_risk_factors := risk_factors;
           rp_recommendations := recs;
           rp_overall_assessment := overall_assessment;
           rp_generated_at := generated_at;
           rp_report_id := report_id |}, w4).

(** ** The second categorizer ([LlamaMedicalService._categorize_lab_results],
    services/llama_service.py) *)

Record llama_category : Type := {
  lc_level : string;
  lc_color : string
}.

(** [a or b] on comparisons: the second is evaluated only when the first is
    false. *)
Definition py_or (a : result bool) (b : result bool) : result bool :=
  x ← a; if x : bool then mret true else b.

Module LlamaMedicalService.

Definition ranges : dict (Q * Q) := [
  ("glucose", (70, 100));
  ("hba1c", (4, 56 # 10));
  ("cholesterol", (125, 200));
  ("ldl", (0, 100));
  ("hdl", (40, 60));
  ("triglycerides", (0, 150))
].

(** The body of the loop for a test of [ranges]. *)
Definition categorize_value (value : value) (min_val max_val : Q)
    : result llama_category :=
  critical ← py_or (py_lt_num value (min_val * (8 # 10)))
                   (py_gt_num value (max_val * (13 # 10)));
  if critical : bool then
    mret {| lc_level := "critical"; lc_color := "red" |}
  else
    slightly ← py_or (py_lt_num value (min_val * (9 # 10)))
                     (py_gt_num value (max_val * (12 # 10)));
    if slightly : bool then
      mret {| lc_level := "slightly_critical"; lc_color := "orange" |}
    else
      mret {| lc_level := "normal"; lc_color := "green" |}.

Fixpoint categorize_loop (items : list (string * value))
    (categories : dict llama_category) : result (dict llama_category) :=
  match items with
  | [] => mret categories
  | (test, value) :: rest =>
      match dict_get ranges test with
      | Some (min_val, max_val) =>
          category ← categorize_value value min_val max_val;
          categorize_loop rest (dict_set categories test category)
      | None => categorize_loop rest categories
      end
  end.

Definition _categorize_lab_results (lab_data : dict value) : result (dict llama_category) :=
  categorize_loop lab_data [].

End LlamaMedicalService.

(** ** The body systems ([analyze_body_systems], routers/analysis.py)

    The endpoint categorizes the snapshot, groups the results by category
    into [systems], scores every system, and answers with [systems], a chart
    drawn from it and a timestamp.  What follows is the computation of
    [systems], the value under "body_systems" of the answer; the chart and
    the timestamp are not modelled.  An exception raised here is answered
    with HTTP status 500. *)









(** * Vocabulary of the specification *)

#[global] Instance result_fmap : FMap result := fun A B f m =>
  match m with
  | Ok a => Ok (f a)
  | Raise e => Raise e
  end.

(** A snapshot whose values are all numbers. *)
Definition is_num (v : value) : bool :=
  match v with VNum _ => true | VStr _ => false end.

Definition numeric (lab_data : dict value) : Prop :=
  forallb (fun kv => is_num kv.2) lab_data = true.

(** The fixed order of the condition checks. *)
Definition three_conditions : list string :=
  ["Diabetes"; "Cardiovascular Disease"; "Kidney Disease"].

(** What the age adjustment does to a finding that is at "moderate". *)
Definition escalated (f0 f1 : risk_finding) : Prop :=
  risk_level f0 = "moderate" ->
  risk_level f1 = "high" /\ recommendations f1 = recommendations f0 ++ [age_extra].

(** A finding left as it was. *)
Definition untouched (f0 f1 : risk_finding) : Prop :=
  risk_level f0 <> "moderate" -> f1 = f0.

(** A clock for the examples: readings a little apart. *)
Definition example_clock (n : nat) : string :=
  match n with
  | 0 => "2024-03-01T09:00:00.000000"
  | 1 => "2024-03-01T09:00:00.000250"
  | 2 => "2024-03-01T09:00:01.000000"
  | 3 => "2024-03-01T09:00:02.500000"
  | 4 => "2024-03-01T09:00:02.500250"
  | 5 => "2024-03-01T09:00:03.000000"
  | _ => "2024-03-01T09:00:04.000000"
  end%nat.

Definition example_world : world := {| clock := example_clock; ticks := 0 |}.



(** An item at which [categorize_lab_results] does not divide by a zero
    bound. *)
Definition safe_item (kv : string * value) : Prop :=
  match kv.2, dict_get reference_ranges kv.1 with
  | VNum v, Some ref =>
      (v < ref_min ref -> ~ ref_min ref == 0)
      /\ (ref_max ref < v -> ~ ref_max ref == 0)
  | _, _ => True
  end.

(** The tier lookup in the words of the specification: deviation > 30 is
    critical; otherwise deviation > 15 is warning; otherwise borderline. *)
Definition tier_of (deviation : Q) (status : string) : Prop :=
  (30 < deviation /\ status = "critical")
  \/ (~ 30 < deviation /\ 15 < deviation /\ status = "warning")
  \/ (~ 30 < deviation /\ ~ 15 < deviation /\ status = "borderline").

(** The results with their timestamp blanked. *)
Definition erase_calculated_at (r : health_score) : health_score :=
  {| hs_score := hs_score r;
     hs_status := hs_status r;
     hs_status_color := hs_status_color r;
     hs_category_breakdown := hs_category_breakdown r;
     hs_calculated_at := (fun _ => EmptyString) <$> hs_calculated_at r |}.

Definition erase_analyzed_at (r : risk_report) : risk_report :=
  {| detected_risks := detected_risks r;
     total_risks := total_risks r;
     highest_risk := highest_risk r;
     analyzed_at := EmptyString |}.

Definition erase_generated_at (r : trend_report) : trend_report :=
  match r with
  | InsufficientData message => InsufficientData message
  | TrendReport trends analyzed_tests analysis_period _ =>
      TrendReport trends analyzed_tests analysis_period EmptyString
  end.

(** A history each of whose records carries a [date]. *)
Definition dated (historical_data : list (dict value)) : Prop :=
  Forall (fun record => dict_mem record "date" = true) historical_data.

(** A history whose [date] fields, where present, are strings. *)
Definition is_str_date (record : dict value) : bool :=
  match dict_get record "date" with
  | Some (VNum _) => false
  | _ => true
  end.

Definition string_dates (historical_data : list (dict value)) : Prop :=
  Forall (fun record => is_str_date record = true) historical_data.

(** The observations of each test, as the grouping loops collect them. *)
Definition observations (historical_data : list (dict value)) (w : world)
    : dict (list data_point) :=
  (group_records historical_data [] w).1.

(** Ascending order of date strings. *)
Definition date_le (a b : data_point) : Prop :=
  match dp_date a, dp_date b with
  | VStr s, VStr t => String.leb s t = true
  | _, _ => False
  end.

(** [percent_change] in the words of the specification. *)
Definition spec_percent_change (first_val last_val : Q) : Q :=
  if Qeq_bool first_val 0 then 0
  else (last_val - first_val) / first_val * 100.

Definition has_str_date (dp : data_point) : Prop :=
  exists s, dp_date dp = VStr s.

Definition all_str_dates (test_data : dict (list data_point)) : Prop :=
  Forall (fun kv => Forall has_str_date kv.2) test_data.


(** An item that the categorizer takes: a number under a name that has a
    reference range. *)
Definition recognized (kv : string * value) : bool :=
  is_num kv.2 && dict_mem reference_ranges kv.1.

(** The four statuses the categorizer assigns. *)
Definition four_statuses : list string :=
  ["normal"; "borderline"; "warning"; "critical"].

(** An entry as the loop body builds it from an item. *)
Definition entry_of (kv : string * value) (ke : string * categorized_result) : Prop :=
  ke.1 = kv.1
  /\ exists v ref,
       kv.2 = VNum v
       /\ dict_get reference_ranges kv.1 = Some ref
       /\ categorize_value kv.1 v ref = Ok ke.2.

(** [{k: v.get("value", 0) for k, v in latest_analysis.items() if "value" in v}]
    of [get_patient_summary] (routers/analysis.py): every entry has the key
    [value]. *)
Definition analysis_values (latest_analysis : dict categorized_result) : dict value :=
  map (fun ke => (ke.1, VNum (cr_value ke.2))) latest_analysis.

(** An item that is no number, has no reference range, or lies within it. *)
Definition in_range_item (kv : string * value) : Prop :=
  match kv.2, dict_get reference_ranges kv.1 with
  | VNum v, Some ref => ref_min ref <= v /\ v <= ref_max ref
  | _, _ => True
  end.

(** The keys that the risk detector reads. *)
Definition risk_keys : list string :=
  ["hba1c"; "ldl"; "triglycerides"; "hdl"; "creatinine"].

(** The key is bound to a string. *)
Definition str_at (lab_data : dict value) (k : string) : Prop :=
  exists s, dict_get lab_data k = Some (VStr s).

(** The key is bound to a number that satisfies [P]. *)
Definition num_at (lab_data : dict value) (k : string) (P : Q -> Prop) : Prop :=
  exists q, dict_get lab_data k = Some (VNum q) /\ P q.

Definition high_or_moderate (level : string) : Prop :=
  level = "high" \/ level = "moderate".

(** A test with enough observations for a trend. *)
Definition qualifies (kp : string * list data_point) : bool :=
  (2 <=? length kp.2)%nat.

(** The trend of a test, as the analysis loop builds it from the
    observations of the test. *)
Definition trend_of (kp : string * list data_point) (kt : string * trend) : Prop :=
  kt.1 = kp.1
  /\ exists sorted_data,
       sorted_by_date kp.2 = Ok sorted_data
       /\ analyze_sorted kp.1 sorted_data = Ok kt.2.






(** The risk report of [detect_risk_factors] for given findings and clock
    reading. *)
Definition risk_report_of (fs : list risk_finding) (now : string) : risk_report :=
  {| detected_risks := fs;
     total_risks := length fs;
     highest_risk := py_max_str (map risk_level fs) "low";
     analyzed_at := now |}.




(** The age the caller gave, if any. *)
Definition age_given (patient_info : option (dict value)) : option value :=
  match patient_info with
  | Some info => dict_get info "age"
  | None => None
  end.








Ltac monad_simpl :=
  unfold mbind, result_bind, mret, result_ret, fmap, result_fmap in *; simpl in *.

(** * Properties *)

(** ** Basic facts about the runtime *)

Example categorize_glucose_145 :
  (e ← categorize_lab_results [("glucose", VNum 145)];
   mret (cr_status <$> dict_get e "glucose", cr_deviation_percent <$> dict_get e "glucose"))
  = Ok (Some "critical", Some (4500 # 100)).
Proof. vm_compute. reflexivity. Qed.


Lemma Qlt_bool_iff (x y : Q) : Qlt_bool x y = true <-> x < y.
Proof.
  unfold Qlt_bool. rewrite negb_true_iff.
  split; intros H.
  - apply Qnot_le_lt. intros Hle. apply Qle_bool_iff in Hle. congruence.
  - destruct (Qle_bool y x) eqn:E; [|reflexivity].
    apply Qle_bool_iff in E. exfalso. exact (Qlt_not_le _ _ H E).
Qed.

Lemma Qlt_bool_false_iff (x y : Q) : Qlt_bool x y = false <-> y <= x.
Proof.
  unfold Qlt_bool. rewrite negb_false_iff. apply Qle_bool_iff.
Qed.

Lemma py_div_ok (a b : Q) : ~ b == 0 -> py_div a b = Ok (a / b).
Proof.
  intros Hb. unfold py_div. destruct (Qeq_bool b 0) eqn:E; [|reflexivity].
  apply Qeq_bool_iff in E. contradiction.
Qed.


Lemma numeric_get (lab_data : dict value) (k : string) (v : value) :
  numeric lab_data -> dict_get lab_data k = Some v -> exists q, v = VNum q.
Proof.
  unfold numeric. induction lab_data as [|[k' v'] d IH]; simpl; [discriminate|].
  intros Hn Hg. apply andb_true_iff in Hn as [Hv Hd].
  destruct (String.eqb k' k).
  - injection Hg as <-. destruct v'; [eauto|discriminate].
  - auto.
Qed.

(** ** The risk detector: shape of the findings *)

Lemma diabetes_check_shape (lab_data : dict value) (fs : list risk_finding) :
  diabetes_check lab_data = Ok fs -> map condition fs `sublist_of` ["Diabetes"].
Proof.
  unfold diabetes_check. intros H.
  destruct (dict_get lab_data "hba1c") as [[q|s]|]; monad_simpl; try discriminate.
  - destruct (Qle_bool (57 # 10) q); [|injection H as <-; apply sublist_nil_l].
    injection H as <-. reflexivity.
  - injection H as <-. apply sublist_nil_l.
Qed.

Lemma cv_test_returns (lab_data : dict value) k test label st :
  (forall q, exists b, test (VNum q) = Ok b) ->
  numeric lab_data -> returns (cv_test lab_data k test label st).
Proof.
  intros Ht Hn. unfold cv_test, returns.
  destruct (dict_get lab_data k) as [v|] eqn:E; [|eauto].
  destruct (numeric_get _ _ _ Hn E) as [q ->].
  destruct (Ht q) as [b ->]. monad_simpl. destruct b; eauto.
Qed.

Lemma cardiovascular_check_shape (lab_data : dict value) (fs : list risk_finding) :
  cardiovascular_check lab_data = Ok fs ->
  map condition fs `sublist_of` ["Cardiovascular Disease"]
  /\ Forall (fun f => risk_level f = "moderate") fs.
Proof.
  unfold cardiovascular_check. intros H. monad_simpl.
  destruct (cv_test lab_data "ldl" _ _ _) as [st1|]; [|discriminate].
  destruct (cv_test lab_data "triglycerides" _ _ _) as [st2|]; [|discriminate].
  destruct (cv_test lab_data "hdl" _ _ _) as [[risk inds]|]; [|discriminate].
  destruct risk; injection H as <-; simpl.
  - split; [reflexivity|]. repeat constructor.
  - split; [apply sublist_nil_l|constructor].
Qed.

Lemma kidney_check_shape (lab_data : dict value) (fs : list risk_finding) :
  kidney_check lab_data = Ok fs -> map condition fs `sublist_of` ["Kidney Disease"].
Proof.
  unfold kidney_check. intros H.
  destruct (dict_get lab_data "creatinine") as [[q|s]|]; monad_simpl; try discriminate.
  - destruct (Qlt_bool (12 # 10) q); [|injection H as <-; apply sublist_nil_l].
    injection H as <-. reflexivity.
  - injection H as <-. apply sublist_nil_l.
Qed.

Lemma condition_checks_shape (lab_data : dict value) (fs : list risk_finding) :
  condition_checks lab_data = Ok fs ->
  map condition fs `sublist_of` three_conditions.
Proof.
  unfold condition_checks. intros H. monad_simpl.
  destruct (diabetes_check lab_data) as [r1|] eqn:E1; [|discriminate].
  destruct (cardiovascular_check lab_data) as [r2|] eqn:E2; [|discriminate].
  destruct (kidney_check lab_data) as [r3|] eqn:E3; [|discriminate].
  injection H as <-. rewrite !map_app.
  apply diabetes_check_shape in E1.
  apply cardiovascular_check_shape in E2 as [E2 _].
  apply kidney_check_shape in E3.
  change three_conditions
    with (["Diabetes"] ++ ["Cardiovascular Disease"] ++ ["Kidney Disease"]).
  auto using sublist_app.
Qed.

Lemma condition_checks_returns (lab_data : dict value) :
  numeric lab_data -> returns (condition_checks lab_data).
Proof.
  intros Hn. unfold condition_checks, returns.
  assert (H1 : returns (diabetes_check lab_data)).
  { unfold diabetes_check, returns.
    destruct (dict_get lab_data "hba1c") as [v|] eqn:E; [|eauto].
    destruct (numeric_get _ _ _ Hn E) as [q ->]. monad_simpl.
    destruct (Qle_bool (57 # 10) q); eauto. }
  assert (H2 : returns (cardiovascular_check lab_data)).
  { unfold cardiovascular_check, returns.
    destruct (cv_test_returns lab_data "ldl" (fun v => py_gt_num v 130) "LDL"
                (false, [])) as [st1 E1]; [simpl; eauto|assumption|].
    rewrite E1. monad_simpl.
    destruct (cv_test_returns lab_data "triglycerides" (fun v => py_gt_num v 150)
                "Triglycerides" st1) as [st2 E2]; [simpl; eauto|assumption|].
    rewrite E2.
    destruct (cv_test_returns lab_data "hdl" (fun v => py_lt_num v 40)
                "HDL" st2) as [[risk inds] E3]; [simpl; eauto|assumption|].
    rewrite E3. destruct risk; eauto. }
  assert (H3 : returns (kidney_check lab_data)).
  { unfold kidney_check, returns.
    destruct (dict_get lab_data "creatinine") as [v|] eqn:E; [|eauto].
    destruct (numeric_get _ _ _ Hn E) as [q ->]. monad_simpl.
    destruct (Qlt_bool (12 # 10) q); eauto. }
  destruct H1 as [r1 ->], H2 as [r2 ->], H3 as [r3 ->]. monad_simpl. eauto.
Qed.

Lemma escalate_condition (f : risk_finding) : condition (escalate f) = condition f.
Proof. unfold escalate. destruct (String.eqb _ _); reflexivity. Qed.

Lemma age_adjust_conditions (age : Z) (fs : list risk_finding) :
  map condition (age_adjust age fs) = map condition fs.
Proof.
  unfold age_adjust. destruct (60 <? age)%Z; [|reflexivity].
  rewrite map_map. apply map_ext. intros f. apply escalate_condition.
Qed.

Lemma detect_risk_factors_unfold (lab_data : dict value) (age : Z) (w : world)
    (fs : list risk_finding) :
  condition_checks lab_data = Ok fs ->
  detect_risk_factors lab_data age w =
    Ok ({| detected_risks := age_adjust age fs;
           total_risks := length (age_adjust age fs);
           highest_risk := py_max_str (map risk_level (age_adjust age fs)) "low";
           analyzed_at := clock w (ticks w) |},
        {| clock := clock w; ticks := S (ticks w) |}).
Proof. intros H. unfold detect_risk_factors. rewrite H. reflexivity. Qed.

Lemma age_adjust_over_60 (age : Z) (fs : list risk_finding) :
  (60 < age)%Z ->
  Forall2 escalated fs (age_adjust age fs) /\ Forall2 untouched fs (age_adjust age fs).
Proof.
  intros Hage. unfold age_adjust.
  apply Z.ltb_lt in Hage. rewrite Hage.
  induction fs as [|f fs [IH1 IH2]]; simpl; [split; constructor|].
  split; constructor; try assumption.
  - intros Hm. unfold escalate. rewrite Hm. simpl. auto.
  - intros Hm. unfold escalate.
    destruct (String.eqb_spec (risk_level f) "moderate"); [contradiction|reflexivity].
Qed.

(** ** C1: [highest_risk] is the greatest level as a string *)

Lemma py_max_str_fold (rest : list string) (m : string) :
  m = "high" \/ m = "moderate" ->
  Forall (fun x => x = "high" \/ x = "moderate") rest ->
  fold_left (fun m y => if String.ltb m y then y else m) rest m
  = if String.eqb m "moderate" || existsb (String.eqb "moderate") rest
    then "moderate" else "high".
Proof.
  revert m. induction rest as [|y rest IH]; intros m Hm Hrest; simpl.
  - destruct Hm as [->| ->]; reflexivity.
  - apply Forall_cons in Hrest as [Hy Hrest].
    destruct Hm as [->| ->], Hy as [->| ->]; simpl;
      rewrite (IH _ (or_introl eq_refl) Hrest) || rewrite (IH _ (or_intror eq_refl) Hrest);
      reflexivity.
Qed.

(** Over findings at "high" and "moderate", [max] answers "moderate" as soon
    as one finding is at "moderate". *)
Lemma py_max_str_levels (levels : list string) :
  Forall (fun x => x = "high" \/ x = "moderate") levels ->
  py_max_str levels "low"
  = match levels with
    | [] => "low"
    | _ :: _ => if existsb (String.eqb "moderate") levels then "moderate" else "high"
    end.
Proof.
  intros H. destruct levels as [|x rest]; [reflexivity|].
  apply Forall_cons in H as [Hx Hrest]. unfold py_max_str.
  rewrite (py_max_str_fold rest x Hx Hrest).
  destruct Hx as [->| ->]; reflexivity.
Qed.

(** C1 (defect).  A snapshot with HbA1c 7.0 and LDL 140 at age 50 yields a
    Diabetes finding at "high" and a Cardiovascular finding at "moderate";
    [max] compares the level names as strings, where "moderate" is greater
    than "high", so [highest_risk] is "moderate" although a finding is at
    "high". *)
Theorem highest_risk_is_string_max (w : world) :
  exists r w',
    detect_risk_factors [("hba1c", VNum 7); ("ldl", VNum 140)] 50 w = Ok (r, w')
    /\ map risk_level (detected_risks r) = ["high"; "moderate"]
    /\ highest_risk r = "moderate".
Proof.
  eexists. eexists. split; [reflexivity|]. split; reflexivity.
Qed.

(** ** C5: the age adjustment *)

(** C5 (as stated, refuted).  At the age of exactly 60 a snapshot with LDL 140
    gives a Cardiovascular finding that stays at "moderate", with its four
    recommendations and no more. *)
Lemma age_60_is_not_escalated :
  exists fs r w',
    condition_checks [("ldl", VNum 140)] = Ok fs
    /\ (60 <= 60)%Z
    /\ detect_risk_factors [("ldl", VNum 140)] 60 example_world = Ok (r, w')
    /\ map risk_level (detected_risks r) = ["moderate"]
    /\ ~ Forall2 escalated fs (detected_risks r).
Proof.
  eexists. eexists. eexists.
  split; [reflexivity|]. split; [lia|]. split; [reflexivity|].
  split; [reflexivity|].
  intros H. inversion H as [|f0 f1 l0 l1 Hesc _]; subst.
  destruct (Hesc eq_refl) as [Hlevel _]. discriminate Hlevel.
Qed.

(** C5 (amended).  For every numeric snapshot and every [patient_age > 60],
    the three checks return and [detect_risk_factors] returns their findings
    in the same order, where every finding that was at "moderate" is at "high"
    with the extra recommendation appended, and every other finding is left as
    it was. *)
Theorem age_over_60_escalates (lab_data : dict value) (patient_age : Z) (w : world) :
  numeric lab_data ->
  (60 < patient_age)%Z ->
  exists fs r w',
    condition_checks lab_data = Ok fs
    /\ detect_risk_factors lab_data patient_age w = Ok (r, w')
    /\ Forall2 escalated fs (detected_risks r)
    /\ Forall2 untouched fs (detected_risks r).
Proof.
  intros Hn Hage.
  destruct (condition_checks_returns lab_data Hn) as [fs Hfs].
  exists fs. eexists. eexists.
  split; [assumption|].
  split; [apply detect_risk_factors_unfold; eassumption|].
  simpl. apply age_adjust_over_60. assumption.
Qed.

Lemma age_over_60_escalates_witness :
  exists fs r w',
    condition_checks [("hba1c", VNum 7); ("ldl", VNum 140)] = Ok fs
    /\ detect_risk_factors [("hba1c", VNum 7); ("ldl", VNum 140)] 70 example_world = Ok (r, w')
    /\ Forall2 escalated fs (detected_risks r)
    /\ Forall2 untouched fs (detected_risks r).
Proof.
  apply (age_over_60_escalates [("hba1c", VNum 7); ("ldl", VNum 140)] 70 example_world).
  - reflexivity.
  - lia.
Defined.

(** ** C10: at most three findings, in the fixed order *)

(** C10.  For every numeric snapshot and every age, [detect_risk_factors]
    returns; the conditions of its findings form a subsequence of Diabetes,
    Cardiovascular Disease, Kidney Disease (so there are at most three, each
    condition at most once, in that order), and [total_risks] is the number of
    findings. *)
Theorem at_most_three_findings (lab_data : dict value) (patient_age : Z) (w : world) :
  numeric lab_data ->
  exists r w',
    detect_risk_factors lab_data patient_age w = Ok (r, w')
    /\ map condition (detected_risks r) `sublist_of` three_conditions
    /\ NoDup (map condition (detected_risks r))
    /\ (length (detected_risks r) <= 3)%nat
    /\ total_risks r = length (detected_risks r).
Proof.
  intros Hn.
  destruct (condition_checks_returns lab_data Hn) as [fs Hfs].
  eexists. eexists.
  split; [apply detect_risk_factors_unfold; eassumption|]. simpl.
  pose proof (condition_checks_shape _ _ Hfs) as Hsub.
  rewrite age_adjust_conditions.
  split; [assumption|].
  split.
  - apply (sublist_NoDup _ three_conditions); [|assumption].
    apply (bool_decide_unpack _). vm_compute. exact I.
  - split; [|reflexivity].
    apply sublist_length in Hsub.
    rewrite length_map in Hsub.
    rewrite <- (length_map condition), age_adjust_conditions, length_map.
    exact Hsub.
Qed.

Lemma at_most_three_findings_witness :
  exists r w',
    detect_risk_factors
      [("hba1c", VNum 7); ("ldl", VNum 140); ("creatinine", VNum (25 # 10))] 50
      example_world = Ok (r, w')
    /\ map condition (detected_risks r) `sublist_of` three_conditions
    /\ NoDup (map condition (detected_risks r))
    /\ (length (detected_risks r) <= 3)%nat
    /\ total_risks r = length (detected_risks r).
Proof.
  apply (at_most_three_findings
           [("hba1c", VNum 7); ("ldl", VNum 140); ("creatinine", VNum (25 # 10))]
           50 example_world).
  reflexivity.
Defined.

(** ** C2: division by a zero bound in the categorizer *)

(** C2 (defect).  LDL has the reference minimum 0; for a negative LDL value
    the deviation [(min_val - test_value) / min_val] divides by zero and
    [categorize_lab_results] raises [ZeroDivisionError].  The same holds for
    triglycerides. *)
Theorem categorize_negative_ldl_raises :
  categorize_lab_results [("ldl", VNum (-1 # 1))] = Raise ZeroDivisionError
  /\ categorize_lab_results [("glucose", VNum 90); ("triglycerides", VNum (-5 # 10))]
     = Raise ZeroDivisionError.
Proof. split; reflexivity. Qed.

(** ** C3: [sorted_data] outside its loop *)

(** C3 (defect).  With two records whose tests never reach two observations
    the analysis loop never binds [sorted_data], and building
    [analysis_period] raises [UnboundLocalError]; the same with two empty
    records.  A single record gives the sentinel. *)
Theorem trend_analysis_unbound_sorted_data (w : world) :
  generate_trend_analysis
    [[("date", VStr "2024-01-01"); ("glucose", VNum 100)];
     [("date", VStr "2024-02-01"); ("ldl", VNum 120)]] w
  = Raise UnboundLocalError
  /\ generate_trend_analysis [[]; []] w = Raise UnboundLocalError
  /\ generate_trend_analysis [[("date", VStr "2024-01-01"); ("glucose", VNum 100)]] w
     = Ok (InsufficientData insufficient_message, w).
Proof. repeat split; reflexivity. Qed.

(** ** C6: the score of a snapshot without recognized tests *)







(** ** The categorizer: dicts, one entry, the loop *)

Lemma dict_get_set_eq {V} (d : dict V) (k : string) (v : V) :
  dict_get (dict_set d k v) k = Some v.
Proof.
  induction d as [|[k' v'] d IH]; simpl.
  - rewrite String.eqb_refl. reflexivity.
  - destruct (String.eqb k' k) eqn:E; simpl; rewrite E; [reflexivity|exact IH].
Qed.

Lemma dict_get_set_ne {V} (d : dict V) (k k' : string) (v : V) :
  k <> k' -> dict_get (dict_set d k v) k' = dict_get d k'.
Proof.
  intros Hne. induction d as [|[k0 v0] d IH]; simpl.
  - destruct (String.eqb_spec k k'); [contradiction|reflexivity].
  - destruct (String.eqb_spec k0 k) as [->|Hk]; simpl.
    + destruct (String.eqb_spec k k'); [contradiction|reflexivity].
    + destruct (String.eqb k0 k'); [reflexivity|exact IH].
Qed.

Lemma dict_get_Some_elem_of {V} (d : dict V) (k : string) (v : V) :
  dict_get d k = Some v -> (k, v) ∈ d.
Proof.
  induction d as [|[k' v'] d IH]; simpl; [discriminate|].
  destruct (String.eqb_spec k' k) as [->|Hk].
  - intros [= ->]. apply list_elem_of_here.
  - intros H. apply list_elem_of_further. auto.
Qed.

Lemma tier_of_status_below (min_val actual : Q) (status : string) :
  _get_status_below min_val actual = Ok status ->
  ~ min_val == 0 /\ tier_of ((min_val - actual) / min_val * 100) status.
Proof.
  unfold _get_status_below, py_div.
  destruct (Qeq_bool min_val 0) eqn:E; monad_simpl; [discriminate|].
  assert (Hnz : ~ min_val == 0).
  { intros H. apply Qeq_bool_iff in H. congruence. }
  intros H. split; [exact Hnz|]. unfold tier_of.
  destruct (Qlt_bool 30 _) eqn:E30.
  - injection H as <-. left. split; [apply Qlt_bool_iff; exact E30|reflexivity].
  - apply Qlt_bool_false_iff in E30.
    destruct (Qlt_bool 15 _) eqn:E15; injection H as <-; right.
    + left. split; [apply Qle_not_lt; exact E30|].
      split; [apply Qlt_bool_iff; exact E15|reflexivity].
    + right. apply Qlt_bool_false_iff in E15.
      split; [apply Qle_not_lt; exact E30|].
      split; [apply Qle_not_lt; exact E15|reflexivity].
Qed.

Lemma tier_of_status_above (max_val actual : Q) (status : string) :
  _get_status_above max_val actual = Ok status ->
  ~ max_val == 0 /\ tier_of ((actual - max_val) / max_val * 100) status.
Proof.
  unfold _get_status_above, py_div.
  destruct (Qeq_bool max_val 0) eqn:E; monad_simpl; [discriminate|].
  assert (Hnz : ~ max_val == 0).
  { intros H. apply Qeq_bool_iff in H. congruence. }
  intros H. split; [exact Hnz|]. unfold tier_of.
  destruct (Qlt_bool 30 _) eqn:E30.
  - injection H as <-. left. split; [apply Qlt_bool_iff; exact E30|reflexivity].
  - apply Qlt_bool_false_iff in E30.
    destruct (Qlt_bool 15 _) eqn:E15; injection H as <-; right.
    + left. split; [apply Qle_not_lt; exact E30|].
      split; [apply Qlt_bool_iff; exact E15|reflexivity].
    + right. apply Qlt_bool_false_iff in E15.
      split; [apply Qle_not_lt; exact E30|].
      split; [apply Qle_not_lt; exact E15|reflexivity].
Qed.


(** The three branches of the loop body. *)
Lemma categorize_value_cases (test_name : string) (v : Q) (ref : reference_range)
    (e : categorized_result) :
  categorize_value test_name v ref = Ok e ->
  (v < ref_min ref /\ ~ ref_min ref == 0
   /\ tier_of ((ref_min ref - v) / ref_min ref * 100) (cr_status e))
  \/ (ref_min ref <= v /\ ref_max ref < v /\ ~ ref_max ref == 0
      /\ tier_of ((v - ref_max ref) / ref_max ref * 100) (cr_status e))
  \/ (ref_min ref <= v /\ v <= ref_max ref
      /\ cr_status e = "normal" /\ cr_deviation_percent e = py_round 0 2).
Proof.
  unfold categorize_value. intros H.
  destruct (Qlt_bool v (ref_min ref)) eqn:Elo.
  - apply Qlt_bool_iff in Elo. left.
    destruct (_get_status_below (ref_min ref) v) as [status|] eqn:Es.
    + destruct (tier_of_status_below _ _ _ Es) as [Hnz Ht].
      rewrite (py_div_ok _ _ Hnz) in H. monad_simpl.
      injection H as <-. simpl. auto.
    + destruct (py_div _ _); monad_simpl; discriminate.
  - apply Qlt_bool_false_iff in Elo. right.
    destruct (Qlt_bool (ref_max ref) v) eqn:Ehi.
    + apply Qlt_bool_iff in Ehi. left.
      destruct (_get_status_above (ref_max ref) v) as [status|] eqn:Es.
      * destruct (tier_of_status_above _ _ _ Es) as [Hnz Ht].
        rewrite (py_div_ok _ _ Hnz) in H. monad_simpl.
        injection H as <-. simpl. auto.
      * destruct (py_div _ _); monad_simpl; discriminate.
    + apply Qlt_bool_false_iff in Ehi. right.
      monad_simpl. injection H as <-. simpl. auto.
Qed.

Lemma categorize_loop_cons (k : string) (x : value) (rest : dict value)
    (acc : dict categorized_result) :
  categorize_loop ((k, x) :: rest) acc =
    match x, dict_get reference_ranges k with
    | VNum v, Some ref =>
        match categorize_value k v ref with
        | Ok entry => categorize_loop rest (dict_set acc k entry)
        | Raise e => Raise e
        end
    | _, _ => categorize_loop rest acc
    end.
Proof. reflexivity. Qed.

Lemma categorize_loop_other (items : dict value) (acc cat : dict categorized_result)
    (name : string) :
  name ∉ items.*1 ->
  categorize_loop items acc = Ok cat ->
  dict_get cat name = dict_get acc name.
Proof.
  revert acc. induction items as [|[k x] items IH]; intros acc Hni H.
  - injection H as <-. reflexivity.
  - rewrite categorize_loop_cons in H.
    rewrite fmap_cons in Hni. apply not_elem_of_cons in Hni as [Hk Hni].
    destruct x as [v|s]; [|eauto].
    destruct (dict_get reference_ranges k) as [ref|]; [|eauto].
    destruct (categorize_value k v ref) as [e|]; [|discriminate].
    rewrite (IH _ Hni H). apply dict_get_set_ne. simpl in Hk. congruence.
Qed.

(** The entry of a recognized numeric item is the one its loop body built. *)
Lemma categorize_loop_lookup (items : dict value) (acc cat : dict categorized_result)
    (name : string) (v : Q) (ref : reference_range) :
  dict_wf items ->
  dict_get items name = Some (VNum v) ->
  dict_get reference_ranges name = Some ref ->
  categorize_loop items acc = Ok cat ->
  exists e, categorize_value name v ref = Ok e /\ dict_get cat name = Some e.
Proof.
  unfold dict_wf. revert acc.
  induction items as [|[k x] items IH]; intros acc Hwf Hget Href H.
  - discriminate.
  - rewrite categorize_loop_cons in H. rewrite fmap_cons in Hwf.
    apply NoDup_cons in Hwf as [Hk Hwf]. simpl in Hk, Hget.
    destruct (String.eqb_spec k name) as [->|Hne].
    + injection Hget as ->. rewrite Href in H.
      destruct (categorize_value name v ref) as [e|]; [|discriminate].
      exists e. split; [reflexivity|].
      rewrite (categorize_loop_other _ _ _ _ Hk H). apply dict_get_set_eq.
    + destruct x as [v'|s]; [|eauto].
      destruct (dict_get reference_ranges k) as [ref'|]; [|eauto].
      destruct (categorize_value k v' ref') as [e'|]; [|discriminate].
      eauto.
Qed.

Lemma categorize_value_returns (test_name : string) (v : Q) (ref : reference_range) :
  (v < ref_min ref -> ~ ref_min ref == 0) ->
  (ref_max ref < v -> ~ ref_max ref == 0) ->
  returns (categorize_value test_name v ref).
Proof.
  intros Hlo Hhi. unfold categorize_value, returns.
  destruct (Qlt_bool v (ref_min ref)) eqn:Elo.
  - apply Qlt_bool_iff in Elo. specialize (Hlo Elo).
    unfold _get_status_below. rewrite (py_div_ok _ _ Hlo). monad_simpl.
    destruct (Qlt_bool 30 _); [eauto|]. destruct (Qlt_bool 15 _); eauto.
  - destruct (Qlt_bool (ref_max ref) v) eqn:Ehi; [|monad_simpl; eauto].
    apply Qlt_bool_iff in Ehi. specialize (Hhi Ehi).
    unfold _get_status_above. rewrite (py_div_ok _ _ Hhi). monad_simpl.
    destruct (Qlt_bool 30 _); [eauto|]. destruct (Qlt_bool 15 _); eauto.
Qed.

(** The categorizer returns whenever no value lies beyond a zero bound. *)
Lemma categorize_lab_results_returns (lab_data : dict value) :
  Forall safe_item lab_data -> returns (categorize_lab_results lab_data).
Proof.
  unfold categorize_lab_results. generalize ([] : dict categorized_result).
  induction lab_data as [|[k x] rest IH]; intros acc Hsafe.
  - exists acc. reflexivity.
  - apply Forall_cons in Hsafe as [Hkx Hrest].
    rewrite categorize_loop_cons. unfold safe_item in Hkx. cbn [fst snd] in Hkx.
    destruct x as [v|s]; [|auto].
    destruct (dict_get reference_ranges k) as [ref|]; [|auto].
    destruct Hkx as [Hlo Hhi].
    destruct (categorize_value_returns k v ref Hlo Hhi) as [e ->]. auto.
Qed.



(** ** C7: the tiers use strict comparisons *)



(** ** C8: normal exactly inside the range *)



(** ** The order of date strings *)

Lemma string_ltb_leb (s t : string) : String.ltb s t = true -> String.leb s t = true.
Proof.
  unfold String.ltb, String.leb. destruct (String.compare s t); auto; discriminate.
Qed.

Lemma string_ltb_false_leb (s t : string) :
  String.ltb s t = false -> String.leb t s = true.
Proof.
  unfold String.ltb, String.leb. rewrite (String.compare_antisym t s).
  destruct (String.compare s t); simpl; auto; discriminate.
Qed.

Lemma ascii_compare_trans_lt (a b c : Ascii.ascii) :
  Ascii.compare a b = Lt -> Ascii.compare b c = Lt -> Ascii.compare a c = Lt.
Proof.
  unfold Ascii.compare. rewrite !N.compare_lt_iff. apply N.lt_trans.
Qed.

Lemma string_leb_trans (s t u : string) :
  String.leb s t = true -> String.leb t u = true -> String.leb s u = true.
Proof.
  unfold String.leb. revert t u.
  induction s as [|a s IH]; intros [|b t] [|c u]; simpl;
    try reflexivity; try (intros; assumption); try (intros; discriminate).
  destruct (Ascii.compare a b) eqn:Eab.
  - apply Ascii.compare_eq_iff in Eab. subst b.
    destruct (Ascii.compare a c); [apply IH|reflexivity|intros; assumption].
  - intros _. destruct (Ascii.compare b c) eqn:Ebc.
    + apply Ascii.compare_eq_iff in Ebc. subst c. rewrite Eab. reflexivity.
    + rewrite (ascii_compare_trans_lt _ _ _ Eab Ebc). reflexivity.
    + intros; discriminate.
  - intros; discriminate.
Qed.

Lemma date_le_trans (a b c : data_point) : date_le a b -> date_le b c -> date_le a c.
Proof.
  unfold date_le.
  destruct (dp_date a), (dp_date b), (dp_date c); try contradiction.
  apply string_leb_trans.
Qed.

(** ** [sorted]: a sorted permutation *)

Lemma sorted_insert_cons (x y : data_point) (l : list data_point) :
  sorted_insert x (y :: l) =
    match py_lt (dp_date x) (dp_date y) with
    | Ok true => Ok (x :: y :: l)
    | Ok false =>
        match sorted_insert x l with
        | Ok r => Ok (y :: r)
        | Raise e => Raise e
        end
    | Raise e => Raise e
    end.
Proof.
  simpl. monad_simpl. destruct (py_lt _ _) as [[|]|]; reflexivity.
Qed.

Lemma sorted_insert_spec (x : data_point) (l : list data_point) :
  has_str_date x ->
  Forall has_str_date l ->
  StronglySorted date_le l ->
  exists r,
    sorted_insert x l = Ok r
    /\ Permutation (x :: l) r
    /\ StronglySorted date_le r.
Proof.
  intros [sx Hx] Hl Hs.
  induction l as [|y l IH].
  - exists [x]. split; [reflexivity|]. split; [reflexivity|].
    repeat constructor.
  - apply Forall_cons in Hl as [[sy Hy] Hl].
    apply StronglySorted_inv in Hs as [Hs Hyl].
    rewrite sorted_insert_cons. rewrite Hx, Hy. simpl.
    destruct (String.ltb sx sy) eqn:E.
    + exists (x :: y :: l). split; [reflexivity|]. split; [reflexivity|].
      assert (Hxy : date_le x y).
      { unfold date_le. rewrite Hx, Hy. apply string_ltb_leb. exact E. }
      constructor; [constructor; assumption|].
      constructor; [exact Hxy|].
      eapply Forall_impl; [exact Hyl|].
      intros z Hz. exact (date_le_trans _ _ _ Hxy Hz).
    + destruct (IH Hl Hs) as (r & -> & Hperm & Hsorted).
      exists (y :: r). split; [reflexivity|].
      split; [rewrite <- Hperm; apply perm_swap|].
      constructor; [exact Hsorted|].
      assert (Hyx : date_le y x).
      { unfold date_le. rewrite Hx, Hy. apply string_ltb_false_leb. exact E. }
      rewrite <- Hperm. constructor; assumption.
Qed.

Lemma sorted_from_spec (acc l : list data_point) :
  Forall has_str_date acc ->
  Forall has_str_date l ->
  StronglySorted date_le acc ->
  exists r,
    sorted_from acc l = Ok r
    /\ Permutation (acc ++ l) r
    /\ StronglySorted date_le r.
Proof.
  revert acc. induction l as [|x l IH]; intros acc Hacc Hl Hs.
  - exists acc. split; [reflexivity|]. rewrite app_nil_r. auto.
  - apply Forall_cons in Hl as [Hx Hl].
    destruct (sorted_insert_spec x acc Hx Hacc Hs) as (acc' & Hins & Hperm & Hsorted).
    destruct (IH acc') as (r & Hr & Hperm' & Hsorted').
    + rewrite <- Hperm. constructor; assumption.
    + exact Hl.
    + exact Hsorted.
    + exists r. split; [simpl; rewrite Hins; exact Hr|].
      split; [|exact Hsorted'].
      rewrite <- Hperm', <- Hperm. symmetry. apply Permutation_middle.
Qed.

Lemma sorted_by_date_spec (data_points : list data_point) :
  Forall has_str_date data_points ->
  exists r,
    sorted_by_date data_points = Ok r
    /\ Permutation data_points r
    /\ StronglySorted date_le r.
Proof.
  intros Hl. apply (sorted_from_spec [] data_points); [constructor|exact Hl|constructor].
Qed.

(** ** The grouping loops keep string dates and unique keys *)

Lemma elem_of_dict_set_keys {V} (d : dict V) (k k' : string) (v : V) :
  k' ∈ (dict_set d k v).*1 <-> k' = k \/ k' ∈ d.*1.
Proof.
  induction d as [|[k0 v0] d IH]; simpl.
  - rewrite list_elem_of_singleton. split; [auto|]. intros [H|H]; [exact H|].
    apply elem_of_nil in H. contradiction.
  - destruct (String.eqb_spec k0 k) as [->|Hne]; simpl.
    + rewrite !elem_of_cons. tauto.
    + rewrite !elem_of_cons, IH. tauto.
Qed.

Lemma dict_set_wf {V} (d : dict V) (k : string) (v : V) :
  dict_wf d -> dict_wf (dict_set d k v).
Proof.
  unfold dict_wf. induction d as [|[k0 v0] d IH]; simpl; intros Hwf.
  - apply NoDup_singleton.
  - apply NoDup_cons in Hwf as [Hk0 Hwf].
    destruct (String.eqb_spec k0 k) as [->|Hne]; simpl.
    + apply NoDup_cons. auto.
    + apply NoDup_cons. split; [|auto].
      rewrite elem_of_dict_set_keys. intros [H|H]; [congruence|contradiction].
Qed.

Lemma Forall_dict_set {V} (P : string * V -> Prop) (d : dict V) (k : string) (v : V) :
  Forall P d -> P (k, v) -> Forall P (dict_set d k v).
Proof.
  intros Hd Hkv. induction d as [|[k0 v0] d IH]; simpl.
  - repeat constructor. exact Hkv.
  - apply Forall_cons in Hd as [H0 Hd].
    destruct (String.eqb_spec k0 k) as [->|Hne].
    + constructor; assumption.
    + constructor; auto.
Qed.

Lemma all_str_dates_get (test_data : dict (list data_point)) (test : string)
    (pts : list data_point) :
  all_str_dates test_data -> dict_get test_data test = Some pts ->
  Forall has_str_date pts.
Proof.
  intros Hall Hget. apply dict_get_Some_elem_of in Hget.
  unfold all_str_dates in Hall. rewrite Forall_forall in Hall.
  exact (Hall _ Hget).
Qed.

Lemma group_items_invariant (s : string) (items : dict value)
    (test_data : dict (list data_point)) :
  all_str_dates test_data /\ dict_wf test_data ->
  all_str_dates (group_items (VStr s) items test_data)
  /\ dict_wf (group_items (VStr s) items test_data).
Proof.
  revert test_data. induction items as [|[test [v|t]] items IH];
    intros test_data [Hall Hwf]; simpl; [auto| |auto].
  apply IH. split; [|apply dict_set_wf; exact Hwf].
  apply Forall_dict_set; [exact Hall|]. simpl.
  apply Forall_app. split.
  - destruct (dict_get test_data test) as [pts|] eqn:E; simpl; [|constructor].
    exact (all_str_dates_get _ _ _ Hall E).
  - repeat constructor. exists s. reflexivity.
Qed.

Lemma group_records_invariant (historical_data : list (dict value))
    (test_data : dict (list data_point)) (w : world) :
  string_dates historical_data ->
  all_str_dates test_data /\ dict_wf test_data ->
  all_str_dates (group_records historical_data test_data w).1
  /\ dict_wf (group_records historical_data test_data w).1.
Proof.
  revert test_data w.
  induction historical_data as [|record rest IH]; intros test_data w Hs Hinv; simpl.
  - exact Hinv.
  - apply Forall_cons in Hs as [Hrec Hs]. unfold is_str_date in Hrec.
    destruct (dict_get record "date") as [[q|s]|]; simpl.
    + discriminate Hrec.
    + apply IH; [exact Hs|]. apply group_items_invariant. exact Hinv.
    + apply IH; [exact Hs|]. apply group_items_invariant. exact Hinv.
Qed.

Lemma observations_invariant (historical_data : list (dict value)) (w : world) :
  string_dates historical_data ->
  all_str_dates (observations historical_data w)
  /\ dict_wf (observations historical_data w).
Proof.
  intros Hs. apply group_records_invariant; [exact Hs|].
  split; constructor.
Qed.

(** ** One trend *)

Lemma head_map {A B} (f : A -> B) (l : list A) (x : A) :
  head l = Some x -> head (map f l) = Some (f x).
Proof. destruct l; simpl; [discriminate|]. intros [= ->]. reflexivity. Qed.

Lemma last_map {A B} (f : A -> B) (l : list A) (x : A) :
  last l = Some x -> last (map f l) = Some (f x).
Proof.
  induction l as [|a [|b l] IH]; simpl; [discriminate| |].
  - intros [= ->]. reflexivity.
  - intros H. apply IH. exact H.
Qed.

Lemma percent_change_of_spec (first_val last_val : Q) :
  percent_change_of first_val last_val = Ok (spec_percent_change first_val last_val).
Proof.
  unfold percent_change_of, spec_percent_change, py_div.
  destruct (Qeq_bool first_val 0); reflexivity.
Qed.


Lemma analyze_sorted_spec (test : string) (sorted_data : list data_point)
    (first_dp last_dp : data_point) :
  head sorted_data = Some first_dp ->
  last sorted_data = Some last_dp ->
  exists t,
    analyze_sorted test sorted_data = Ok t
    /\ tr_first_value t = dp_value first_dp
    /\ tr_last_value t = dp_value last_dp
    /\ tr_first_date t = dp_date first_dp
    /\ tr_last_date t = dp_date last_dp
    /\ tr_data_points t = length sorted_data
    /\ tr_percent_change t =
         py_round (spec_percent_change (dp_value first_dp) (dp_value last_dp)) 1
    /\ tr_direction t =
         (direction_of test
            (spec_percent_change (dp_value first_dp) (dp_value last_dp))).1.
Proof.
  intros Hh Hl. unfold analyze_sorted, py_first, py_last.
  rewrite (head_map dp_value _ _ Hh), (last_map dp_value _ _ Hl).
  rewrite (head_map dp_date _ _ Hh), (last_map dp_date _ _ Hl).
  monad_simpl. rewrite percent_change_of_spec.
  destruct (direction_of test _) as [direction color] eqn:Ed.
  eexists. split; [reflexivity|]. simpl.
  rewrite length_map. repeat split; reflexivity.
Qed.

(** ** The analysis loop *)

Lemma analyze_loop_cons (test : string) (data_points : list data_point)
    (rest : dict (list data_point)) (trends : dict trend)
    (sorted_data : option (list data_point)) :
  analyze_loop ((test, data_points) :: rest) trends sorted_data =
    if (2 <=? length data_points)%nat then
      match sorted_by_date data_points with
      | Ok sorted' =>
          if (2 <=? length (map dp_value sorted'))%nat then
            match analyze_sorted test sorted' with
            | Ok t => analyze_loop rest (dict_set trends test t) (Some sorted')
            | Raise e => Raise e
            end
          else analyze_loop rest trends (Some sorted')
      | Raise e => Raise e
      end
    else analyze_loop rest trends sorted_data.
Proof.
  simpl. destruct (2 <=? length data_points)%nat; [|reflexivity].
  monad_simpl. destruct (sorted_by_date data_points); reflexivity.
Qed.

Lemma two_elements_head_last {A} (l : list A) :
  (2 <= length l)%nat -> exists x y, head l = Some x /\ last l = Some y.
Proof.
  intros Hlen. destruct l as [|x l]; [simpl in Hlen; lia|].
  destruct (last (x :: l)) as [y|] eqn:E.
  - exists x, y. split; reflexivity.
  - assert (H : is_Some (last (x :: l))) by (apply last_is_Some; discriminate).
    rewrite E in H. destruct H as [? H]. discriminate H.
Qed.


(** ** C9: the trend of a test with two observations *)



(** The reported [percent_change] is rounded after the direction is decided:
    from 10000 to 10496 the change is 4.96, hence "stable", and is reported
    as 5.0. *)
Example trend_direction_before_rounding :
  (r ← generate_trend_analysis
         [[("date", VStr "2024-01-01"); ("glucose", VNum 10000)];
          [("date", VStr "2024-02-01"); ("glucose", VNum 10496)]] example_world;
   match r.1 with
   | TrendReport trends _ _ _ =>
       mret ((fun t => (tr_direction t, tr_percent_change t)) <$> dict_get trends "glucose")
   | InsufficientData _ => mret None
   end)
  = Ok (Some ("stable", 50 # 10)).
Proof. vm_compute. reflexivity. Qed.

(** ** C4: determinism and the clock *)

Lemma group_records_dated (historical_data : list (dict value))
    (test_data : dict (list data_point)) (w1 w2 : world) :
  dated historical_data ->
  (group_records historical_data test_data w1).1
  = (group_records historical_data test_data w2).1.
Proof.
  revert test_data w1 w2.
  induction historical_data as [|record rest IH]; intros test_data w1 w2 Hd; simpl.
  - reflexivity.
  - apply Forall_cons in Hd as [Hrec Hd]. unfold dict_mem in Hrec.
    destruct (dict_get record "date") as [date|]; [|discriminate Hrec].
    simpl. apply IH. exact Hd.
Qed.

(** C4 (as stated, refuted).  Each of the three operations stamps its result
    with the current time: a second invocation on the same input, made after
    the first, returns a different result. *)
Lemma repeated_invocations_differ :
  (exists r1 w1 r2 w2,
     calculate_health_score [("glucose", VNum 90)] example_world = Ok (r1, w1)
     /\ calculate_health_score [("glucose", VNum 90)] w1 = Ok (r2, w2)
     /\ r1 <> r2)
  /\ (exists r1 w1 r2 w2,
        detect_risk_factors [("ldl", VNum 140)] 50 example_world = Ok (r1, w1)
        /\ detect_risk_factors [("ldl", VNum 140)] 50 w1 = Ok (r2, w2)
        /\ r1 <> r2)
  /\ (exists r1 w1 r2 w2,
        generate_trend_analysis
          [[("date", VStr "2024-01-01"); ("glucose", VNum 100)];
           [("date", VStr "2024-02-01"); ("glucose", VNum 110)]] example_world
          = Ok (r1, w1)
        /\ generate_trend_analysis
             [[("date", VStr "2024-01-01"); ("glucose", VNum 100)];
              [("date", VStr "2024-02-01"); ("glucose", VNum 110)]] w1
           = Ok (r2, w2)
        /\ r1 <> r2).
Proof.
  split; [|split].
  - eexists. eexists. eexists. eexists.
    split; [vm_compute; reflexivity|]. split; [vm_compute; reflexivity|].
    intros H. apply (f_equal hs_calculated_at) in H. discriminate H.
  - eexists. eexists. eexists. eexists.
    split; [vm_compute; reflexivity|]. split; [vm_compute; reflexivity|].
    intros H. apply (f_equal analyzed_at) in H.
    apply String.eqb_eq in H. vm_compute in H. discriminate H.
  - eexists. eexists. eexists. eexists.
    split; [vm_compute; reflexivity|]. split; [vm_compute; reflexivity|].
    intros H.
    apply (f_equal (fun r => match r with
                             | TrendReport _ _ _ generated_at => generated_at
                             | InsufficientData _ => EmptyString
                             end)) in H.
    apply String.eqb_eq in H. vm_compute in H. discriminate H.
Qed.

(** C4 (amended).  Apart from the timestamp each result is a function of the
    input alone: invoked at any two times, [calculate_health_score] on the
    same snapshot gives results (or exceptions) that agree in everything but
    [calculated_at], [detect_risk_factors] on the same snapshot and age in
    everything but [analyzed_at], and [generate_trend_analysis] on the same
    history, every record of which carries a date, in everything but
    [generated_at]. *)
Theorem deterministic_up_to_timestamp (lab_data : dict value) (patient_age : Z)
    (historical_data : list (dict value)) (w1 w2 : world) :
  dated historical_data ->
  (fun rw => erase_calculated_at rw.1) <$> calculate_health_score lab_data w1
    = (fun rw => erase_calculated_at rw.1) <$> calculate_health_score lab_data w2
  /\ (fun rw => erase_analyzed_at rw.1) <$> detect_risk_factors lab_data patient_age w1
     = (fun rw => erase_analyzed_at rw.1) <$> detect_risk_factors lab_data patient_age w2
  /\ (fun rw => erase_generated_at rw.1) <$> generate_trend_analysis historical_data w1
     = (fun rw => erase_generated_at rw.1) <$> generate_trend_analysis historical_data w2.
Proof.
  intros Hd. split; [|split].
  - unfold calculate_health_score.
    destruct lab_data as [|kv rest]; [reflexivity|].
    destruct (categorize_lab_results (kv :: rest)) as [categorized|]; [|reflexivity].
    monad_simpl.
    destruct (score_loop categorized [] 0) as [scores total_weight].
    destruct (match scores with
              | [] => Ok 0
              | _ :: _ => if Qlt_bool 0 total_weight
                          then py_div (py_sum scores) total_weight else Ok 0
              end) as [avg_score|]; [|reflexivity].
    destruct (health_label avg_score). reflexivity.
  - unfold detect_risk_factors.
    destruct (condition_checks lab_data); reflexivity.
  - unfold generate_trend_analysis.
    destruct (length historical_data <? 2)%nat; [reflexivity|].
    pose proof (group_records_dated historical_data [] w1 w2 Hd) as Hg.
    destruct (group_records historical_data [] w1) as [td1 w1'].
    destruct (group_records historical_data [] w2) as [td2 w2'].
    simpl in Hg. subst td2.
    destruct (analyze_loop td1 [] None) as [[trends [s|]]|]; monad_simpl;
      try reflexivity.
    destruct (py_first s); monad_simpl; [|reflexivity].
    destruct (py_last s); reflexivity.
Qed.

Lemma deterministic_up_to_timestamp_witness :
  (fun rw => erase_calculated_at rw.1)
    <$> calculate_health_score [("glucose", VNum 90)] example_world
    = (fun rw => erase_calculated_at rw.1)
        <$> calculate_health_score [("glucose", VNum 90)]
              {| clock := example_clock; ticks := 1 |}
  /\ (fun rw => erase_analyzed_at rw.1)
       <$> detect_risk_factors [("glucose", VNum 90)] 50 example_world
     = (fun rw => erase_analyzed_at rw.1)
         <$> detect_risk_factors [("glucose", VNum 90)] 50
               {| clock := example_clock; ticks := 1 |}
  /\ (fun rw => erase_generated_at rw.1)
       <$> generate_trend_analysis
             [[("date", VStr "2024-01-01"); ("glucose", VNum 100)];
              [("date", VStr "2024-02-01"); ("glucose", VNum 110)]] example_world
     = (fun rw => erase_generated_at rw.1)
         <$> generate_trend_analysis
               [[("date", VStr "2024-01-01"); ("glucose", VNum 100)];
                [("date", VStr "2024-02-01"); ("glucose", VNum 110)]]
               {| clock := example_clock; ticks := 1 |}.
Proof.
  apply (deterministic_up_to_timestamp
           [("glucose", VNum 90)] 50
           [[("date", VStr "2024-01-01"); ("glucose", VNum 100)];
            [("date", VStr "2024-02-01"); ("glucose", VNum 110)]]
           example_world {| clock := example_clock; ticks := 1 |}).
  repeat constructor.
Defined.

(** * Further properties of the analyzer *)

(** ** The reference table *)

Lemma dict_get_cons {V} (k' k : string) (v : V) (d : dict V) :
  dict_get ((k', v) :: d) k = if String.eqb k' k then Some v else dict_get d k.
Proof. reflexivity. Qed.

Lemma dict_get_nil {V} (k : string) : dict_get ([] : dict V) k = None.
Proof. reflexivity. Qed.

(** Case analysis on a lookup in a literal table. *)
Ltac table_cases k :=
  repeat (rewrite dict_get_cons;
          match goal with
          | |- context [String.eqb ?a k] => destruct (String.eqb_spec a k) as [<-|_]
          end);
  rewrite ?dict_get_nil.

Lemma reference_ranges_bounds (k : string) (ref : reference_range) :
  dict_get reference_ranges k = Some ref ->
  0 < ref_max ref
  /\ (0 < ref_min ref
      \/ (ref_min ref = 0 /\ (k = "ldl" \/ k = "triglycerides"))).
Proof.
  unfold reference_ranges. table_cases k;
    try (intros [= <-]; simpl; split; [reflexivity|auto]; left; reflexivity).
  discriminate.
Qed.






(** ** Rounding keeps integer bounds *)

Lemma round_half_even_le (x : Q) (n : Z) :
  x <= inject_Z n -> (round_half_even x <= n)%Z.
Proof.
  intros Hx. unfold round_half_even.
  pose proof (Qfloor_resp_le _ _ Hx) as Hf. rewrite Qfloor_Z in Hf.
  destruct (Qlt_bool (x - inject_Z (Qfloor x)) (1 # 2)) eqn:E1; [exact Hf|].
  apply Qlt_bool_false_iff in E1.
  assert (Hlt : (Qfloor x < n)%Z).
  { destruct (Z.eq_dec (Qfloor x) n) as [Heq|Hne]; [|lia].
    rewrite Heq in E1. lra. }
  destruct (Qlt_bool (1 # 2) _); [lia|]. destruct (Z.even _); lia.
Qed.

Lemma round_half_even_ge (x : Q) (n : Z) :
  inject_Z n <= x -> (n <= round_half_even x)%Z.
Proof.
  intros Hx. unfold round_half_even.
  pose proof (Qfloor_resp_le _ _ Hx) as Hf. rewrite Qfloor_Z in Hf.
  destruct (Qlt_bool _ _); [exact Hf|].
  destruct (Qlt_bool _ _); [lia|]. destruct (Z.even _); lia.
Qed.

Lemma py_round_le (x : Q) (ndigits : nat) (n : Z) :
  x <= inject_Z n -> py_round x ndigits <= inject_Z n.
Proof.
  intros Hx. unfold py_round. destruct ndigits as [|k].
  - rewrite <- Zle_Qle. apply round_half_even_le. exact Hx.
  - set (s := Pos.pow 10 (Pos.of_nat (S k))).
    assert (H : (round_half_even (x * inject_Z (Z.pos s)) <= n * Z.pos s)%Z).
    { apply round_half_even_le. rewrite inject_Z_mult.
      apply Qmult_le_compat_r; [exact Hx|]. rewrite <- (Zle_Qle 0). lia. }
    unfold Qle. simpl. lia.
Qed.

Lemma py_round_ge (x : Q) (ndigits : nat) (n : Z) :
  inject_Z n <= x -> inject_Z n <= py_round x ndigits.
Proof.
  intros Hx. unfold py_round. destruct ndigits as [|k].
  - rewrite <- Zle_Qle. apply round_half_even_ge. exact Hx.
  - set (s := Pos.pow 10 (Pos.of_nat (S k))).
    assert (H : (n * Z.pos s <= round_half_even (x * inject_Z (Z.pos s)))%Z).
    { apply round_half_even_ge. rewrite inject_Z_mult.
      apply Qmult_le_compat_r; [exact Hx|]. rewrite <- (Zle_Qle 0). lia. }
    unfold Qle. simpl. lia.
Qed.

(** A number that is an integer is its own rounding. *)
Lemma py_round_integer (x : Q) (ndigits : nat) (n : Z) :
  x == inject_Z n -> py_round x ndigits == inject_Z n.
Proof.
  intros Hx. apply Qle_antisym.
  - apply py_round_le. rewrite Hx. apply Qle_refl.
  - apply py_round_ge. rewrite Hx. apply Qle_refl.
Qed.

(** ** What the categorizer returns *)

Lemma dict_set_fresh {V} (d : dict V) (k : string) (v : V) :
  k ∉ d.*1 -> dict_set d k v = d ++ [(k, v)].
Proof.
  induction d as [|[k0 v0] d IH]; intros Hk; simpl; [reflexivity|].
  rewrite fmap_cons in Hk. apply not_elem_of_cons in Hk as [Hne Hk]. simpl in Hne.
  destruct (String.eqb_spec k0 k); [congruence|]. rewrite (IH Hk). reflexivity.
Qed.

Lemma dict_get_elem_of_wf {V} (d : dict V) (k : string) (v : V) :
  dict_wf d -> (k, v) ∈ d -> dict_get d k = Some v.
Proof.
  unfold dict_wf. induction d as [|[k0 v0] d IH]; intros Hwf Hin.
  - apply elem_of_nil in Hin. contradiction.
  - rewrite fmap_cons in Hwf. apply NoDup_cons in Hwf as [Hk0 Hwf]. simpl in Hk0.
    rewrite dict_get_cons.
    apply elem_of_cons in Hin as [[= -> ->]|Hin].
    + rewrite String.eqb_refl. reflexivity.
    + destruct (String.eqb_spec k0 k) as [->|Hne]; [|auto].
      exfalso. apply Hk0. apply list_elem_of_fmap. exists (k, v). auto.
Qed.

Lemma categorize_loop_entries (items : dict value) (acc cat : dict categorized_result) :
  NoDup (acc.*1 ++ items.*1) ->
  categorize_loop items acc = Ok cat ->
  exists new, cat = acc ++ new /\ Forall2 entry_of (List.filter recognized items) new.
Proof.
  revert acc. induction items as [|[k x] rest IH]; intros acc Hnd H.
  - injection H as <-. exists []. rewrite app_nil_r. split; [reflexivity|constructor].
  - rewrite categorize_loop_cons in H. rewrite fmap_cons in Hnd. simpl in Hnd.
    assert (Hskip : NoDup (acc.*1 ++ rest.*1)).
    { apply NoDup_app in Hnd as (Ha & Hdisj & Hr). apply NoDup_cons in Hr as [_ Hr].
      apply NoDup_app. split; [exact Ha|]. split; [|exact Hr].
      intros y Hy Hy'. apply (Hdisj y Hy). apply list_elem_of_further. exact Hy'. }
    change (List.filter recognized ((k, x) :: rest))
      with (if is_num x && match dict_get reference_ranges k with
                           | Some _ => true
                           | None => false
                           end
            then (k, x) :: List.filter recognized rest
            else List.filter recognized rest).
    destruct x as [v|s]; cbn [is_num andb]; [|eauto].
    destruct (dict_get reference_ranges k) as [ref|] eqn:Eref; [|eauto].
    destruct (categorize_value k v ref) as [entry|] eqn:Ev; [|discriminate].
    assert (Hk : k ∉ acc.*1).
    { apply NoDup_app in Hnd as (_ & Hdisj & _). intros Hin.
      apply (Hdisj k Hin). apply list_elem_of_here. }
    rewrite (dict_set_fresh _ _ _ Hk) in H.
    destruct (IH (acc ++ [(k, entry)])) as (new & -> & Hnew); [|exact H|].
    + rewrite fmap_app, <- app_assoc. exact Hnd.
    + exists ((k, entry) :: new). rewrite <- app_assoc. split; [reflexivity|].
      constructor; [|exact Hnew].
      split; [reflexivity|]. exists v, ref. auto.
Qed.

Lemma categorize_value_fields (test_name : string) (v : Q) (ref : reference_range)
    (e : categorized_result) :
  categorize_value test_name v ref = Ok e ->
  cr_value e = v
  /\ cr_unit e = ref_unit ref
  /\ cr_category e = ref_category ref
  /\ cr_min_reference e = ref_min ref
  /\ cr_max_reference e = ref_max ref.
Proof.
  unfold categorize_value. intros H.
  destruct (if Qlt_bool v (ref_min ref) then _ else _) as [[d s]|];
    monad_simpl; [|discriminate].
  injection H as <-. simpl. auto.
Qed.

(** X2.  On a snapshot with distinct keys, the result of the categorizer has
    one entry for each numeric item whose name has a reference range, in the
    order of the snapshot, under the same name; the entry echoes the value and
    carries the unit, category and bounds of the table.  Other names and
    non-numeric values leave no trace. *)
Theorem categorize_exactly_recognized (lab_data : dict value)
    (cat : dict categorized_result) :
  dict_wf lab_data ->
  categorize_lab_results lab_data = Ok cat ->
  Forall2
    (fun kv ke =>
       ke.1 = kv.1
       /\ exists ref,
            dict_get reference_ranges kv.1 = Some ref
            /\ kv.2 = VNum (cr_value ke.2)
            /\ cr_unit ke.2 = ref_unit ref
            /\ cr_category ke.2 = ref_category ref
            /\ cr_min_reference ke.2 = ref_min ref
            /\ cr_max_reference ke.2 = ref_max ref)
    (List.filter recognized lab_data) cat.
Proof.
  intros Hwf H.
  destruct (categorize_loop_entries lab_data [] cat Hwf H) as (new & -> & Hnew).
  simpl. eapply Forall2_impl; [exact Hnew|].
  intros kv ke (Hk & v & ref & Hv & Href & He).
  split; [exact Hk|]. exists ref.
  destruct (categorize_value_fields _ _ _ _ He) as (Hval & Hrest).
  split; [exact Href|]. split; [rewrite Hval; exact Hv|exact Hrest].
Qed.

Lemma categorize_exactly_recognized_witness :
  exists cat,
    categorize_lab_results
      [("glucose", VNum 145); ("ferritin", VNum 80); ("hdl", VStr "n/a"); ("bun", VNum 12)]
      = Ok cat
    /\ Forall2
         (fun kv ke =>
            ke.1 = kv.1
            /\ exists ref,
                 dict_get reference_ranges kv.1 = Some ref
                 /\ kv.2 = VNum (cr_value ke.2)
                 /\ cr_unit ke.2 = ref_unit ref
                 /\ cr_category ke.2 = ref_category ref
                 /\ cr_min_reference ke.2 = ref_min ref
                 /\ cr_max_reference ke.2 = ref_max ref)
         [("glucose", VNum 145); ("bun", VNum 12)] cat.
Proof.
  eexists. split; [vm_compute; reflexivity|].
  apply (categorize_exactly_recognized
           [("glucose", VNum 145); ("ferritin", VNum 80); ("hdl", VStr "n/a");
            ("bun", VNum 12)]).
  - apply (bool_decide_unpack _). vm_compute. exact I.
  - vm_compute. reflexivity.
Defined.

Lemma categorize_loop_Forall (P : string * categorized_result -> Prop)
    (items : dict value) (acc cat : dict categorized_result) :
  (forall k v ref e,
     dict_get reference_ranges k = Some ref ->
     categorize_value k v ref = Ok e -> P (k, e)) ->
  Forall P acc ->
  categorize_loop items acc = Ok cat ->
  Forall P cat.
Proof.
  intros HP. revert acc. induction items as [|[k x] rest IH]; intros acc Hacc H.
  - injection H as <-. exact Hacc.
  - rewrite categorize_loop_cons in H.
    destruct x as [v|s]; [|eauto].
    destruct (dict_get reference_ranges k) as [ref|] eqn:Eref; [|eauto].
    destruct (categorize_value k v ref) as [entry|] eqn:Ev; [|discriminate].
    apply (IH _ (Forall_dict_set P acc k entry Hacc (HP _ _ _ _ Eref Ev)) H).
Qed.

Lemma categorize_value_style (test_name : string) (v : Q) (ref : reference_range)
    (e : categorized_result) :
  categorize_value test_name v ref = Ok e ->
  cr_status e ∈ four_statuses
  /\ exists st,
       dict_get status_colors (cr_status e) = Some st
       /\ cr_color e = style_color st
       /\ cr_status_text e = style_text st.
Proof.
  intros H.
  assert (Hs : cr_status e = "normal" \/ cr_status e = "borderline"
               \/ cr_status e = "warning" \/ cr_status e = "critical").
  { destruct (categorize_value_cases _ _ _ _ H)
      as [(_ & _ & Ht)|[(_ & _ & _ & Ht)|(_ & _ & Hn & _)]]; [| |auto].
    - destruct Ht as [[_ ->]|[(_ & _ & ->)|(_ & _ & ->)]]; auto.
    - destruct Ht as [[_ ->]|[(_ & _ & ->)|(_ & _ & ->)]]; auto. }
  unfold categorize_value in H.
  destruct (if Qlt_bool v (ref_min ref) then _ else _) as [[d s]|];
    monad_simpl; [|discriminate].
  injection H as <-. simpl in *. unfold four_statuses.
  destruct Hs as [->|[->|[->| ->]]].
  - split; [apply list_elem_of_here|]. eexists. repeat split; reflexivity.
  - split; [apply list_elem_of_further, list_elem_of_here|].
    eexists. repeat split; reflexivity.
  - split; [do 2 apply list_elem_of_further; apply list_elem_of_here|].
    eexists. repeat split; reflexivity.
  - split; [do 3 apply list_elem_of_further; apply list_elem_of_here|].
    eexists. repeat split; reflexivity.
Qed.

Lemma categorize_statuses (lab_data : dict value) (cat : dict categorized_result) :
  categorize_lab_results lab_data = Ok cat ->
  Forall (fun ke => cr_status ke.2 ∈ four_statuses) cat.
Proof.
  intros H.
  apply (categorize_loop_Forall _ lab_data [] cat); [|constructor|exact H].
  intros k v ref e _ He. exact (proj1 (categorize_value_style _ _ _ _ He)).
Qed.

(** X3.  Every entry of the categorizer has one of the four statuses normal,
    borderline, warning, critical, and its color and status text are those of
    the status table: the fallbacks "#6B7280" and "Unknown" are never used. *)
Theorem categorize_status_resolved (lab_data : dict value)
    (cat : dict categorized_result) :
  categorize_lab_results lab_data = Ok cat ->
  Forall
    (fun ke =>
       cr_status ke.2 ∈ four_statuses
       /\ (exists st,
             dict_get status_colors (cr_status ke.2) = Some st
             /\ cr_color ke.2 = style_color st
             /\ cr_status_text ke.2 = style_text st)
       /\ cr_color ke.2 <> "#6B7280"
       /\ cr_status_text ke.2 <> "Unknown")
    cat.
Proof.
  intros H.
  apply (categorize_loop_Forall _ lab_data [] cat); [|constructor|exact H].
  intros k v ref e _ He. simpl.
  destruct (categorize_value_style _ _ _ _ He) as (Hs & st & Hst & Hc & Ht).
  split; [exact Hs|]. split; [eauto|].
  rewrite Hc, Ht. clear Hc Ht He Hs. revert Hst. unfold status_colors.
  generalize (cr_status e). intros s.
  table_cases s; intros [= <-]; simpl; split; discriminate.
Qed.

Lemma categorize_status_resolved_witness :
  exists cat,
    categorize_lab_results [("glucose", VNum 145); ("hdl", VNum 35)] = Ok cat
    /\ Forall
         (fun ke =>
            cr_status ke.2 ∈ four_statuses
            /\ (exists st,
                  dict_get status_colors (cr_status ke.2) = Some st
                  /\ cr_color ke.2 = style_color st
                  /\ cr_status_text ke.2 = style_text st)
            /\ cr_color ke.2 <> "#6B7280"
            /\ cr_status_text ke.2 <> "Unknown")
         cat.
Proof.
  eexists. split; [vm_compute; reflexivity|].
  apply (categorize_status_resolved [("glucose", VNum 145); ("hdl", VNum 35)]).
  vm_compute. reflexivity.
Defined.

Lemma categorize_value_deviation (test_name : string) (v : Q) (ref : reference_range)
    (e : categorized_result) :
  categorize_value test_name v ref = Ok e ->
  (v < ref_min ref /\ ~ ref_min ref == 0
   /\ cr_deviation_percent e = py_round ((ref_min ref - v) / ref_min ref * 100) 2)
  \/ (ref_min ref <= v /\ ref_max ref < v /\ ~ ref_max ref == 0
      /\ cr_deviation_percent e = py_round ((v - ref_max ref) / ref_max ref * 100) 2)
  \/ (ref_min ref <= v /\ v <= ref_max ref
      /\ cr_deviation_percent e = py_round 0 2).
Proof.
  unfold categorize_value. intros H.
  destruct (Qlt_bool v (ref_min ref)) eqn:Elo.
  - apply Qlt_bool_iff in Elo. left.
    destruct (_get_status_below (ref_min ref) v) as [status|] eqn:Es.
    + destruct (tier_of_status_below _ _ _ Es) as [Hnz _].
      rewrite (py_div_ok _ _ Hnz) in H. monad_simpl.
      injection H as <-. simpl. auto.
    + destruct (py_div _ _); monad_simpl; discriminate.
  - apply Qlt_bool_false_iff in Elo. right.
    destruct (Qlt_bool (ref_max ref) v) eqn:Ehi.
    + apply Qlt_bool_iff in Ehi. left.
      destruct (_get_status_above (ref_max ref) v) as [status|] eqn:Es.
      * destruct (tier_of_status_above _ _ _ Es) as [Hnz _].
        rewrite (py_div_ok _ _ Hnz) in H. monad_simpl.
        injection H as <-. simpl. auto.
      * destruct (py_div _ _); monad_simpl; discriminate.
    + apply Qlt_bool_false_iff in Ehi. right.
      monad_simpl. injection H as <-. simpl. auto.
Qed.

Lemma positive_ratio_nonneg (a b : Q) : 0 <= a -> 0 < b -> 0 <= a / b * 100.
Proof.
  intros Ha Hb. apply Qmult_le_0_compat; [|discriminate].
  apply Qle_shift_div_l; [exact Hb|]. lra.
Qed.

(** X4.  The [deviation_percent] of an entry is never negative: it measures
    the distance to the breached bound, whichever side is breached. *)
Theorem deviation_percent_nonneg (lab_data : dict value)
    (cat : dict categorized_result) :
  categorize_lab_results lab_data = Ok cat ->
  Forall (fun ke => 0 <= cr_deviation_percent ke.2) cat.
Proof.
  intros H.
  apply (categorize_loop_Forall _ lab_data [] cat); [|constructor|exact H].
  intros k v ref e Href He. simpl.
  destruct (reference_ranges_bounds _ _ Href) as [Hmax Hmin].
  destruct (categorize_value_deviation _ _ _ _ He)
    as [(Hlo & Hnz & ->)|[(_ & Hhi & _ & ->)|(_ & _ & ->)]].
  - destruct Hmin as [Hpos|[Hz _]]; [|rewrite Hz in Hnz; exfalso; apply Hnz; reflexivity].
    apply (py_round_ge _ 2 0). apply positive_ratio_nonneg; [lra|exact Hpos].
  - apply (py_round_ge _ 2 0). apply positive_ratio_nonneg; [lra|exact Hmax].
  - discriminate.
Qed.

Lemma deviation_percent_nonneg_witness :
  exists cat,
    categorize_lab_results [("glucose", VNum 50); ("ldl", VNum 190)] = Ok cat
    /\ Forall (fun ke => 0 <= cr_deviation_percent ke.2) cat.
Proof.
  eexists. split; [vm_compute; reflexivity|].
  apply (deviation_percent_nonneg [("glucose", VNum 50); ("ldl", VNum 190)]).
  vm_compute. reflexivity.
Defined.

(** ** Categorizing the values of a categorized result again *)

Lemma filter_keys_NoDup {V} (f : string * V -> bool) (d : dict V) :
  NoDup (d.*1) -> NoDup ((List.filter f d).*1).
Proof.
  induction d as [|[k v] d IH]; intros Hnd; [constructor|].
  rewrite fmap_cons in Hnd. apply NoDup_cons in Hnd as [Hk Hnd]. simpl.
  destruct (f (k, v)); [|auto].
  rewrite fmap_cons. apply NoDup_cons. split; [|auto].
  intros Hin. apply Hk. apply list_elem_of_fmap in Hin as ([k' v'] & -> & Hin).
  apply list_elem_of_In, filter_In in Hin as [Hin _].
  apply list_elem_of_fmap. exists (k', v'). split; [reflexivity|].
  apply list_elem_of_In. exact Hin.
Qed.

Lemma entry_of_keys (items : dict value) (new : dict categorized_result) :
  Forall2 entry_of items new -> new.*1 = items.*1.
Proof.
  induction 1 as [|kv ke items new [Hk _] _ IH]; [reflexivity|].
  rewrite !fmap_cons, Hk, IH. reflexivity.
Qed.

Lemma recategorize_loop (es acc : dict categorized_result) :
  NoDup (acc.*1 ++ es.*1) ->
  Forall (fun ke => exists ref,
            dict_get reference_ranges ke.1 = Some ref
            /\ categorize_value ke.1 (cr_value ke.2) ref = Ok ke.2) es ->
  categorize_loop (analysis_values es) acc = Ok (acc ++ es).
Proof.
  revert acc. induction es as [|[k e] es IH]; intros acc Hnd Hes.
  - rewrite app_nil_r. reflexivity.
  - apply Forall_cons in Hes as [(ref & Href & He) Hes]. cbn [fst snd] in Href, He.
    unfold analysis_values. cbn [map fst snd]. rewrite categorize_loop_cons.
    rewrite Href, He.
    rewrite fmap_cons in Hnd. simpl in Hnd.
    assert (Hk : k ∉ acc.*1).
    { apply NoDup_app in Hnd as (_ & Hdisj & _). intros Hin.
      apply (Hdisj k Hin). apply list_elem_of_here. }
    rewrite (dict_set_fresh _ _ _ Hk).
    change (map (fun ke : string * categorized_result => (ke.1, VNum (cr_value ke.2))) es)
      with (analysis_values es).
    rewrite IH; [rewrite <- app_assoc; reflexivity| |exact Hes].
    rewrite fmap_app, <- app_assoc. exact Hnd.
Qed.

(** X5.  Categorizing is idempotent through the values: the snapshot made of
    the values of a categorized result, as [get_patient_summary] builds it
    for the health score, is categorized to that same result. *)
Theorem recategorize_values (lab_data : dict value) (cat : dict categorized_result) :
  dict_wf lab_data ->
  categorize_lab_results lab_data = Ok cat ->
  categorize_lab_results (analysis_values cat) = Ok cat.
Proof.
  intros Hwf H.
  destruct (categorize_loop_entries lab_data [] cat Hwf H) as (new & -> & Hnew).
  simpl. unfold categorize_lab_results.
  rewrite (recategorize_loop new []); [reflexivity| |].
  - simpl. rewrite (entry_of_keys _ _ Hnew). apply filter_keys_NoDup. exact Hwf.
  - clear H. induction Hnew as [|kv ke items new (Hk & v & ref & Hv & Href & He) _ IH];
      constructor; [|exact IH].
    exists ref. rewrite Hk.
    destruct (categorize_value_fields _ _ _ _ He) as (-> & _). auto.
Qed.

Lemma recategorize_values_witness :
  exists cat,
    categorize_lab_results [("glucose", VNum 145); ("ferritin", VNum 80); ("hdl", VNum 35)]
      = Ok cat
    /\ categorize_lab_results (analysis_values cat) = Ok cat.
Proof.
  eexists. split; [vm_compute; reflexivity|].
  apply (recategorize_values
           [("glucose", VNum 145); ("ferritin", VNum 80); ("hdl", VNum 35)]).
  - apply (bool_decide_unpack _). vm_compute. exact I.
  - vm_compute. reflexivity.
Defined.

(** ** The health scorer: a weighted mean of the status points *)

Lemma weights_positive (category : string) :
  0 < default (1 # 10) (dict_get weights category).
Proof. unfold weights. table_cases category; reflexivity. Qed.

Lemma status_points_bounds (status : string) (points : Q) :
  dict_get status_points status = Some points -> 10 <= points /\ points <= 100.
Proof.
  unfold status_points. table_cases status; intros [= <-]; split; discriminate.
Qed.

Lemma four_statuses_have_points (status : string) :
  status ∈ four_statuses -> exists points, dict_get status_points status = Some points.
Proof.
  unfold four_statuses. rewrite !elem_of_cons, elem_of_nil.
  intros [->|[->|[->|[->|[]]]]]; eexists; reflexivity.
Qed.

Lemma py_sum_snoc (l : list Q) (x : Q) : py_sum (l ++ [x]) = py_sum l + x.
Proof. unfold py_sum. rewrite fold_left_app. reflexivity. Qed.

Lemma score_loop_cons (test : string) (data : categorized_result)
    (rest : dict categorized_result) (scores : list Q) (total_weight : Q) :
  score_loop ((test, data) :: rest) scores total_weight =
    match dict_get status_points (cr_status data) with
    | Some points =>
        score_loop rest
          (scores ++ [points * default (1 # 10) (dict_get weights (cr_category data))])
          (total_weight + default (1 # 10) (dict_get weights (cr_category data)))
    | None => score_loop rest scores total_weight
    end.
Proof. reflexivity. Qed.

(** With the points of all contributing entries between [lo] and [hi], the
    sum of the weighted points lies between [lo] and [hi] times the weight
    used, and an entry that contributed made that weight positive. *)
Lemma score_loop_bounds (lo hi : Q) (items : dict categorized_result)
    (scores : list Q) (tw : Q) :
  Forall (fun ke => forall p, dict_get status_points (cr_status ke.2) = Some p ->
                              lo <= p /\ p <= hi) items ->
  lo * tw <= py_sum scores /\ py_sum scores <= hi * tw ->
  0 <= tw ->
  (scores <> [] -> 0 < tw) ->
  lo * (score_loop items scores tw).2 <= py_sum (score_loop items scores tw).1
  /\ py_sum (score_loop items scores tw).1 <= hi * (score_loop items scores tw).2
  /\ 0 <= (score_loop items scores tw).2
  /\ ((score_loop items scores tw).1 <> [] -> 0 < (score_loop items scores tw).2).
Proof.
  revert scores tw.
  induction items as [|[test data] rest IH]; intros scores tw Hitems [Hlo Hhi] Htw Hpos.
  - simpl. auto.
  - apply Forall_cons in Hitems as [Hdata Hrest]. cbn [fst snd] in Hdata.
    rewrite score_loop_cons.
    destruct (dict_get status_points (cr_status data)) as [p|]; [|auto].
    destruct (Hdata p eq_refl) as [Hp1 Hp2].
    pose proof (weights_positive (cr_category data)) as Hw.
    set (wt := default (1 # 10) (dict_get weights (cr_category data))) in *.
    apply IH; [exact Hrest| | |].
    + rewrite py_sum_snoc. split.
      * assert (lo * wt <= p * wt) by (apply Qmult_le_compat_r; lra). lra.
      * assert (p * wt <= hi * wt) by (apply Qmult_le_compat_r; lra). lra.
    + lra.
    + intros _. lra.
Qed.

Lemma score_loop_contributes (items : dict categorized_result) (scores : list Q)
    (tw : Q) :
  Forall (fun ke => cr_status ke.2 ∈ four_statuses) items ->
  items <> [] \/ scores <> [] ->
  (score_loop items scores tw).1 <> [].
Proof.
  revert scores tw. induction items as [|[test data] rest IH]; intros scores tw Hst Hne.
  - simpl. destruct Hne as [H|H]; [contradiction|exact H].
  - apply Forall_cons in Hst as [Hdata Hrest]. cbn [fst snd] in Hdata.
    rewrite score_loop_cons.
    destruct (four_statuses_have_points _ Hdata) as [p ->].
    apply IH; [exact Hrest|]. right. destruct scores; discriminate.
Qed.

(** The score of a non-empty snapshot, once categorized. *)
Lemma calculate_health_score_categorized (lab_data : dict value) (w : world)
    (cat : dict categorized_result) :
  lab_data <> [] ->
  categorize_lab_results lab_data = Ok cat ->
  exists avg_score,
    calculate_health_score lab_data w =
      Ok ({| hs_score := py_round avg_score 1;
             hs_status := (health_label avg_score).1;
             hs_status_color := Some (health_label avg_score).2;
             hs_category_breakdown := Some cat;
             hs_calculated_at := Some (clock w (ticks w)) |},
          {| clock := clock w; ticks := S (ticks w) |})
    /\ (((score_loop cat [] 0).1 = [] /\ avg_score = 0)
        \/ ((score_loop cat [] 0).1 <> [] /\ 0 < (score_loop cat [] 0).2
            /\ avg_score = py_sum (score_loop cat [] 0).1 / (score_loop cat [] 0).2)).
Proof.
  intros Hne Hcat. unfold calculate_health_score.
  destruct lab_data as [|kv rest]; [contradiction|].
  rewrite Hcat. monad_simpl.
  destruct (score_loop_bounds 10 100 cat [] 0) as (_ & _ & _ & Hpos).
  { apply Forall_forall. intros ke _ p Hp. exact (status_points_bounds _ _ Hp). }
  { split; discriminate. }
  { discriminate. }
  { intros H. contradiction. }
  destruct (score_loop cat [] 0) as [scores tw]. simpl in Hpos.
  destruct scores as [|s scores].
  - exists 0. destruct (health_label 0) eqn:E. split; [reflexivity|]. left. auto.
  - assert (Htw : 0 < tw) by (apply Hpos; discriminate).
    apply Qlt_bool_iff in Htw as Htwb. rewrite Htwb.
    rewrite py_div_ok; [|intros Hz; rewrite Hz in Htw; exact (Qlt_irrefl _ Htw)].
    exists (py_sum (s :: scores) / tw).
    destruct (health_label _) eqn:E. split; [reflexivity|].
    right. split; [discriminate|]. auto.
Qed.

(** X6.  The scorer adds no failure of its own and hands on the categorizer's
    result: on a non-empty snapshot it raises what the categorizer raises, and
    otherwise returns with the categorized result as [category_breakdown],
    after reading the clock once for [calculated_at]. *)
Theorem score_follows_categorize (lab_data : dict value) (w : world) :
  lab_data <> [] ->
  (forall e, categorize_lab_results lab_data = Raise e ->
             calculate_health_score lab_data w = Raise e)
  /\ (forall cat, categorize_lab_results lab_data = Ok cat ->
        exists r,
          calculate_health_score lab_data w
            = Ok (r, {| clock := clock w; ticks := S (ticks w) |})
          /\ hs_category_breakdown r = Some cat
          /\ hs_calculated_at r = Some (clock w (ticks w))).
Proof.
  intros Hne. split.
  - intros e He. unfold calculate_health_score.
    destruct lab_data; [contradiction|]. rewrite He. reflexivity.
  - intros cat Hcat.
    destruct (calculate_health_score_categorized lab_data w cat Hne Hcat)
      as (avg & -> & _).
    eexists. split; [reflexivity|]. split; reflexivity.
Qed.

Lemma score_follows_categorize_witness :
  (forall e, categorize_lab_results [("glucose", VNum 145); ("ldl", VNum 140)] = Raise e ->
             calculate_health_score [("glucose", VNum 145); ("ldl", VNum 140)] example_world
             = Raise e)
  /\ (forall cat,
        categorize_lab_results [("glucose", VNum 145); ("ldl", VNum 140)] = Ok cat ->
        exists r,
          calculate_health_score [("glucose", VNum 145); ("ldl", VNum 140)] example_world
            = Ok (r, {| clock := clock example_world; ticks := S (ticks example_world) |})
          /\ hs_category_breakdown r = Some cat
          /\ hs_calculated_at r = Some (clock example_world (ticks example_world))).
Proof.
  apply (score_follows_categorize [("glucose", VNum 145); ("ldl", VNum 140)] example_world).
  discriminate.
Defined.

Lemma weighted_mean_bounds (lo hi : Q) (cat : dict categorized_result) :
  Forall (fun ke => forall p, dict_get status_points (cr_status ke.2) = Some p ->
                              lo <= p /\ p <= hi) cat ->
  (score_loop cat [] 0).1 <> [] ->
  0 < (score_loop cat [] 0).2
  /\ lo <= py_sum (score_loop cat [] 0).1 / (score_loop cat [] 0).2
  /\ py_sum (score_loop cat [] 0).1 / (score_loop cat [] 0).2 <= hi.
Proof.
  intros Hcat Hne.
  destruct (score_loop_bounds lo hi cat [] 0 Hcat) as (Hlo & Hhi & _ & Hpos).
  { unfold py_sum. simpl. split; lra. }
  { discriminate. }
  { intros H. contradiction. }
  specialize (Hpos Hne). split; [exact Hpos|]. split.
  - apply Qle_shift_div_l; [exact Hpos|exact Hlo].
  - apply Qle_shift_div_r; [exact Hpos|exact Hhi].
Qed.

(** X7.  A score that is returned lies between 0 and 100, and is at least 10
    as soon as one test was categorized. *)
Theorem health_score_bounds (lab_data : dict value) (w w' : world) (r : health_score) :
  calculate_health_score lab_data w = Ok (r, w') ->
  0 <= hs_score r
  /\ hs_score r <= 100
  /\ (forall cat, hs_category_breakdown r = Some cat -> cat <> [] -> 10 <= hs_score r).
Proof.
  intros H. destruct lab_data as [|kv rest].
  - injection H as <- <-. simpl. split; [discriminate|]. split; discriminate.
  - destruct (categorize_lab_results (kv :: rest)) as [cat|e] eqn:Hcat.
    + destruct (calculate_health_score_categorized (kv :: rest) w cat) as (avg & Hrun & Havg);
        [discriminate|exact Hcat|].
      rewrite Hrun in H. injection H as <- <-. simpl.
      pose proof (categorize_statuses _ _ Hcat) as Hst.
      destruct Havg as [[Hnil ->]|(Hne & _ & ->)].
      * split; [apply (py_round_ge _ 1 0); discriminate|].
        split; [apply (py_round_le _ 1 100); discriminate|].
        intros cat' [= <-] Hcat'. exfalso.
        apply (score_loop_contributes cat [] 0 Hst); [left; exact Hcat'|exact Hnil].
      * destruct (weighted_mean_bounds 10 100 cat) as (_ & Hlo & Hhi); [|exact Hne|].
        { apply Forall_forall. intros ke _ p Hp. exact (status_points_bounds _ _ Hp). }
        split; [apply (py_round_ge _ 1 0); eapply Qle_trans; [|exact Hlo]; discriminate|].
        split; [apply (py_round_le _ 1 100); exact Hhi|].
        intros _ _ _. apply (py_round_ge _ 1 10). exact Hlo.
    + unfold calculate_health_score in H. rewrite Hcat in H. discriminate H.
Qed.

Lemma health_score_bounds_witness :
  exists r w',
    calculate_health_score
      [("glucose", VNum 145); ("hdl", VNum 20); ("creatinine", VNum 3)] example_world
      = Ok (r, w')
    /\ 0 <= hs_score r
    /\ hs_score r <= 100
    /\ (forall cat, hs_category_breakdown r = Some cat -> cat <> [] -> 10 <= hs_score r).
Proof.
  eexists. eexists. split; [vm_compute; reflexivity|].
  eapply (health_score_bounds
            [("glucose", VNum 145); ("hdl", VNum 20); ("creatinine", VNum 3)]
            example_world).
  vm_compute. reflexivity.
Defined.

Lemma categorize_value_in_range (test_name : string) (v : Q) (ref : reference_range) :
  ref_min ref <= v -> v <= ref_max ref ->
  exists e, categorize_value test_name v ref = Ok e /\ cr_status e = "normal".
Proof.
  intros Hlo Hhi. unfold categorize_value.
  apply Qlt_bool_false_iff in Hlo. apply Qlt_bool_false_iff in Hhi.
  rewrite Hlo, Hhi. monad_simpl. eexists. split; reflexivity.
Qed.

Lemma categorize_loop_in_range (items : dict value) (acc : dict categorized_result) :
  Forall in_range_item items ->
  Forall (fun ke => cr_status ke.2 = "normal") acc ->
  exists cat,
    categorize_loop items acc = Ok cat
    /\ Forall (fun ke => cr_status ke.2 = "normal") cat
    /\ (acc <> [] \/ (exists kv, kv ∈ items /\ recognized kv = true) -> cat <> []).
Proof.
  revert acc. induction items as [|[k x] rest IH]; intros acc Hitems Hacc.
  - exists acc. split; [reflexivity|]. split; [exact Hacc|].
    intros [H|(kv & Hin & _)]; [exact H|]. apply elem_of_nil in Hin. contradiction.
  - apply Forall_cons in Hitems as [Hx Hrest]. rewrite categorize_loop_cons.
    unfold in_range_item in Hx. cbn [fst snd] in Hx.
    assert (Hskip : (x = VStr "" \/ True) -> recognized (k, x) = false ->
              exists cat, categorize_loop rest acc = Ok cat
                /\ Forall (fun ke => cr_status ke.2 = "normal") cat
                /\ (acc <> [] \/ (exists kv, kv ∈ (k, x) :: rest /\ recognized kv = true)
                    -> cat <> [])).
    { intros _ Hnot. destruct (IH acc Hrest Hacc) as (cat & Hrun & Hn & Hne).
      exists cat. split; [exact Hrun|]. split; [exact Hn|].
      intros [H|(kv & Hin & Hkv)]; apply Hne; [left; exact H|].
      right. exists kv. split; [|exact Hkv].
      apply elem_of_cons in Hin as [->|Hin]; [congruence|exact Hin]. }
    destruct x as [v|s]; [|apply Hskip; auto].
    destruct (dict_get reference_ranges k) as [ref|] eqn:Eref;
      [|apply Hskip; [auto|unfold recognized, dict_mem; cbn [fst snd]; rewrite Eref; reflexivity]].
    destruct Hx as [Hlo Hhi].
    destruct (categorize_value_in_range k v ref Hlo Hhi) as (e & -> & He).
    destruct (IH (dict_set acc k e) Hrest) as (cat & Hrun & Hn & Hne).
    { apply Forall_dict_set; [exact Hacc|exact He]. }
    exists cat. split; [exact Hrun|]. split; [exact Hn|].
    intros _. apply Hne. left. destruct acc as [|[k0 e0] acc]; simpl; [discriminate|].
    destruct (String.eqb k0 k); discriminate.
Qed.

(** X8.  When every test of the snapshot that has a reference range lies
    within it, and there is at least one, the score is 100 and the status
    "Excellent", whatever the categories and their weights. *)
Theorem all_in_range_scores_100 (lab_data : dict value) (w : world) :
  Forall in_range_item lab_data ->
  (exists kv, kv ∈ lab_data /\ recognized kv = true) ->
  exists r w',
    calculate_health_score lab_data w = Ok (r, w')
    /\ hs_score r == 100
    /\ hs_status r = "Excellent".
Proof.
  intros Hrange Hsome.
  destruct (categorize_loop_in_range lab_data [] Hrange) as (cat & Hcat & Hn & Hne);
    [constructor|].
  assert (Hcatne : cat <> []) by (apply Hne; right; exact Hsome).
  assert (Hlab : lab_data <> []).
  { destruct Hsome as (kv & Hin & _). intros ->. apply elem_of_nil in Hin. exact Hin. }
  destruct (calculate_health_score_categorized lab_data w cat Hlab Hcat)
    as (avg & Hrun & Havg).
  assert (Hst : Forall (fun ke => cr_status ke.2 ∈ four_statuses) cat).
  { eapply Forall_impl; [exact Hn|]. intros ke ->. apply list_elem_of_here. }
  pose proof (score_loop_contributes cat [] 0 Hst (or_introl Hcatne)) as Hcontrib.
  assert (Havg100 : avg == 100).
  { destruct Havg as [[Hnil _]|(_ & _ & ->)]; [contradiction|].
    destruct (weighted_mean_bounds 100 100 cat) as (_ & Hlo & Hhi); [|exact Hcontrib|].
    - eapply Forall_impl; [exact Hn|]. intros ke Hs p. rewrite Hs.
      intros [= <-]. split; discriminate.
    - apply Qle_antisym; assumption. }
  eexists. eexists. split; [exact Hrun|]. simpl. split.
  - apply (py_round_integer avg 1 100). exact Havg100.
  - unfold health_label.
    assert (H85 : Qle_bool 85 avg = true) by (apply Qle_bool_iff; rewrite Havg100; discriminate).
    rewrite H85. reflexivity.
Qed.

Lemma all_in_range_scores_100_witness :
  exists r w',
    calculate_health_score
      [("glucose", VNum 90); ("ferritin", VNum 900); ("creatinine", VNum 1);
       ("sodium", VNum 140)] example_world = Ok (r, w')
    /\ hs_score r == 100
    /\ hs_status r = "Excellent".
Proof.
  apply (all_in_range_scores_100
           [("glucose", VNum 90); ("ferritin", VNum 900); ("creatinine", VNum 1);
            ("sodium", VNum 140)] example_world).
  - repeat constructor; discriminate.
  - exists ("glucose", VNum 90). split; [apply list_elem_of_here|reflexivity].
Defined.

(** ** The risk detector: triggers, levels and errors *)

Lemma str_at_dec (lab_data : dict value) (k : string) :
  str_at lab_data k \/ ~ str_at lab_data k.
Proof.
  unfold str_at. destruct (dict_get lab_data k) as [[q|s]|].
  - right. intros [s H]. discriminate H.
  - left. eauto.
  - right. intros [s H]. discriminate H.
Qed.

(** The Diabetes check: what triggers it, at which level, and its error. *)
Lemma diabetes_check_spec (lab_data : dict value) :
  (str_at lab_data "hba1c" /\ diabetes_check lab_data = Raise TypeError)
  \/ (~ str_at lab_data "hba1c"
      /\ exists fs,
           diabetes_check lab_data = Ok fs
           /\ Forall (fun f => condition f = "Diabetes"
                               /\ high_or_moderate (risk_level f)) fs
           /\ (fs <> [] <-> num_at lab_data "hba1c" (fun q => 57 # 10 <= q))).
Proof.
  unfold diabetes_check, str_at, num_at.
  destruct (dict_get lab_data "hba1c") as [[q|s]|].
  - right. split; [intros [s H]; discriminate H|]. monad_simpl.
    destruct (Qle_bool (57 # 10) q) eqn:E.
    + apply Qle_bool_iff in E. eexists. split; [reflexivity|].
      split; [|split; [eauto|discriminate]].
      constructor; [|constructor]. split; [reflexivity|].
      unfold high_or_moderate. simpl. destruct (Qle_bool (65 # 10) q); auto.
    + exists []. split; [reflexivity|]. split; [constructor|].
      split; [contradiction|]. intros (q' & [= <-] & Hq).
      apply Qle_bool_iff in Hq. congruence.
  - left. split; [eauto|reflexivity].
  - right. split; [intros [s H]; discriminate H|].
    exists []. split; [reflexivity|]. split; [constructor|].
    split; [contradiction|]. intros (q' & H & _). discriminate H.
Qed.

(** One cardiovascular test: it sets the flag and appends its indicator
    exactly when the key holds a number that passes the comparison. *)
Lemma cv_test_spec (lab_data : dict value) (k : string) (test : value -> result bool)
    (P : Q -> Prop) (label : string) (st : bool * list indicator) :
  (forall q, exists b, test (VNum q) = Ok b /\ (b = true <-> P q)) ->
  (forall s, test (VStr s) = Raise TypeError) ->
  (str_at lab_data k /\ cv_test lab_data k test label st = Raise TypeError)
  \/ (~ str_at lab_data k
      /\ ((num_at lab_data k P
           /\ exists v, dict_get lab_data k = Some v
                /\ cv_test lab_data k test label st
                   = Ok (true, st.2 ++ [{| ind_label := label; ind_value := v;
                                           ind_unit := " mg/dL" |}]))
          \/ (~ num_at lab_data k P /\ cv_test lab_data k test label st = Ok st))).
Proof.
  intros Hnum Hstr. unfold cv_test, str_at, num_at.
  destruct (dict_get lab_data k) as [[q|s]|].
  - right. split; [intros [s H]; discriminate H|].
    destruct (Hnum q) as (b & -> & Hb). monad_simpl. destruct b.
    + left. split; [exists q; split; [reflexivity|apply Hb; reflexivity]|]. eauto.
    + right. split; [|reflexivity]. intros (q' & [= <-] & Hq).
      apply Hb in Hq. discriminate Hq.
  - left. split; [eauto|]. rewrite Hstr. reflexivity.
  - right. split; [intros [s H]; discriminate H|]. right.
    split; [|reflexivity]. intros (q' & H & _). discriminate H.
Qed.

Lemma py_gt_num_spec (c : Q) :
  (forall q, exists b, py_gt_num (VNum q) c = Ok b /\ (b = true <-> c < q))
  /\ (forall s, py_gt_num (VStr s) c = Raise TypeError).
Proof.
  split; [|reflexivity]. intros q. eexists. split; [reflexivity|apply Qlt_bool_iff].
Qed.

Lemma py_lt_num_spec (c : Q) :
  (forall q, exists b, py_lt_num (VNum q) c = Ok b /\ (b = true <-> q < c))
  /\ (forall s, py_lt_num (VStr s) c = Raise TypeError).
Proof.
  split; [|reflexivity]. intros q. eexists. split; [reflexivity|apply Qlt_bool_iff].
Qed.

Ltac cv_step k P Hspec :=
  match goal with
  | |- context [cv_test ?lab k ?t ?l ?st] =>
      let Hrun := fresh "Hrun" in
      destruct (cv_test_spec lab k t P l st (proj1 Hspec) (proj2 Hspec))
        as [[?Hs Hrun]|[?Hns [(?Ht & ?v & ?Hv & Hrun)|(?Hnt & Hrun)]]];
      rewrite Hrun; monad_simpl
  end.

Ltac solve_label :=
  split;
  [ intros Hin;
    first [ assumption
          | exfalso;
            repeat (apply elem_of_cons in Hin as [Hin|Hin]; [discriminate Hin|]);
            apply elem_of_nil in Hin; exact Hin ]
  | intros Hn;
    first [ contradiction
          | repeat first [apply list_elem_of_here | apply list_elem_of_further] ] ].

(** The Cardiovascular check: triggered by any of its three tests, always at
    "moderate", with one indicator for each test that triggered. *)
Lemma cardiovascular_check_spec (lab_data : dict value) :
  ((str_at lab_data "ldl" \/ str_at lab_data "triglycerides" \/ str_at lab_data "hdl")
   /\ cardiovascular_check lab_data = Raise TypeError)
  \/ (~ (str_at lab_data "ldl" \/ str_at lab_data "triglycerides"
         \/ str_at lab_data "hdl")
      /\ exists fs,
           cardiovascular_check lab_data = Ok fs
           /\ Forall (fun f =>
                        condition f = "Cardiovascular Disease"
                        /\ risk_level f = "moderate"
                        /\ ("LDL" ∈ map ind_label (indicators f)
                            <-> num_at lab_data "ldl" (fun q => 130 < q))
                        /\ ("Triglycerides" ∈ map ind_label (indicators f)
                            <-> num_at lab_data "triglycerides" (fun q => 150 < q))
                        /\ ("HDL" ∈ map ind_label (indicators f)
                            <-> num_at lab_data "hdl" (fun q => q < 40))) fs
           /\ (fs <> [] <->
               num_at lab_data "ldl" (fun q => 130 < q)
               \/ num_at lab_data "triglycerides" (fun q => 150 < q)
               \/ num_at lab_data "hdl" (fun q => q < 40))).
Proof.
  unfold cardiovascular_check.
  cv_step "ldl" (fun q => 130 < q) (py_gt_num_spec 130);
    [left; split; [auto|reflexivity]| |];
    (cv_step "triglycerides" (fun q => 150 < q) (py_gt_num_spec 150);
     [left; split; [auto|reflexivity]| |]);
    (cv_step "hdl" (fun q => q < 40) (py_lt_num_spec 40);
     [left; split; [auto|reflexivity]| |]).
  all: right; split; [intros [?|[?|?]]; contradiction|].
  all: eexists; split; [reflexivity|].
  all: split;
    [ try (constructor; [|constructor]; simpl;
           split; [reflexivity|]; split; [reflexivity|];
           split; [solve_label|]; split; solve_label);
      try constructor
    | split;
      [ intros Hne; first [solve [auto] | exfalso; apply Hne; reflexivity]
      | intros Htrig;
        first [discriminate | destruct Htrig as [?|[?|?]]; contradiction] ] ].
Qed.

(** The Kidney check. *)
Lemma kidney_check_spec (lab_data : dict value) :
  (str_at lab_data "creatinine" /\ kidney_check lab_data = Raise TypeError)
  \/ (~ str_at lab_data "creatinine"
      /\ exists fs,
           kidney_check lab_data = Ok fs
           /\ Forall (fun f => condition f = "Kidney Disease"
                               /\ high_or_moderate (risk_level f)) fs
           /\ (fs <> [] <-> num_at lab_data "creatinine" (fun q => 12 # 10 < q))).
Proof.
  unfold kidney_check, str_at, num_at.
  destruct (dict_get lab_data "creatinine") as [[q|s]|].
  - right. split; [intros [s H]; discriminate H|]. monad_simpl.
    destruct (Qlt_bool (12 # 10) q) eqn:E.
    + apply Qlt_bool_iff in E. eexists. split; [reflexivity|].
      split; [|split; [eauto|discriminate]].
      constructor; [|constructor]. split; [reflexivity|].
      unfold high_or_moderate. simpl. destruct (Qle_bool q 2); auto.
    + exists []. split; [reflexivity|]. split; [constructor|].
      split; [contradiction|]. intros (q' & [= <-] & Hq).
      apply Qlt_bool_iff in Hq. congruence.
  - left. split; [eauto|reflexivity].
  - right. split; [intros [s H]; discriminate H|].
    exists []. split; [reflexivity|]. split; [constructor|].
    split; [contradiction|]. intros (q' & H & _). discriminate H.
Qed.

(** The three checks together. *)
Lemma condition_checks_spec (lab_data : dict value) :
  ((exists k, k ∈ risk_keys /\ str_at lab_data k)
   /\ condition_checks lab_data = Raise TypeError)
  \/ (~ (exists k, k ∈ risk_keys /\ str_at lab_data k)
      /\ exists r1 r2 r3,
           condition_checks lab_data = Ok (r1 ++ r2 ++ r3)
           /\ diabetes_check lab_data = Ok r1
           /\ cardiovascular_check lab_data = Ok r2
           /\ kidney_check lab_data = Ok r3).
Proof.
  assert (Hkeys : forall k, k ∈ risk_keys <->
            k = "hba1c" \/ k = "ldl" \/ k = "triglycerides" \/ k = "hdl"
            \/ k = "creatinine").
  { intros k. unfold risk_keys. rewrite !elem_of_cons, elem_of_nil. tauto. }
  unfold condition_checks.
  destruct (diabetes_check_spec lab_data) as [[Hs ->]|(Hn1 & r1 & -> & _)].
  { left. split; [|reflexivity]. exists "hba1c". rewrite Hkeys. auto. }
  monad_simpl.
  destruct (cardiovascular_check_spec lab_data) as [[Hs ->]|(Hn2 & r2 & -> & _)].
  { left. split; [|reflexivity].
    destruct Hs as [Hs|[Hs|Hs]];
      [exists "ldl"|exists "triglycerides"|exists "hdl"];
      (split; [apply Hkeys; auto 6|exact Hs]). }
  destruct (kidney_check_spec lab_data) as [[Hs ->]|(Hn3 & r3 & -> & _)].
  { left. split; [|reflexivity]. exists "creatinine". rewrite Hkeys. auto 6. }
  right. split; [|exists r1, r2, r3; auto].
  intros (k & Hk & Hs). apply Hkeys in Hk.
  destruct Hk as [->|[->|[->|[->| ->]]]]; tauto.
Qed.


Lemma findings_of_condition (c c' : string) (P : risk_finding -> Prop)
    (fs : list risk_finding) :
  Forall (fun f => condition f = c /\ P f) fs ->
  (c' ∈ map condition fs <-> c' = c /\ fs <> []).
Proof.
  intros Hfs. destruct fs as [|f fs]; simpl.
  - rewrite elem_of_nil. tauto.
  - apply Forall_cons in Hfs as [[Hf _] Hfs]. split.
    + intros Hin. split; [|discriminate].
      apply elem_of_cons in Hin as [->|Hin]; [exact Hf|].
      apply list_elem_of_In, in_map_iff in Hin as (f' & <- & Hf').
      apply list_elem_of_In in Hf'. rewrite Forall_forall in Hfs.
      exact (proj1 (Hfs _ Hf')).
    + intros [-> _]. rewrite Hf. apply list_elem_of_here.
Qed.

(** X10.  Which findings are reported: Diabetes exactly when HbA1c is at
    least 5.7; Cardiovascular Disease exactly when LDL is above 130,
    triglycerides are above 150 or HDL is below 40; Kidney Disease exactly when
    creatinine is above 1.2.  A missing key triggers nothing, and so do the
    boundary values 130, 150, 40 and 1.2. *)
Theorem findings_iff_triggers (lab_data : dict value) (patient_age : Z) (w w' : world)
    (r : risk_report) :
  detect_risk_factors lab_data patient_age w = Ok (r, w') ->
  ("Diabetes" ∈ map condition (detected_risks r)
   <-> num_at lab_data "hba1c" (fun q => 57 # 10 <= q))
  /\ ("Cardiovascular Disease" ∈ map condition (detected_risks r)
      <-> num_at lab_data "ldl" (fun q => 130 < q)
          \/ num_at lab_data "triglycerides" (fun q => 150 < q)
          \/ num_at lab_data "hdl" (fun q => q < 40))
  /\ ("Kidney Disease" ∈ map condition (detected_risks r)
      <-> num_at lab_data "creatinine" (fun q => 12 # 10 < q)).
Proof.
  intros H.
  destruct (condition_checks_spec lab_data)
    as [[_ Hraise]|(_ & r1 & r2 & r3 & Hrun & H1 & H2 & H3)].
  { unfold detect_risk_factors in H. rewrite Hraise in H. discriminate H. }
  rewrite (detect_risk_factors_unfold _ _ _ _ Hrun) in H. injection H as <- _.
  simpl. rewrite age_adjust_conditions, !map_app.
  destruct (diabetes_check_spec lab_data) as [[_ E]|(_ & fs1 & E1 & F1 & T1)];
    [congruence|].
  destruct (cardiovascular_check_spec lab_data) as [[_ E]|(_ & fs2 & E2 & F2 & T2)];
    [congruence|].
  destruct (kidney_check_spec lab_data) as [[_ E]|(_ & fs3 & E3 & F3 & T3)];
    [congruence|].
  assert (fs1 = r1) by congruence. assert (fs2 = r2) by congruence.
  assert (fs3 = r3) by congruence. subst fs1 fs2 fs3.
  rewrite <- T1, <- T2, <- T3. rewrite !elem_of_app.
  rewrite !(findings_of_condition _ _ _ _ F1), !(findings_of_condition _ _ _ _ F2),
    !(findings_of_condition _ _ _ _ F3).
  repeat split; intros; intuition discriminate.
Qed.

Lemma findings_iff_triggers_witness :
  exists r w',
    detect_risk_factors
      [("hba1c", VNum (57 # 10)); ("ldl", VNum 130); ("creatinine", VNum (13 # 10))] 50
      example_world = Ok (r, w')
    /\ ("Diabetes" ∈ map condition (detected_risks r)
        <-> num_at [("hba1c", VNum (57 # 10)); ("ldl", VNum 130);
                    ("creatinine", VNum (13 # 10))] "hba1c" (fun q => 57 # 10 <= q))
    /\ ("Cardiovascular Disease" ∈ map condition (detected_risks r)
        <-> num_at [("hba1c", VNum (57 # 10)); ("ldl", VNum 130);
                    ("creatinine", VNum (13 # 10))] "ldl" (fun q => 130 < q)
            \/ num_at [("hba1c", VNum (57 # 10)); ("ldl", VNum 130);
                       ("creatinine", VNum (13 # 10))] "triglycerides" (fun q => 150 < q)
            \/ num_at [("hba1c", VNum (57 # 10)); ("ldl", VNum 130);
                       ("creatinine", VNum (13 # 10))] "hdl" (fun q => q < 40))
    /\ ("Kidney Disease" ∈ map condition (detected_risks r)
        <-> num_at [("hba1c", VNum (57 # 10)); ("ldl", VNum 130);
                    ("creatinine", VNum (13 # 10))] "creatinine" (fun q => 12 # 10 < q)).
Proof.
  eexists. eexists. split; [vm_compute; reflexivity|].
  eapply (findings_iff_triggers
            [("hba1c", VNum (57 # 10)); ("ldl", VNum 130); ("creatinine", VNum (13 # 10))]
            50 example_world).
  vm_compute. reflexivity.
Defined.

Lemma condition_checks_levels (lab_data : dict value) (fs : list risk_finding) :
  condition_checks lab_data = Ok fs ->
  Forall (fun f => high_or_moderate (risk_level f)) fs.
Proof.
  intros H.
  destruct (condition_checks_spec lab_data)
    as [[_ Hraise]|(_ & r1 & r2 & r3 & Hrun & H1 & H2 & H3)]; [congruence|].
  rewrite Hrun in H. injection H as <-.
  destruct (diabetes_check_spec lab_data) as [[_ E]|(_ & fs1 & E1 & F1 & _)];
    [congruence|].
  destruct (cardiovascular_check_spec lab_data) as [[_ E]|(_ & fs2 & E2 & F2 & _)];
    [congruence|].
  destruct (kidney_check_spec lab_data) as [[_ E]|(_ & fs3 & E3 & F3 & _)];
    [congruence|].
  assert (fs1 = r1) by congruence. assert (fs2 = r2) by congruence.
  assert (fs3 = r3) by congruence. subst fs1 fs2 fs3.
  rewrite !Forall_app. repeat split.
  - eapply Forall_impl; [exact F1|]. intros f [_ Hl]. exact Hl.
  - eapply Forall_impl; [exact F2|]. intros f (_ & Hl & _). right. exact Hl.
  - eapply Forall_impl; [exact F3|]. intros f [_ Hl]. exact Hl.
Qed.

Lemma age_adjust_levels (patient_age : Z) (fs : list risk_finding) :
  Forall (fun f => high_or_moderate (risk_level f)) fs ->
  Forall (fun f => high_or_moderate (risk_level f)) (age_adjust patient_age fs)
  /\ ((60 < patient_age)%Z ->
      Forall (fun f => risk_level f = "high") (age_adjust patient_age fs)).
Proof.
  intros Hfs. unfold age_adjust. destruct (60 <? patient_age)%Z eqn:E.
  - assert (H : Forall (fun f => risk_level f = "high") (map escalate fs)).
    { induction Hfs as [|f fs Hf _ IH]; simpl; constructor; [|exact IH].
      unfold escalate. destruct Hf as [Hf|Hf]; rewrite Hf; simpl;
        [exact Hf|reflexivity]. }
    split; [|intros _; exact H].
    eapply Forall_impl; [exact H|]. intros f Hf. left. exact Hf.
  - split; [exact Hfs|]. apply Z.ltb_ge in E. lia.
Qed.

Lemma existsb_moderate (levels : list string) :
  existsb (String.eqb "moderate") levels = true <-> "moderate" ∈ levels.
Proof.
  rewrite existsb_exists. split.
  - intros (x & Hin & Hx). apply String.eqb_eq in Hx. subst x.
    apply list_elem_of_In. exact Hin.
  - intros Hin. exists "moderate". split; [apply list_elem_of_In; exact Hin|reflexivity].
Qed.

Lemma py_max_str_all_high (fs : list risk_finding) :
  Forall (fun f => risk_level f = "high") fs ->
  py_max_str (map risk_level fs) "low"
  = match fs with
    | [] => "low"
    | _ :: _ => "high"
    end.
Proof.
  intros Hall.
  rewrite py_max_str_levels.
  - destruct fs as [|f fs]; [reflexivity|].
    destruct (existsb (String.eqb "moderate") (map risk_level (f :: fs))) eqn:Ex;
      [|reflexivity].
    apply existsb_exists in Ex as (x & Hin & Hx). apply String.eqb_eq in Hx. subst x.
    apply in_map_iff in Hin as (g & Hg & Hin). apply list_elem_of_In in Hin.
    rewrite Forall_forall in Hall. rewrite (Hall _ Hin) in Hg. discriminate Hg.
  - induction Hall; simpl; constructor; auto.
Qed.

(** X11.  What [highest_risk] reports: "low" exactly when there is no finding,
    "moderate" exactly when some finding is at "moderate" (whatever the
    others are), and "high" exactly when there are findings and all are at
    "high". *)
Theorem highest_risk_characterised (lab_data : dict value) (patient_age : Z)
    (w w' : world) (r : risk_report) :
  detect_risk_factors lab_data patient_age w = Ok (r, w') ->
  (highest_risk r = "low" <-> detected_risks r = [])
  /\ (highest_risk r = "moderate" <-> "moderate" ∈ map risk_level (detected_risks r))
  /\ (highest_risk r = "high" <->
      detected_risks r <> []
      /\ Forall (fun f => risk_level f = "high") (detected_risks r)).
Proof.
  intros H. unfold detect_risk_factors in H.
  destruct (condition_checks lab_data) as [fs|] eqn:Hfs; [|discriminate].
  monad_simpl. injection H as <- _. simpl.
  destruct (age_adjust_levels patient_age fs (condition_checks_levels _ _ Hfs))
    as [Hlevels _].
  set (rs := age_adjust patient_age fs) in *.
  assert (Hl : Forall (fun x => x = "high" \/ x = "moderate") (map risk_level rs)).
  { clear -Hlevels. induction Hlevels; simpl; constructor; assumption. }
  rewrite (py_max_str_levels _ Hl).
  destruct rs as [|f rs'] eqn:Ers.
  - simpl. rewrite elem_of_nil.
    split; [tauto|]. split; [split; [discriminate|contradiction]|].
    split; [discriminate|intros [Hne _]; contradiction].
  - rewrite <- existsb_moderate.
    destruct (existsb (String.eqb "moderate") (map risk_level (f :: rs'))) eqn:Ex.
    + split; [split; discriminate|]. split; [tauto|].
      split; [discriminate|]. intros [_ Hall]. exfalso.
      apply existsb_moderate in Ex.
      apply list_elem_of_In, in_map_iff in Ex as (g & Hg & Hin).
      apply list_elem_of_In in Hin. rewrite Forall_forall in Hall.
      rewrite (Hall _ Hin) in Hg. discriminate Hg.
    + split; [split; discriminate|]. split; [split; discriminate|].
      split; [|reflexivity]. intros _. split; [discriminate|].
      apply Forall_forall. intros g Hin.
      rewrite Forall_forall in Hlevels. destruct (Hlevels _ Hin) as [Hg|Hg]; [exact Hg|].
      exfalso. assert (Hm : "moderate" ∈ map risk_level (f :: rs')).
      { rewrite <- Hg. apply list_elem_of_In, in_map, list_elem_of_In. exact Hin. }
      apply existsb_moderate in Hm. congruence.
Qed.

Lemma highest_risk_characterised_witness :
  exists r w',
    detect_risk_factors
      [("hba1c", VNum 7); ("creatinine", VNum (15 # 10))] 50 example_world = Ok (r, w')
    /\ (highest_risk r = "low" <-> detected_risks r = [])
    /\ (highest_risk r = "moderate" <-> "moderate" ∈ map risk_level (detected_risks r))
    /\ (highest_risk r = "high" <->
        detected_risks r <> []
        /\ Forall (fun f => risk_level f = "high") (detected_risks r)).
Proof.
  eexists. eexists. split; [vm_compute; reflexivity|].
  eapply (highest_risk_characterised
            [("hba1c", VNum 7); ("creatinine", VNum (15 # 10))] 50 example_world).
  vm_compute. reflexivity.
Defined.

(** X12.  For a patient older than 60 every finding is at "high", and
    [highest_risk] is "high" when there is a finding and "low" when there is
    none. *)
Theorem over_60_all_high (lab_data : dict value) (patient_age : Z)
    (w w' : world) (r : risk_report) :
  (60 < patient_age)%Z ->
  detect_risk_factors lab_data patient_age w = Ok (r, w') ->
  Forall (fun f => risk_level f = "high") (detected_risks r)
  /\ highest_risk r = match detected_risks r with
                      | [] => "low"
                      | _ :: _ => "high"
                      end.
Proof.
  intros Hage H. unfold detect_risk_factors in H.
  destruct (condition_checks lab_data) as [fs|] eqn:Hfs; [|discriminate].
  monad_simpl. injection H as <- _. simpl.
  destruct (age_adjust_levels patient_age fs (condition_checks_levels _ _ Hfs))
    as [_ Hall]. specialize (Hall Hage).
  split; [exact Hall|apply py_max_str_all_high; exact Hall].
Qed.

Lemma over_60_all_high_witness :
  exists r w',
    detect_risk_factors
      [("hba1c", VNum 7); ("ldl", VNum 140); ("creatinine", VNum (15 # 10))] 72
      example_world = Ok (r, w')
    /\ Forall (fun f => risk_level f = "high") (detected_risks r)
    /\ highest_risk r = match detected_risks r with
                        | [] => "low"
                        | _ :: _ => "high"
                        end.
Proof.
  eexists. eexists. split; [vm_compute; reflexivity|].
  eapply (over_60_all_high
            [("hba1c", VNum 7); ("ldl", VNum 140); ("creatinine", VNum (15 # 10))] 72
            example_world).
  - lia.
  - vm_compute. reflexivity.
Defined.

(** X13.  The Cardiovascular finding names each test that triggered it, and
    no other: its indicators include LDL exactly when LDL is above 130,
    Triglycerides exactly when triglycerides are above 150, and HDL exactly
    when HDL is below 40. *)
Theorem cardiovascular_indicators (lab_data : dict value) (patient_age : Z)
    (w w' : world) (r : risk_report) :
  detect_risk_factors lab_data patient_age w = Ok (r, w') ->
  Forall
    (fun f =>
       condition f = "Cardiovascular Disease" ->
       ("LDL" ∈ map ind_label (indicators f)
        <-> num_at lab_data "ldl" (fun q => 130 < q))
       /\ ("Triglycerides" ∈ map ind_label (indicators f)
           <-> num_at lab_data "triglycerides" (fun q => 150 < q))
       /\ ("HDL" ∈ map ind_label (indicators f)
           <-> num_at lab_data "hdl" (fun q => q < 40)))
    (detected_risks r).
Proof.
  intros H.
  destruct (condition_checks_spec lab_data)
    as [[_ Hraise]|(_ & r1 & r2 & r3 & Hrun & H1 & H2 & H3)].
  { unfold detect_risk_factors in H. rewrite Hraise in H. discriminate H. }
  rewrite (detect_risk_factors_unfold _ _ _ _ Hrun) in H. injection H as <- _.
  simpl.
  destruct (diabetes_check_spec lab_data) as [[_ E]|(_ & fs1 & E1 & F1 & _)];
    [congruence|].
  destruct (cardiovascular_check_spec lab_data) as [[_ E]|(_ & fs2 & E2 & F2 & _)];
    [congruence|].
  destruct (kidney_check_spec lab_data) as [[_ E]|(_ & fs3 & E3 & F3 & _)];
    [congruence|].
  assert (fs1 = r1) by congruence. assert (fs2 = r2) by congruence.
  assert (fs3 = r3) by congruence. subst fs1 fs2 fs3.
  assert (Hall : Forall
            (fun f =>
               condition f = "Cardiovascular Disease" ->
               ("LDL" ∈ map ind_label (indicators f)
                <-> num_at lab_data "ldl" (fun q => 130 < q))
               /\ ("Triglycerides" ∈ map ind_label (indicators f)
                   <-> num_at lab_data "triglycerides" (fun q => 150 < q))
               /\ ("HDL" ∈ map ind_label (indicators f)
                   <-> num_at lab_data "hdl" (fun q => q < 40)))
            (r1 ++ r2 ++ r3)).
  { rewrite !Forall_app. repeat split.
    - eapply Forall_impl; [exact F1|]. intros f [Hc _] Hcv. congruence.
    - eapply Forall_impl; [exact F2|]. intros f (_ & _ & Hi) _. exact Hi.
    - eapply Forall_impl; [exact F3|]. intros f [Hc _] Hcv. congruence. }
  unfold age_adjust. destruct (60 <? patient_age)%Z; [|exact Hall].
  generalize dependent (r1 ++ r2 ++ r3). clear. intros fs _ Hall.
  induction Hall as [|f fs Hf _ IH]; simpl; constructor; [|exact IH].
  unfold escalate. destruct (String.eqb (risk_level f) "moderate"); exact Hf.
Qed.

Lemma cardiovascular_indicators_witness :
  exists r w',
    detect_risk_factors
      [("ldl", VNum 140); ("triglycerides", VNum 150); ("hdl", VNum 35)] 65
      example_world = Ok (r, w')
    /\ Forall
         (fun f =>
            condition f = "Cardiovascular Disease" ->
            ("LDL" ∈ map ind_label (indicators f)
             <-> num_at [("ldl", VNum 140); ("triglycerides", VNum 150); ("hdl", VNum 35)]
                   "ldl" (fun q => 130 < q))
            /\ ("Triglycerides" ∈ map ind_label (indicators f)
                <-> num_at [("ldl", VNum 140); ("triglycerides", VNum 150);
                            ("hdl", VNum 35)] "triglycerides" (fun q => 150 < q))
            /\ ("HDL" ∈ map ind_label (indicators f)
                <-> num_at [("ldl", VNum 140); ("triglycerides", VNum 150);
                            ("hdl", VNum 35)] "hdl" (fun q => q < 40)))
         (detected_risks r).
Proof.
  eexists. eexists. split; [vm_compute; reflexivity|].
  eapply (cardiovascular_indicators
            [("ldl", VNum 140); ("triglycerides", VNum 150); ("hdl", VNum 35)] 65
            example_world).
  vm_compute. reflexivity.
Defined.

(** ** The trend analyzer: the report as a whole *)

Lemma analyze_loop_trends (items : dict (list data_point)) (trends0 : dict trend)
    (sd0 : option (list data_point)) :
  all_str_dates items ->
  NoDup (trends0.*1 ++ items.*1) ->
  exists new sd,
    analyze_loop items trends0 sd0 = Ok (trends0 ++ new, sd)
    /\ Forall2 trend_of (List.filter qualifies items) new
    /\ (List.filter qualifies items = [] -> sd = sd0)
    /\ (forall kp, last (List.filter qualifies items) = Some kp ->
          exists sorted_data, sorted_by_date kp.2 = Ok sorted_data
                              /\ sd = Some sorted_data).
Proof.
  revert trends0 sd0.
  induction items as [|[k pts] rest IH]; intros trends0 sd0 Hall Hnd.
  - exists [], sd0. rewrite app_nil_r. split; [reflexivity|].
    split; [constructor|]. split; [reflexivity|]. intros kp H. discriminate H.
  - apply Forall_cons in Hall as [Hpts Hall]. cbn [fst snd] in Hpts.
    rewrite fmap_cons in Hnd. cbn [fst] in Hnd.
    rewrite analyze_loop_cons.
    change (List.filter qualifies ((k, pts) :: rest))
      with (if (2 <=? length pts)%nat
            then (k, pts) :: List.filter qualifies rest
            else List.filter qualifies rest).
    destruct (2 <=? length pts)%nat eqn:E2.
    + apply Nat.leb_le in E2.
      destruct (sorted_by_date_spec pts Hpts) as (sorted0 & Hsort & Hperm & _).
      rewrite Hsort.
      assert (Hlen : (2 <= length sorted0)%nat).
      { rewrite <- (Permutation_length Hperm). exact E2. }
      rewrite length_map. apply Nat.leb_le in Hlen as Hlenb. rewrite Hlenb.
      destruct (two_elements_head_last sorted0 Hlen) as (x & y & Hx & Hy).
      destruct (analyze_sorted_spec k sorted0 x y Hx Hy) as (t0 & Ht0 & _).
      rewrite Ht0.
      assert (Hk : k ∉ trends0.*1).
      { apply NoDup_app in Hnd as (_ & Hdisj & _). intros Hin.
        apply (Hdisj k Hin). apply list_elem_of_here. }
      rewrite (dict_set_fresh _ _ _ Hk).
      destruct (IH (trends0 ++ [(k, t0)]) (Some sorted0) Hall)
        as (new & sd & Hrun & Hnew & Hnone & Hlast).
      { rewrite fmap_app, <- app_assoc. exact Hnd. }
      exists ((k, t0) :: new), sd. rewrite <- app_assoc in Hrun.
      split; [exact Hrun|].
      split; [constructor; [|exact Hnew]; split; [reflexivity|]; eauto|].
      split; [discriminate|].
      intros kp Hkp. destruct (List.filter qualifies rest) as [|kp' l] eqn:Ef.
      * injection Hkp as <-. exists sorted0. split; [exact Hsort|].
        apply Hnone. reflexivity.
      * apply Hlast. rewrite last_cons in Hkp.
        destruct (last (kp' :: l)) eqn:El; [exact Hkp|].
        exfalso. assert (Hs : is_Some (last (kp' :: l))) by (apply last_is_Some; discriminate).
        rewrite El in Hs. destruct Hs as [? Hs]. discriminate Hs.
    + destruct (IH trends0 sd0 Hall) as (new & sd & Hrun & Hnew & Hnone & Hlast).
      { apply NoDup_app in Hnd as (Ha & Hdisj & Hr). apply NoDup_cons in Hr as [_ Hr].
        apply NoDup_app. split; [exact Ha|]. split; [|exact Hr].
        intros y Hy Hy'. apply (Hdisj y Hy). apply list_elem_of_further. exact Hy'. }
      exists new, sd. auto.
Qed.

(** The report of a history with string dates. *)
Lemma generate_trend_analysis_spec (historical_data : list (dict value)) (w : world) :
  string_dates historical_data ->
  (2 <= length historical_data)%nat ->
  exists trends sd,
    Forall2 trend_of (List.filter qualifies (observations historical_data w)) trends
    /\ (List.filter qualifies (observations historical_data w) = [] -> sd = None)
    /\ (forall kp, last (List.filter qualifies (observations historical_data w)) = Some kp ->
          exists sorted_data, sorted_by_date kp.2 = Ok sorted_data
                              /\ sd = Some sorted_data)
    /\ generate_trend_analysis historical_data w =
         match sd with
         | None => Raise UnboundLocalError
         | Some sorted_data =>
             first ← py_first sorted_data;
             last ← py_last sorted_data;
             mret (TrendReport trends (length trends) (dp_date first, dp_date last)
                     (clock (group_records historical_data [] w).2
                        (ticks (group_records historical_data [] w).2)),
                   {| clock := clock (group_records historical_data [] w).2;
                      ticks := S (ticks (group_records historical_data [] w).2) |})
         end.
Proof.
  intros Hdates Hhist.
  destruct (observations_invariant historical_data w Hdates) as [Hall Hwf].
  unfold generate_trend_analysis.
  apply Nat.ltb_ge in Hhist. rewrite Hhist.
  unfold observations in *.
  destruct (group_records historical_data [] w) as [test_data w1]. simpl in *.
  destruct (analyze_loop_trends test_data [] None Hall Hwf)
    as (new & sd & Hrun & Hnew & Hnone & Hlast).
  exists new, sd. rewrite Hrun. simpl in *.
  split; [exact Hnew|]. split; [exact Hnone|]. split; [exact Hlast|].
  monad_simpl. destruct sd; reflexivity.
Qed.




Lemma filter_elem_of {A} (f : A -> bool) (l : list A) (x : A) :
  x ∈ List.filter f l -> x ∈ l /\ f x = true.
Proof.
  intros H. apply list_elem_of_In, filter_In in H as [H1 H2].
  split; [apply list_elem_of_In; exact H1|exact H2].
Qed.

Lemma last_elem_of {A} (l : list A) (x : A) : last l = Some x -> x ∈ l.
Proof.
  intros H. apply last_Some in H as [l' ->].
  apply elem_of_app. right. apply list_elem_of_here.
Qed.

Lemma Forall2_last_r {A B} (R : A -> B -> Prop) (l : list A) (k : list B) (x : A) :
  Forall2 R l k -> last l = Some x -> exists y, last k = Some y /\ R x y.
Proof.
  intros HF Hl. apply last_Some in Hl as [l' ->].
  apply Forall2_app_inv_l in HF as (k1 & k2 & _ & H2 & ->).
  inversion H2 as [|? y ? ? Hxy Hnil]; subst. inversion Hnil; subst.
  exists y. split; [apply last_snoc|exact Hxy].
Qed.



(** ** Each trend of a report *)



Lemma spec_percent_change_zero (first_val last_val : Q) :
  first_val == 0 -> spec_percent_change first_val last_val = 0.
Proof.
  intros H. unfold spec_percent_change. apply Qeq_bool_iff in H. rewrite H. reflexivity.
Qed.

Lemma head_last_sorted (l : list data_point) (x y : data_point) :
  StronglySorted date_le l -> (2 <= length l)%nat ->
  head l = Some x -> last l = Some y -> date_le x y.
Proof.
  intros Hs Hlen Hx Hy. destruct l as [|a l]; [discriminate|].
  injection Hx as ->. apply StronglySorted_inv in Hs as [_ Hall].
  destruct l as [|b l]; [simpl in Hlen; lia|].
  rewrite last_cons in Hy.
  destruct (last (b :: l)) as [z|] eqn:El.
  - injection Hy as ->. apply last_elem_of in El.
    rewrite Forall_forall in Hall. exact (Hall _ El).
  - exfalso. assert (Hs' : is_Some (last (b :: l))) by (apply last_is_Some; discriminate).
    rewrite El in Hs'. destruct Hs' as [? Hs']. discriminate Hs'.
Qed.

(** A trend is determined by the first and the last of the sorted
    observations of its test. *)
Lemma trend_of_consistent (kp : string * list data_point) (kt : string * trend) :
  trend_of kp kt ->
  (2 <= length kp.2)%nat ->
  Forall has_str_date kp.2 ->
  tr_direction kt.2
    = (direction_of kt.1
         (spec_percent_change (tr_first_value kt.2) (tr_last_value kt.2))).1
  /\ tr_percent_change kt.2
     = py_round (spec_percent_change (tr_first_value kt.2) (tr_last_value kt.2)) 1
  /\ tr_data_points kt.2 = length kp.2
  /\ exists s t,
       tr_first_date kt.2 = VStr s /\ tr_last_date kt.2 = VStr t
       /\ String.leb s t = true.
Proof.
  intros (Hk & sorted_data & Hsort & Ht) Hlen Hstr.
  destruct (sorted_by_date_spec kp.2 Hstr) as (sorted2 & Hsort2 & Hperm & Hsorted).
  rewrite Hsort in Hsort2. injection Hsort2 as <-.
  assert (Hlen' : (2 <= length sorted_data)%nat).
  { rewrite <- (Permutation_length Hperm). exact Hlen. }
  destruct (two_elements_head_last sorted_data Hlen') as (x & y & Hx & Hy).
  destruct (analyze_sorted_spec kp.1 sorted_data x y Hx Hy)
    as (t2 & Ht2 & Hfv & Hlv & Hfd & Hld & Hdp & Hpc & Hdir).
  rewrite Ht in Ht2. injection Ht2 as <-.
  rewrite Hfv, Hlv, Hk. split; [exact Hdir|]. split; [exact Hpc|].
  split; [rewrite Hdp; symmetry; apply Permutation_length; exact Hperm|].
  pose proof (head_last_sorted _ _ _ Hsorted Hlen' Hx Hy) as Hle.
  unfold date_le in Hle. rewrite Hfd, Hld.
  destruct (dp_date x) as [|s]; [contradiction|].
  destruct (dp_date y) as [|t]; [contradiction|]. eauto.
Qed.

(** What a returned report is made of. *)
Lemma trend_report_facts (historical_data : list (dict value)) (w w' : world)
    (trends : dict trend) (analyzed_tests : nat) (analysis_period : value * value)
    (generated_at : string) :
  string_dates historical_data ->
  generate_trend_analysis historical_data w
    = Ok (TrendReport trends analyzed_tests analysis_period generated_at, w') ->
  Forall2 (fun kp kt => trend_of kp kt /\ (2 <= length kp.2)%nat
                        /\ Forall has_str_date kp.2)
    (List.filter qualifies (observations historical_data w)) trends
  /\ analyzed_tests = length trends
  /\ exists kp sorted_data first_dp last_dp,
       last (List.filter qualifies (observations historical_data w)) = Some kp
       /\ sorted_by_date kp.2 = Ok sorted_data
       /\ head sorted_data = Some first_dp
       /\ last sorted_data = Some last_dp
       /\ analysis_period = (dp_date first_dp, dp_date last_dp).
Proof.
  intros Hdates H.
  assert (Hhist : (2 <= length historical_data)%nat).
  { unfold generate_trend_analysis in H.
    destruct (length historical_data <? 2)%nat eqn:E; [discriminate H|].
    apply Nat.ltb_ge. exact E. }
  destruct (observations_invariant historical_data w Hdates) as [Hall _].
  destruct (generate_trend_analysis_spec historical_data w Hdates Hhist)
    as (trends' & sd & Hnew & Hnone & Hlast & Hrun).
  rewrite Hrun in H. clear Hrun.
  destruct sd as [sorted_data|]; [|discriminate H].
  unfold py_first, py_last in H.
  destruct (head sorted_data) as [x|] eqn:Hx; [|discriminate H].
  destruct (last sorted_data) as [y|] eqn:Hy; [|discriminate H].
  monad_simpl. injection H as <- <- <- _ _.
  split; [|split; [reflexivity|]].
  - assert (Hq : Forall (fun kp => (2 <= length kp.2)%nat /\ Forall has_str_date kp.2)
                   (List.filter qualifies (observations historical_data w))).
    { apply Forall_forall. intros kp Hin. apply filter_elem_of in Hin as [Hin Hq].
      split; [apply Nat.leb_le; exact Hq|].
      unfold all_str_dates in Hall. rewrite Forall_forall in Hall. exact (Hall _ Hin). }
    clear -Hnew Hq. induction Hnew as [|kp kt l k Hkt _ IH]; constructor.
    + apply Forall_cons in Hq as [Hq _]. tauto.
    + apply IH. apply Forall_cons in Hq as [_ Hq]. exact Hq.
  - destruct (last (List.filter qualifies (observations historical_data w)))
      as [kp|] eqn:El.
    + destruct (Hlast kp eq_refl) as (sorted' & Hsort & [= <-]).
      exists kp, sorted_data, x, y. auto.
    + assert (Hnil : List.filter qualifies (observations historical_data w) = []).
      { destruct (List.filter qualifies (observations historical_data w)) as [|a l] eqn:Ef;
          [reflexivity|].
        exfalso. assert (Hs : is_Some (last (a :: l))) by (apply last_is_Some; discriminate).
        rewrite El in Hs. destruct Hs as [? Hs]. discriminate Hs. }
      specialize (Hnone Hnil). discriminate Hnone.
Qed.

Lemma Forall2_Forall_right {A B} (R : A -> B -> Prop) (P : B -> Prop)
    (l : list A) (k : list B) :
  Forall2 R l k -> (forall x y, R x y -> P y) -> Forall P k.
Proof.
  intros HF HR. induction HF as [|x y l k Hxy _ IH]; constructor; eauto.
Qed.

(** X15.  A report has one trend for each test with two or more
    observations, in the order in which the tests first appear in the
    history, and none for the others; [analyzed_tests] counts them and
    [data_points] is the number of observations of the test. *)
Theorem trend_report_tests (historical_data : list (dict value)) (w w' : world)
    (trends : dict trend) (analyzed_tests : nat) (analysis_period : value * value)
    (generated_at : string) :
  string_dates historical_data ->
  generate_trend_analysis historical_data w
    = Ok (TrendReport trends analyzed_tests analysis_period generated_at, w') ->
  Forall2 (fun kp kt => kt.1 = kp.1 /\ tr_data_points kt.2 = length kp.2)
    (List.filter qualifies (observations historical_data w)) trends
  /\ analyzed_tests = length trends.
Proof.
  intros Hdates H.
  destruct (trend_report_facts _ _ _ _ _ _ _ Hdates H) as (Hall & -> & _).
  split; [|reflexivity].
  eapply Forall2_impl; [exact Hall|].
  intros kp kt (Ht & Hlen & Hstr).
  destruct (trend_of_consistent kp kt Ht Hlen Hstr) as (_ & _ & Hdp & _).
  split; [exact (proj1 Ht)|exact Hdp].
Qed.

Lemma trend_report_tests_witness :
  exists trends analyzed_tests analysis_period generated_at w',
    generate_trend_analysis
      [[("date", VStr "2024-03-01"); ("ldl", VNum 120); ("glucose", VNum 110)];
       [("date", VStr "2024-01-01"); ("glucose", VNum 100); ("hdl", VNum 50)];
       [("date", VStr "2024-02-01"); ("glucose", VNum 104); ("ldl", VNum 130)]]
      example_world
      = Ok (TrendReport trends analyzed_tests analysis_period generated_at, w')
    /\ Forall2 (fun kp kt => kt.1 = kp.1 /\ tr_data_points kt.2 = length kp.2)
         (List.filter qualifies
            (observations
               [[("date", VStr "2024-03-01"); ("ldl", VNum 120); ("glucose", VNum 110)];
                [("date", VStr "2024-01-01"); ("glucose", VNum 100); ("hdl", VNum 50)];
                [("date", VStr "2024-02-01"); ("glucose", VNum 104); ("ldl", VNum 130)]]
               example_world)) trends
    /\ analyzed_tests = length trends.
Proof.
  eexists. eexists. eexists. eexists. eexists.
  split; [vm_compute; reflexivity|].
  eapply (trend_report_tests
            [[("date", VStr "2024-03-01"); ("ldl", VNum 120); ("glucose", VNum 110)];
             [("date", VStr "2024-01-01"); ("glucose", VNum 100); ("hdl", VNum 50)];
             [("date", VStr "2024-02-01"); ("glucose", VNum 104); ("ldl", VNum 130)]]
            example_world).
  - repeat constructor.
  - vm_compute. reflexivity.
Defined.

(** X16.  The [analysis_period] of a report is the first and the last date of
    its last trend, the one of the last test with two observations; the dates
    of the other tests do not enter it. *)
Theorem analysis_period_is_last_trend (historical_data : list (dict value))
    (w w' : world) (trends : dict trend) (analyzed_tests : nat)
    (analysis_period : value * value) (generated_at : string) :
  string_dates historical_data ->
  generate_trend_analysis historical_data w
    = Ok (TrendReport trends analyzed_tests analysis_period generated_at, w') ->
  exists test t,
    last trends = Some (test, t)
    /\ analysis_period = (tr_first_date t, tr_last_date t).
Proof.
  intros Hdates H.
  destruct (trend_report_facts _ _ _ _ _ _ _ Hdates H)
    as (Hall & _ & kp & sorted_data & x & y & Hlast & Hsort & Hx & Hy & ->).
  destruct (Forall2_last_r _ _ _ _ Hall Hlast)
    as ([test t] & Hlt & (_ & sorted' & Hsort' & Ht) & _ & _).
  exists test, t. split; [exact Hlt|].
  cbn [fst snd] in *. rewrite Hsort in Hsort'. injection Hsort' as <-.
  destruct (analyze_sorted_spec kp.1 sorted_data x y Hx Hy)
    as (t2 & Ht2 & _ & _ & Hfd & Hld & _).
  rewrite Ht in Ht2. injection Ht2 as <-. rewrite Hfd, Hld. reflexivity.
Qed.

Lemma analysis_period_is_last_trend_witness :
  exists trends analyzed_tests analysis_period generated_at w',
    generate_trend_analysis
      [[("date", VStr "2023-01-01"); ("glucose", VNum 100)];
       [("date", VStr "2024-01-01"); ("glucose", VNum 104); ("ldl", VNum 130)];
       [("date", VStr "2024-02-01"); ("ldl", VNum 120)]]
      example_world
      = Ok (TrendReport trends analyzed_tests analysis_period generated_at, w')
    /\ exists test t,
         last trends = Some (test, t)
         /\ analysis_period = (tr_first_date t, tr_last_date t).
Proof.
  eexists. eexists. eexists. eexists. eexists.
  split; [vm_compute; reflexivity|].
  eapply (analysis_period_is_last_trend
            [[("date", VStr "2023-01-01"); ("glucose", VNum 100)];
             [("date", VStr "2024-01-01"); ("glucose", VNum 104); ("ldl", VNum 130)];
             [("date", VStr "2024-02-01"); ("ldl", VNum 120)]]
            example_world).
  - repeat constructor.
  - vm_compute. reflexivity.
Defined.

(** X17.  A trend whose first value is 0 is "stable" with percent_change 0,
    whatever its last value: the guard against the division by zero hides the
    change. *)
Theorem zero_first_value_is_stable (historical_data : list (dict value))
    (w w' : world) (trends : dict trend) (analyzed_tests : nat)
    (analysis_period : value * value) (generated_at : string) :
  string_dates historical_data ->
  generate_trend_analysis historical_data w
    = Ok (TrendReport trends analyzed_tests analysis_period generated_at, w') ->
  Forall (fun kt => tr_first_value kt.2 == 0 ->
                    tr_direction kt.2 = "stable" /\ tr_percent_change kt.2 == 0)
    trends.
Proof.
  intros Hdates H.
  destruct (trend_report_facts _ _ _ _ _ _ _ Hdates H) as (Hall & _).
  apply (Forall2_Forall_right _ _ _ _ Hall).
  intros kp kt (Ht & Hlen & Hstr) Hz.
  destruct (trend_of_consistent kp kt Ht Hlen Hstr) as (-> & -> & _).
  rewrite (spec_percent_change_zero _ _ Hz). split; reflexivity.
Qed.

Lemma zero_first_value_is_stable_witness :
  exists trends analyzed_tests analysis_period generated_at w',
    generate_trend_analysis
      [[("date", VStr "2024-01-01"); ("ldl", VNum 0)];
       [("date", VStr "2024-02-01"); ("ldl", VNum 190)]]
      example_world
      = Ok (TrendReport trends analyzed_tests analysis_period generated_at, w')
    /\ Forall (fun kt => tr_first_value kt.2 == 0 ->
                         tr_direction kt.2 = "stable" /\ tr_percent_change kt.2 == 0)
         trends.
Proof.
  eexists. eexists. eexists. eexists. eexists.
  split; [vm_compute; reflexivity|].
  eapply (zero_first_value_is_stable
            [[("date", VStr "2024-01-01"); ("ldl", VNum 0)];
             [("date", VStr "2024-02-01"); ("ldl", VNum 190)]]
            example_world).
  - repeat constructor.
  - vm_compute. reflexivity.
Defined.



(** X19.  Every trend of a report spans at least two data points, and its
    first date is not after its last date in the order of date strings. *)
Theorem trend_dates_ordered (historical_data : list (dict value))
    (w w' : world) (trends : dict trend) (analyzed_tests : nat)
    (analysis_period : value * value) (generated_at : string) :
  string_dates historical_data ->
  generate_trend_analysis historical_data w
    = Ok (TrendReport trends analyzed_tests analysis_period generated_at, w') ->
  Forall
    (fun kt =>
       (2 <= tr_data_points kt.2)%nat
       /\ exists s t,
            tr_first_date kt.2 = VStr s /\ tr_last_date kt.2 = VStr t
            /\ String.leb s t = true)
    trends.
Proof.
  intros Hdates H.
  destruct (trend_report_facts _ _ _ _ _ _ _ Hdates H) as (Hall & _).
  apply (Forall2_Forall_right _ _ _ _ Hall).
  intros kp kt (Ht & Hlen & Hstr).
  destruct (trend_of_consistent kp kt Ht Hlen Hstr) as (_ & _ & -> & Hd).
  split; [exact Hlen|exact Hd].
Qed.

Lemma trend_dates_ordered_witness :
  exists trends analyzed_tests analysis_period generated_at w',
    generate_trend_analysis
      [[("date", VStr "2024-03-01"); ("glucose", VNum 110)];
       [("date", VStr "2024-01-01"); ("glucose", VNum 100)];
       [("date", VStr "2024-02-01"); ("glucose", VNum 104)]]
      example_world
      = Ok (TrendReport trends analyzed_tests analysis_period generated_at, w')
    /\ Forall
         (fun kt =>
            (2 <= tr_data_points kt.2)%nat
            /\ exists s t,
                 tr_first_date kt.2 = VStr s /\ tr_last_date kt.2 = VStr t
                 /\ String.leb s t = true)
         trends.
Proof.
  eexists. eexists. eexists. eexists. eexists.
  split; [vm_compute; reflexivity|].
  eapply (trend_dates_ordered
            [[("date", VStr "2024-03-01"); ("glucose", VNum 110)];
             [("date", VStr "2024-01-01"); ("glucose", VNum 100)];
             [("date", VStr "2024-02-01"); ("glucose", VNum 104)]]
            example_world).
  - repeat constructor.
  - vm_compute. reflexivity.
Defined.

(** ** The health report *)

Lemma score_after_categorize (lab_data : dict value) (w : world)
    (cat : dict categorized_result) :
  categorize_lab_results lab_data = Ok cat ->
  exists r w1,
    calculate_health_score lab_data w = Ok (r, w1)
    /\ clock w1 = clock w
    /\ (lab_data <> [] ->
        hs_category_breakdown r = Some cat
        /\ hs_calculated_at r = Some (clock w (ticks w))
        /\ ticks w1 = S (ticks w))
    /\ (lab_data = [] ->
        hs_score r = 0 /\ hs_status r = "Insufficient Data"
        /\ hs_category_breakdown r = None /\ w1 = w).
Proof.
  intros Hcat. destruct lab_data as [|kv rest].
  - eexists. eexists. split; [reflexivity|]. split; [reflexivity|].
    split; [intros H; contradiction|]. intros _. simpl. auto.
  - destruct (calculate_health_score_categorized (kv :: rest) w cat) as (avg & -> & _);
      [discriminate|exact Hcat|].
    eexists. eexists. split; [reflexivity|]. split; [reflexivity|].
    split; [intros _; simpl; auto|discriminate].
Qed.

Lemma detect_risk_factors_for_spec (lab_data : dict value) (patient_age : value)
    (w : world) :
  (((exists k, k ∈ risk_keys /\ str_at lab_data k) \/ exists s, patient_age = VStr s)
   /\ detect_risk_factors_for lab_data patient_age w = Raise TypeError)
  \/ (~ ((exists k, k ∈ risk_keys /\ str_at lab_data k) \/ exists s, patient_age = VStr s)
      /\ exists q fs,
           patient_age = VNum q
           /\ condition_checks lab_data = Ok fs
           /\ detect_risk_factors_for lab_data patient_age w
              = Ok ({| detected_risks := age_adjust (Qceiling q) fs;
                       total_risks := length (age_adjust (Qceiling q) fs);
                       highest_risk :=
                         py_max_str (map risk_level (age_adjust (Qceiling q) fs)) "low";
                       analyzed_at := clock w (ticks w) |},
                    {| clock := clock w; ticks := S (ticks w) |})).
Proof.
  unfold detect_risk_factors_for.
  destruct (condition_checks_spec lab_data) as [[Hs Hr]|(Hn & r1 & r2 & r3 & Hr & _)].
  - left. split; [left; exact Hs|].
    destruct patient_age as [q|s]; [|rewrite Hr; reflexivity].
    unfold detect_risk_factors. rewrite Hr. reflexivity.
  - destruct patient_age as [q|s].
    + right. split; [intros [H|[s H]]; [contradiction|discriminate H]|].
      exists q, (r1 ++ r2 ++ r3). split; [reflexivity|]. split; [exact Hr|].
      apply detect_risk_factors_unfold. exact Hr.
    + left. split; [right; eauto|]. rewrite Hr. reflexivity.
Qed.


Lemma report_returns_inv (lab_data : dict value) (patient_info : option (dict value))
    (w : world) (r : health_report) (w' : world) :
  generate_health_report lab_data patient_info w = Ok (r, w') ->
  exists cat sr w1 q fs,
    categorize_lab_results lab_data = Ok cat
    /\ calculate_health_score lab_data w = Ok (sr, w1)
    /\ clock w1 = clock w
    /\ patient_age_of patient_info = VNum q
    /\ condition_checks lab_data = Ok fs
    /\ r = {| rp_patient_info := default [] patient_info;
              rp_lab_results := cat;
              rp_health_score := sr;
              rp_risk_factors :=
                risk_report_of (age_adjust (Qceiling q) fs) (clock w (ticks w1));
              rp_recommendations :=
                _generate_recommendations cat
                  (risk_report_of (age_adjust (Qceiling q) fs) (clock w (ticks w1)));
              rp_overall_assessment :=
                _generate_overall_assessment sr
                  (risk_report_of (age_adjust (Qceiling q) fs) (clock w (ticks w1)));
              rp_generated_at := clock w (S (ticks w1));
              rp_report_id := clock w (S (S (ticks w1))) |}
    /\ w' = {| clock := clock w; ticks := S (S (S (ticks w1))) |}.
Proof.
  unfold generate_health_report. intros H.
  destruct (categorize_lab_results lab_data) as [cat|e] eqn:Hcat; [|discriminate H].
  destruct (score_after_categorize lab_data w cat Hcat) as (sr & w1 & Hsr & Hclock & _).
  rewrite Hsr in H. monad_simpl.
  destruct (detect_risk_factors_for_spec lab_data (patient_age_of patient_info) w1)
    as [[_ E]|(_ & q & fs & Hage & Hfs & E)]; rewrite E in H; [discriminate H|].
  injection H as <- <-.
  exists cat, sr, w1, q, fs. rewrite Hclock. unfold risk_report_of. auto 10.
Qed.








(** The thresholds 85, 70 and 50 against the rounded score *)












(** The age of the report *)

Lemma Qceiling_gt (n : Z) (q : Q) : (n <? Qceiling q)%Z = true <-> inject_Z n < q.
Proof.
  rewrite Z.ltb_lt. split; intros H.
  - apply Qle_lt_trans with (inject_Z (Qceiling q - 1)); [|apply Qceiling_lt].
    rewrite <- Zle_Qle. lia.
  - rewrite Zlt_Qlt. apply Qlt_le_trans with q; [exact H|apply Qle_ceiling].
Qed.

(** X23.  A report made without [patient_info], or with one that has no
    "age", is made for age 50: its findings are those of the three checks,
    none escalated.  With an age that is a number, the findings are escalated
    exactly when it exceeds 60 (60.5 does, 60 does not); a report is never
    returned for an age that is a string. *)
Theorem report_age_adjustment (lab_data : dict value)
    (patient_info : option (dict value)) (w w' : world) (r : health_report) :
  generate_health_report lab_data patient_info w = Ok (r, w') ->
  exists fs,
    condition_checks lab_data = Ok fs
    /\ (age_given patient_info = None -> detected_risks (rp_risk_factors r) = fs)
    /\ (forall q, age_given patient_info = Some (VNum q) ->
                  (q <= 60 -> detected_risks (rp_risk_factors r) = fs)
                  /\ (60 < q ->
                      detected_risks (rp_risk_factors r) = map escalate fs))
    /\ (forall s, age_given patient_info <> Some (VStr s)).
Proof.
  intros H.
  destruct (report_returns_inv _ _ _ _ _ H)
    as (cat & sr & w1 & q & fs & _ & _ & _ & Hage & Hfs & -> & _).
  exists fs. split; [exact Hfs|].
  cbn [rp_risk_factors risk_report_of detected_risks]. unfold age_adjust.
  assert (Hq : forall q', patient_age_of patient_info = VNum q' -> q' = q)
    by (intros q' E; congruence).
  unfold patient_age_of, age_given in *. split; [|split].
  - intros Hnone.
    assert (E : q = 50).
    { symmetry. apply Hq. destruct patient_info as [info|]; [|reflexivity].
      rewrite Hnone. reflexivity. }
    rewrite E. reflexivity.
  - intros q' Hgiven.
    assert (E : q' = q).
    { apply Hq. destruct patient_info as [info|]; [|discriminate Hgiven].
      rewrite Hgiven. reflexivity. }
    subst q'. split; intros Hcmp.
    + destruct (60 <? Qceiling q)%Z eqn:E; [|reflexivity].
      apply (Qceiling_gt 60) in E. change (inject_Z 60) with 60 in E.
      apply Qle_not_lt in Hcmp. contradiction.
    + apply (Qceiling_gt 60) in Hcmp. rewrite Hcmp. reflexivity.
  - intros s Hgiven. destruct patient_info as [info|]; [|discriminate Hgiven].
    rewrite Hgiven in Hage. discriminate Hage.
Qed.

Lemma report_age_adjustment_witness :
  exists r w',
    generate_health_report [("hba1c", VNum 6); ("ldl", VNum 140)]
      (Some [("sex", VStr "F")]) example_world = Ok (r, w')
    /\ exists fs,
         condition_checks [("hba1c", VNum 6); ("ldl", VNum 140)] = Ok fs
         /\ (age_given (Some [("sex", VStr "F")]) = None ->
             detected_risks (rp_risk_factors r) = fs)
         /\ (forall q, age_given (Some [("sex", VStr "F")]) = Some (VNum q) ->
                       (q <= 60 -> detected_risks (rp_risk_factors r) = fs)
                       /\ (60 < q ->
                           detected_risks (rp_risk_factors r) = map escalate fs))
         /\ (forall s, age_given (Some [("sex", VStr "F")]) <> Some (VStr s)).
Proof.
  eexists. eexists. split; [vm_compute; reflexivity|].
  eapply (report_age_adjustment [("hba1c", VNum 6); ("ldl", VNum 140)]
            (Some [("sex", VStr "F")]) example_world).
  vm_compute. reflexivity.
Defined.

(** ** The second categorizer *)

Lemma llama_categorize_value_num (v min_val max_val : Q) :
  exists c,
    LlamaMedicalService.categorize_value (VNum v) min_val max_val = Ok c
    /\ (lc_level c = "critical"
        <-> v < min_val * (8 # 10) \/ max_val * (13 # 10) < v)
    /\ (lc_level c = "normal"
        <-> min_val * (9 # 10) <= v /\ v <= max_val * (12 # 10)
            /\ min_val * (8 # 10) <= v /\ v <= max_val * (13 # 10))
    /\ (lc_level c = "critical" \/ lc_level c = "slightly_critical"
        \/ lc_level c = "normal").
Proof.
  unfold LlamaMedicalService.categorize_value, py_or, py_lt_num, py_gt_num.
  unfold mbind, result_bind, mret, result_ret.
  destruct (Qlt_bool v (min_val * (8 # 10))) eqn:E1.
  { apply Qlt_bool_iff in E1. eexists. split; [reflexivity|]. cbn [lc_level].
    split; [split; auto|]. split; [|auto].
    split; [discriminate|]. intros (_ & _ & H & _).
    exfalso. exact (Qlt_not_le _ _ E1 H). }
  apply Qlt_bool_false_iff in E1.
  destruct (Qlt_bool (max_val * (13 # 10)) v) eqn:E2.
  { apply Qlt_bool_iff in E2. eexists. split; [reflexivity|]. cbn [lc_level].
    split; [split; auto|]. split; [|auto].
    split; [discriminate|]. intros (_ & _ & _ & H).
    exfalso. exact (Qlt_not_le _ _ E2 H). }
  apply Qlt_bool_false_iff in E2.
  assert (Hnc : ~ (v < min_val * (8 # 10) \/ max_val * (13 # 10) < v)).
  { intros [H|H]; [exact (Qlt_not_le _ _ H E1)|exact (Qlt_not_le _ _ H E2)]. }
  destruct (Qlt_bool v (min_val * (9 # 10))) eqn:E3.
  { apply Qlt_bool_iff in E3. eexists. split; [reflexivity|]. cbn [lc_level].
    split; [split; [discriminate|intros H; contradiction]|]. split; [|auto].
    split; [discriminate|]. intros (H & _).
    exfalso. exact (Qlt_not_le _ _ E3 H). }
  apply Qlt_bool_false_iff in E3.
  destruct (Qlt_bool (max_val * (12 # 10)) v) eqn:E4.
  { apply Qlt_bool_iff in E4. eexists. split; [reflexivity|]. cbn [lc_level].
    split; [split; [discriminate|intros H; contradiction]|]. split; [|auto].
    split; [discriminate|]. intros (_ & H & _).
    exfalso. exact (Qlt_not_le _ _ E4 H). }
  apply Qlt_bool_false_iff in E4.
  eexists. split; [reflexivity|]. cbn [lc_level].
  split; [split; [discriminate|intros H; contradiction]|]. split; [|auto].
  split; auto.
Qed.


Lemma llama_categorize_loop_cons (k : string) (x : value) (rest : dict value)
    (acc : dict llama_category) :
  LlamaMedicalService.categorize_loop ((k, x) :: rest) acc =
    match dict_get LlamaMedicalService.ranges k with
    | Some (min_val, max_val) =>
        match LlamaMedicalService.categorize_value x min_val max_val with
        | Ok category =>
            LlamaMedicalService.categorize_loop rest (dict_set acc k category)
        | Raise e => Raise e
        end
    | None => LlamaMedicalService.categorize_loop rest acc
    end.
Proof.
  cbn [LlamaMedicalService.categorize_loop].
  destruct (dict_get LlamaMedicalService.ranges k) as [[mn mx]|]; reflexivity.
Qed.


Lemma llama_categorize_loop_other (items : dict value) (acc lc : dict llama_category)
    (name : string) :
  name ∉ items.*1 ->
  LlamaMedicalService.categorize_loop items acc = Ok lc ->
  dict_get lc name = dict_get acc name.
Proof.
  revert acc. induction items as [|[k x] items IH]; intros acc Hni H.
  - injection H as <-. reflexivity.
  - rewrite llama_categorize_loop_cons in H.
    rewrite fmap_cons in Hni. apply not_elem_of_cons in Hni as [Hk Hni].
    destruct (dict_get LlamaMedicalService.ranges k) as [[mn mx]|]; [|eauto].
    destruct (LlamaMedicalService.categorize_value x mn mx) as [c|]; [|discriminate].
    rewrite (IH _ Hni H). apply dict_get_set_ne. simpl in Hk. congruence.
Qed.

Lemma llama_categorize_loop_lookup (items : dict value) (acc lc : dict llama_category)
    (name : string) (x : value) (min_val max_val : Q) :
  dict_wf items ->
  dict_get items name = Some x ->
  dict_get LlamaMedicalService.ranges name = Some (min_val, max_val) ->
  LlamaMedicalService.categorize_loop items acc = Ok lc ->
  exists c,
    LlamaMedicalService.categorize_value x min_val max_val = Ok c
    /\ dict_get lc name = Some c.
Proof.
  unfold dict_wf. revert acc.
  induction items as [|[k y] items IH]; intros acc Hwf Hget Href H.
  - discriminate.
  - rewrite llama_categorize_loop_cons in H. rewrite fmap_cons in Hwf.
    apply NoDup_cons in Hwf as [Hk Hwf]. simpl in Hk, Hget.
    destruct (String.eqb_spec k name) as [->|Hne].
    + injection Hget as ->. rewrite Href in H.
      destruct (LlamaMedicalService.categorize_value x min_val max_val) as [c|];
        [|discriminate].
      exists c. split; [reflexivity|].
      rewrite (llama_categorize_loop_other _ _ _ _ Hk H). apply dict_get_set_eq.
    + destruct (dict_get LlamaMedicalService.ranges k) as [[mn mx]|]; [|eauto].
      destruct (LlamaMedicalService.categorize_value y mn mx) as [c'|]; [|discriminate].
      eauto.
Qed.

(** The six ranges of the second categorizer are those of the analyzer. *)
Lemma llama_ranges_agree (k : string) (min_val max_val : Q) :
  dict_get LlamaMedicalService.ranges k = Some (min_val, max_val) ->
  exists ref,
    dict_get reference_ranges k = Some ref
    /\ ref_min ref = min_val /\ ref_max ref = max_val
    /\ 0 <= min_val /\ min_val <= max_val /\ 0 < max_val.
Proof.
  unfold LlamaMedicalService.ranges.
  table_cases k; try discriminate;
    intros [= <- <-]; eexists; (split; [reflexivity|]);
    repeat split; discriminate.
Qed.

Lemma percent_above (a m t : Q) : 0 < m -> (t < a / m * 100 <-> t * m < a * 100).
Proof.
  intros Hm.
  assert (E : a / m * 100 == a * 100 / m).
  { field. intros H. rewrite H in Hm. discriminate Hm. }
  rewrite E. split; intros H.
  - apply (Qmult_lt_compat_r _ _ m Hm) in H.
    assert (E' : a * 100 / m * m == a * 100).
    { field. intros H'. rewrite H' in Hm. discriminate Hm. }
    rewrite E' in H. exact H.
  - apply Qlt_shift_div_l; assumption.
Qed.

Lemma categorizers_agree_value (k : string) (v : Q) (ref : reference_range)
    (e : categorized_result) (c : llama_category) :
  0 <= ref_min ref -> ref_min ref <= ref_max ref -> 0 < ref_max ref ->
  categorize_value k v ref = Ok e ->
  LlamaMedicalService.categorize_value (VNum v) (ref_min ref) (ref_max ref) = Ok c ->
  (cr_status e = "normal" -> lc_level c = "normal")
  /\ (cr_status e = "critical" -> lc_level c = "critical")
  /\ (lc_level c = "critical" ->
      cr_status e = "warning" \/ cr_status e = "critical").
Proof.
  intros Hmin Hord Hmax He Hc.
  destruct (llama_categorize_value_num v (ref_min ref) (ref_max ref))
    as (c' & Hc' & Hcrit & Hnorm & _).
  assert (c' = c) by congruence. subst c'. clear Hc Hc'.
  rewrite Hcrit, Hnorm. clear Hcrit Hnorm.
  pose proof (categorize_value_cases _ _ _ _ He) as Hcases. clear He.
  generalize dependent (cr_status e). intros status Hcases.
  generalize dependent (ref_min ref). generalize dependent (ref_max ref).
  intros mx Hmax mn Hmin Hord Hcases.
  destruct Hcases as [(Hlo & Hnz & Ht)|[(Hlo & Hhi & Hnz & Ht)|(Hlo & Hhi & -> & _)]].
  - assert (Hpos : 0 < mn).
    { apply Qle_lteq in Hmin as [H|H]; [exact H|]. symmetry in H. contradiction. }
    unfold tier_of in Ht. rewrite !(percent_above _ _ _ Hpos) in Ht.
    destruct Ht as [(H30 & ->)|[(H30 & H15 & ->)|(H30 & H15 & ->)]].
    + split; [discriminate|]. split; [intros _; left; lra|auto].
    + split; [discriminate|]. split; [discriminate|auto].
    + split; [discriminate|]. split; [discriminate|].
      intros [H|H]; exfalso; [apply H15|]; lra.
  - unfold tier_of in Ht. rewrite !(percent_above _ _ _ Hmax) in Ht.
    destruct Ht as [(H30 & ->)|[(H30 & H15 & ->)|(H30 & H15 & ->)]].
    + split; [discriminate|]. split; [intros _; right; lra|auto].
    + split; [discriminate|]. split; [discriminate|auto].
    + split; [discriminate|]. split; [discriminate|].
      intros [H|H]; exfalso; [|apply H30]; lra.
  - split; [intros _; repeat split; lra|]. split; [discriminate|].
    intros [H|H]; exfalso; lra.
Qed.


(** X25.  On a test that both categorizers know, for a snapshot on which both
    return: what the analyzer calls "normal" the second categorizer calls
    "normal"; what the analyzer calls "critical" the second calls "critical";
    and what the second calls "critical" the analyzer calls "warning" or
    "critical". *)
Theorem categorizers_agree (lab_data : dict value) (k : string) (v : Q)
    (cat : dict categorized_result) (lc : dict llama_category) :
  dict_wf lab_data ->
  dict_get lab_data k = Some (VNum v) ->
  dict_mem LlamaMedicalService.ranges k = true ->
  categorize_lab_results lab_data = Ok cat ->
  LlamaMedicalService._categorize_lab_results lab_data = Ok lc ->
  exists e c,
    dict_get cat k = Some e
    /\ dict_get lc k = Some c
    /\ (cr_status e = "normal" -> lc_level c = "normal")
    /\ (cr_status e = "critical" -> lc_level c = "critical")
    /\ (lc_level c = "critical" ->
        cr_status e = "warning" \/ cr_status e = "critical").
Proof.
  intros Hwf Hget Hmem Hcat Hlc. unfold dict_mem in Hmem.
  destruct (dict_get LlamaMedicalService.ranges k) as [[mn mx]|] eqn:Hk;
    [|discriminate Hmem].
  destruct (llama_ranges_agree _ _ _ Hk) as (ref & Href & <- & <- & Hmin & Hord & Hmax).
  destruct (categorize_loop_lookup _ _ _ _ _ _ Hwf Hget Href Hcat) as (e & He & Hlook).
  destruct (llama_categorize_loop_lookup _ _ _ _ _ _ _ Hwf Hget Hk Hlc)
    as (c & Hc & Hlook').
  exists e, c. split; [exact Hlook|]. split; [exact Hlook'|].
  exact (categorizers_agree_value k v ref e c Hmin Hord Hmax He Hc).
Qed.

Lemma categorizers_agree_witness :
  exists cat lc,
    categorize_lab_results [("glucose", VNum 118); ("hdl", VNum 25)] = Ok cat
    /\ LlamaMedicalService._categorize_lab_results
         [("glucose", VNum 118); ("hdl", VNum 25)] = Ok lc
    /\ exists e c,
         dict_get cat "hdl" = Some e
         /\ dict_get lc "hdl" = Some c
         /\ (cr_status e = "normal" -> lc_level c = "normal")
         /\ (cr_status e = "critical" -> lc_level c = "critical")
         /\ (lc_level c = "critical" ->
             cr_status e = "warning" \/ cr_status e = "critical").
Proof.
  eexists. eexists. split; [vm_compute; reflexivity|].
  split; [vm_compute; reflexivity|].
  eapply (categorizers_agree [("glucose", VNum 118); ("hdl", VNum 25)] "hdl" 25).
  - apply (bool_decide_unpack _). vm_compute. exact I.
  - reflexivity.
  - reflexivity.
  - vm_compute. reflexivity.
  - vm_compute. reflexivity.
Defined.

(** ** The colour of a trend *)

Lemma analyze_sorted_style (test : string) (sorted_data : list data_point)
    (t : trend) :
  analyze_sorted test sorted_data = Ok t ->
  exists percent_change,
    (tr_direction t, tr_trend_color t) = direction_of test percent_change
    /\ tr_recommendation t
       = _get_trend_recommendation test (tr_direction t) percent_change.
Proof.
  unfold analyze_sorted. intros H.
  destruct (py_first (map dp_value sorted_data)) as [first_val|]; [|discriminate H].
  destruct (py_last (map dp_value sorted_data)) as [last_val|]; [|discriminate H].
  unfold mbind, result_bind in H. cbn beta iota in H.
  destruct (percent_change_of first_val last_val) as [pc|]; [|discriminate H].
  exists pc. destruct (direction_of test pc) as [direction color].
  destruct (py_first (map dp_date sorted_data)) as [first_date|]; [|discriminate H].
  destruct (py_last (map dp_date sorted_data)) as [last_date|]; [|discriminate H].
  injection H as <-. split; reflexivity.
Qed.

Lemma direction_of_colours (test : string) (percent_change : Q) :
  let direction := (direction_of test percent_change).1 in
  let color := (direction_of test percent_change).2 in
  (direction = "stable" \/ direction = "increasing" \/ direction = "decreasing")
  /\ (color = "#6B7280" <-> direction = "stable")
  /\ (color = "#EF4444"
      <-> (direction = "increasing" /\ test ∈ lower_is_better)
          \/ (direction = "decreasing" /\ test ∉ lower_is_better))
  /\ (color = "#10B981"
      <-> (direction = "increasing" /\ test ∉ lower_is_better)
          \/ (direction = "decreasing" /\ test ∈ lower_is_better)).
Proof.
  assert (Hin : str_in test lower_is_better = true <-> test ∈ lower_is_better).
  { unfold str_in, lower_is_better. simpl.
    rewrite !elem_of_cons, elem_of_nil, !orb_true_iff, !String.eqb_eq.
    intuition discriminate. }
  assert (Hcase : (str_in test lower_is_better = true /\ test ∈ lower_is_better)
                  \/ (str_in test lower_is_better = false
                      /\ test ∉ lower_is_better)).
  { destruct (str_in test lower_is_better) eqn:E.
    - left. split; [reflexivity|]. apply Hin. reflexivity.
    - right. split; [reflexivity|]. intros H. apply Hin in H. discriminate H. }
  clear Hin. unfold direction_of.
  destruct (Qlt_bool (Qabs percent_change) 5).
  { cbn [fst snd]. split; [auto|]. split; [tauto|].
    split; (split; [discriminate|intros [[H _]|[H _]]; discriminate H]). }
  destruct (Qlt_bool 0 percent_change);
    destruct Hcase as [[E Hm]|[E Hm]]; rewrite E; cbn [fst snd];
    (split; [auto|]); (split; [split; discriminate|]).
  all: split;
    (split;
     [intros H;
      first [discriminate H
            |left; split; [reflexivity|assumption]
            |right; split; [reflexivity|assumption]]
     |intros [[H1 H2]|[H1 H2]];
      first [reflexivity|discriminate H1|contradiction]]).
Qed.

Lemma analyze_loop_Forall (P : string * trend -> Prop)
    (items : dict (list data_point)) (trends0 trends : dict trend)
    (sd0 sd : option (list data_point)) :
  (forall test sorted_data t, analyze_sorted test sorted_data = Ok t -> P (test, t)) ->
  Forall P trends0 ->
  analyze_loop items trends0 sd0 = Ok (trends, sd) ->
  Forall P trends.
Proof.
  intros HP. revert trends0 sd0.
  induction items as [|[test data_points] rest IH]; intros trends0 sd0 H0 H.
  - injection H as <- _. exact H0.
  - rewrite analyze_loop_cons in H.
    destruct (2 <=? length data_points)%nat; [|eauto].
    destruct (sorted_by_date data_points) as [sorted'|]; [|discriminate H].
    destruct (2 <=? length (map dp_value sorted'))%nat; [|eauto].
    destruct (analyze_sorted test sorted') as [t|] eqn:Et; [|discriminate H].
    apply (IH _ _ (Forall_dict_set P trends0 test t H0 (HP _ _ _ Et)) H).
Qed.

(** X26.  In a trend report the colour of a trend is gray exactly when the
    trend is stable; red exactly when glucose, ldl or creatinine is
    increasing or any other test is decreasing; and green exactly when
    glucose, ldl or creatinine is decreasing or any other test is increasing.
    So a rising hba1c or triglycerides is shown green. *)
Theorem trend_colour_scheme (historical_data : list (dict value))
    (w w' : world) (trends : dict trend) (analyzed_tests : nat)
    (analysis_period : value * value) (generated_at : string) :
  generate_trend_analysis historical_data w
    = Ok (TrendReport trends analyzed_tests analysis_period generated_at, w') ->
  Forall
    (fun kt =>
       (tr_direction kt.2 = "stable" \/ tr_direction kt.2 = "increasing"
        \/ tr_direction kt.2 = "decreasing")
       /\ (tr_trend_color kt.2 = "#6B7280" <-> tr_direction kt.2 = "stable")
       /\ (tr_trend_color kt.2 = "#EF4444"
           <-> (tr_direction kt.2 = "increasing" /\ kt.1 ∈ lower_is_better)
               \/ (tr_direction kt.2 = "decreasing" /\ kt.1 ∉ lower_is_better))
       /\ (tr_trend_color kt.2 = "#10B981"
           <-> (tr_direction kt.2 = "increasing" /\ kt.1 ∉ lower_is_better)
               \/ (tr_direction kt.2 = "decreasing" /\ kt.1 ∈ lower_is_better)))
    trends.
Proof.
  unfold generate_trend_analysis. intros H.
  destruct (length historical_data <? 2)%nat; [discriminate H|].
  destruct (group_records historical_data [] w) as [test_data w1].
  destruct (analyze_loop test_data [] None) as [[trends' sd]|] eqn:Hloop;
    [|discriminate H].
  assert (trends' = trends).
  { unfold mbind, result_bind in H. cbn beta iota in H.
    destruct sd as [sorted'|]; [|discriminate H].
    destruct (py_first sorted'); [|discriminate H].
    destruct (py_last sorted'); [|discriminate H].
    destruct (datetime_now_isoformat w1) as [now w2]. cbn in H.
    unfold mret, result_ret in H. congruence. }
  subst trends'.
  eapply analyze_loop_Forall; [|apply Forall_nil_2|exact Hloop].
  intros test sorted_data t Ht. cbn [fst snd].
  destruct (analyze_sorted_style _ _ _ Ht) as (pc & Hdir & _).
  pose proof (direction_of_colours test pc) as Hc. cbv zeta in Hc.
  rewrite <- Hdir in Hc. exact Hc.
Qed.

Lemma trend_colour_scheme_witness :
  exists trends analyzed_tests analysis_period generated_at w',
    generate_trend_analysis
      [[("date", VStr "2024-01-01"); ("glucose", VNum 100); ("hba1c", VNum 6)];
       [("date", VStr "2024-02-01"); ("glucose", VNum 120); ("hba1c", VNum 7)]]
      example_world
      = Ok (TrendReport trends analyzed_tests analysis_period generated_at, w')
    /\ Forall
         (fun kt =>
            (tr_direction kt.2 = "stable" \/ tr_direction kt.2 = "increasing"
             \/ tr_direction kt.2 = "decreasing")
            /\ (tr_trend_color kt.2 = "#6B7280" <-> tr_direction kt.2 = "stable")
            /\ (tr_trend_color kt.2 = "#EF4444"
                <-> (tr_direction kt.2 = "increasing" /\ kt.1 ∈ lower_is_better)
                    \/ (tr_direction kt.2 = "decreasing"
                        /\ kt.1 ∉ lower_is_better))
            /\ (tr_trend_color kt.2 = "#10B981"
                <-> (tr_direction kt.2 = "increasing" /\ kt.1 ∉ lower_is_better)
                    \/ (tr_direction kt.2 = "decreasing"
                        /\ kt.1 ∈ lower_is_better)))
         trends.
Proof.
  eexists. eexists. eexists. eexists. eexists.
  split; [vm_compute; reflexivity|].
  eapply (trend_colour_scheme
            [[("date", VStr "2024-01-01"); ("glucose", VNum 100); ("hba1c", VNum 6)];
             [("date", VStr "2024-02-01"); ("glucose", VNum 120); ("hba1c", VNum 7)]]
            example_world).
  vm_compute. reflexivity.
Defined.

(** ** The body systems *)
























